(** * Benchmark suite: a shallow embedding of the Python sources

    The repository is a set of stand-alone benchmark scripts
    ([cpu_benchmark.py], [memory_benchmark.py], [storage_benchmark.py],
    [network_benchmark.py], [gpu_benchmark.py], [tenserflow_benchmark.py]).
    Every script has the same shape: [get_system_info] builds a dict of host
    facts, a [run_*] function evaluates one dict display whose values are
    the calls of the benchmark functions, prints one line per entry and
    hands both dicts to [log_results], which appends a text block to a log
    file. The CPU, memory, storage and network scripts are embedded, and the
    host profile and the run of the GPU script; the TensorFlow script has
    the shape of the others and is left out. A workload that computes and drops its
    result shows in a unit only as the time between the two readings of the
    clock; what a unit asks of the host (memory, files) is kept.

    Python values are embedded as follows: [int] is [Z], [float] is an IEEE
    binary64 number ([spec_float] at precision 53), [str] is [string], a
    [dict] is an insertion-ordered association list without duplicate keys,
    a [list] is a [list] with checked indexing, and a raised exception is
    the [Raise] result of a computation. *)

From Stdlib Require Import ZArith String Ascii List Lia Znumtheory.
From Stdlib Require Import Floats.SpecFloat.
From Stdlib Require Import Sorting.Sorted.
From Equations Require Import Equations.
From stdpp Require Import base option list gmap strings pretty.

Local Open Scope Z_scope.

(** ** Exceptions and results *)

Inductive exn : Type :=
  | IndexError
  | TypeError (msg : string)
  | ValueError (msg : string)
  | NameError (name : string)
  | MemoryError
  | OSError (msg : string)
  | OverflowError
  | ZeroDivisionError
  | Exception (msg : string).

Inductive result (A : Type) : Type :=
  | Ok (a : A)
  | Raise (e : exn).
Arguments Ok {A} a.
Arguments Raise {A} e.

Global Instance result_ret : MRet result := fun A a => Ok a.
Global Instance result_bind : MBind result := fun A B f m =>
  match m with
  | Ok a => f a
  | Raise e => Raise e
  end.

(** A [for] loop whose body may raise: the first exception leaves the loop. *)
Fixpoint for_each {A S : Type} (body : S -> A -> result S) (l : list A) (s : S)
  : result S :=
  match l with
  | [] => Ok s
  | x :: l' => s' ← body s x; for_each body l' s'
  end.

(** ** Integers, ranges and lists *)

(** [range(a, b)] *)
Definition py_range (a b : Z) : list Z := seqZ a (b - a).

(** [range(a, b, s)]; a zero step is a [ValueError] in Python and does not
    occur in the sources (the only stepped range has step [p >= 2]). *)
Definition py_range3 (a b s : Z) : list Z :=
  if 0 <? s then (fun k => a + k * s) <$> seqZ 0 ((b - a + s - 1) `div` s)
  else if s <? 0 then (fun k => a + k * s) <$> seqZ 0 ((a - b - s - 1) `div` (- s))
  else [].

(** Position of the index [i] in a list of length [len]: negative indices
    count from the end, anything outside is an [IndexError]. *)
Definition py_index (len : nat) (i : Z) : result nat :=
  let j := if i <? 0 then i + Z.of_nat len else i in
  if (0 <=? j) && (j <? Z.of_nat len) then Ok (Z.to_nat j) else Raise IndexError.

(** [l[i]] *)
Definition list_getitem {A : Type} (l : list A) (i : Z) : result A :=
  j ← py_index (length l) i;
  match l !! j with
  | Some x => Ok x
  | None => Raise IndexError
  end.

(** [l[i] = x] *)
Definition list_setitem {A : Type} (l : list A) (i : Z) (x : A) : result (list A) :=
  j ← py_index (length l) i;
  Ok (<[j := x]> l).

(** [a // b] *)
Definition py_floordiv (a b : Z) : result Z :=
  if b =? 0 then Raise ZeroDivisionError else Ok (a `div` b).

(** ** Strings *)

(** The line feed written ["\n"] in the sources. *)
Definition NL : string := String "010"%char EmptyString.

(** [s * n] *)
Definition str_mul (s : string) (n : Z) : string :=
  fold_right String.app "" (replicate (Z.to_nat n) s).

(** [str(z)] for an [int]. *)
Definition str_int (z : Z) : string := pretty z.

(** [s[:n]] *)
Fixpoint str_take (n : nat) (s : string) : string :=
  match n, s with
  | O, _ => EmptyString
  | S n', String c s' => String c (str_take n' s')
  | S _, EmptyString => EmptyString
  end.

(** [s[n:]] *)
Fixpoint str_drop (n : nat) (s : string) : string :=
  match n, s with
  | O, _ => s
  | S n', String _ s' => str_drop n' s'
  | S _, EmptyString => EmptyString
  end.

(** ** Floats

    A Python [float] is an IEEE 754 binary64 number. *)

Definition float : Type := spec_float.
Definition float_sub : float -> float -> float := SFsub 53 1024.
Definition float_div : float -> float -> float := SFdiv 53 1024.
Definition float_ltb : float -> float -> bool := SFltb.

(** [float(z)], correctly rounded. *)
Definition float_of_Z (z : Z) : float := binary_normalize 53 1024 z 0 false.

(** The quotient [num / den] rounded to the nearest integer, ties to even
    ([0 <= num], [0 < den]). *)
Definition round_half_even (num den : Z) : Z :=
  let q := num `div` den in
  let r := num `mod` den in
  if 2 * r <? den then q
  else if den <? 2 * r then q + 1
  else if Z.even q then q else q + 1.

(** The exact value [m * 2^e], in hundredths, rounded as the formatting of
    floats rounds it (correctly, ties to even). *)
Definition hundredths (m : positive) (e : Z) : Z :=
  if 0 <=? e then Z.pos m * 2 ^ e * 100
  else round_half_even (Z.pos m * 100) (2 ^ (- e)).

Definition two_digits (k : Z) : string :=
  (if k <? 10 then "0" else "") +:+ pretty k.

Definition format_fixed2 (neg : bool) (h : Z) : string :=
  (if neg then "-" else "") +:+ pretty (h `div` 100) +:+ "." +:+ two_digits (h `mod` 100).

(** [format(x, ".2f")] for a [float]. *)
Definition format_2f (x : float) : string :=
  match x with
  | S754_zero s => format_fixed2 s 0
  | S754_infinity s => if s then "-inf" else "inf"
  | S754_nan => "nan"
  | S754_finite s m e => format_fixed2 s (hundredths m e)
  end.

Definition is_finite (x : float) : bool :=
  match x with
  | S754_zero _ | S754_finite _ _ _ => true
  | _ => false
  end.

(** What the interpreter provides and the sources only call: the shortest
    representation [str(x)] of a float, [round(x, ndigits)], and
    [int(num ** 0.5)] on an [int]. *)
Class PyRuntime : Type := {
  float_repr : float -> string;
  py_round : float -> Z -> float;
  int_pow_half : Z -> Z;
}.

(** ** Values *)

Inductive pyobj : Type :=
  | PyNone
  | PyInt (z : Z)
  | PyFloat (x : float)
  | PyStr (s : string).

(** [str(v)], which is what [f"{v}"] inserts. *)
Definition py_str `{PyRuntime} (v : pyobj) : string :=
  match v with
  | PyNone => "None"
  | PyInt z => str_int z
  | PyFloat x => float_repr x
  | PyStr s => s
  end.

(** [f"{v:.2f}"] *)
Definition format_spec_2f (v : pyobj) : result string :=
  match v with
  | PyNone => Raise (TypeError "unsupported format string passed to NoneType.__format__")
  | PyInt z =>
      let x := float_of_Z z in
      if is_finite x then Ok (format_2f x) else Raise OverflowError
  | PyFloat x => Ok (format_2f x)
  | PyStr _ => Raise (ValueError "Unknown format code 'f' for object of type 'str'")
  end.

(** [isinstance(v, (int, float))] *)
Definition is_int_or_float (v : pyobj) : bool :=
  match v with
  | PyInt _ | PyFloat _ => true
  | _ => false
  end.

Definition of_optional_int (o : option Z) : pyobj :=
  match o with
  | Some z => PyInt z
  | None => PyNone
  end.

(** ** Dicts

    A [dict] keeps its keys in insertion order and holds each key once:
    storing under a key that is present replaces the value in place. *)

Definition dict (V : Type) : Type := list (string * V).

Fixpoint dict_setitem {V : Type} (k : string) (v : V) (d : dict V) : dict V :=
  match d with
  | [] => [(k, v)]
  | (k', v') :: d' =>
      if decide (k' = k) then (k, v) :: d' else (k', v') :: dict_setitem k v d'
  end.

Fixpoint dict_get {V : Type} (k : string) (d : dict V) : option V :=
  match d with
  | [] => None
  | (k', v') :: d' => if decide (k' = k) then Some v' else dict_get k d'
  end.

(** [d.items()] *)
Definition dict_items {V : Type} (d : dict V) : list (string * V) := d.

Definition dict_keys {V : Type} (d : dict V) : list string := d.*1.

(** ** The host and the world a script runs in *)

(** [psutil.virtual_memory()], [psutil.swap_memory()] and one entry of
    [psutil.disk_partitions()], with the fields the sources read. *)
Record svmem : Type := { vm_total : Z; vm_available : Z; vm_used : Z; vm_percent : float }.
Record sswap : Type := { sw_total : Z; sw_used : Z }.
Record sdiskpart : Type := { dp_device : string; dp_mountpoint : string; dp_fstype : string }.

(** The fact sources of the host. A source that is not available raises. *)
Record Host : Type := {
  platform_platform : result string;
  platform_machine : result string;
  platform_processor : result string;
  psutil_cpu_count : bool -> result (option Z);
  psutil_virtual_memory : result svmem;
  psutil_swap_memory : result sswap;
  psutil_disk_partitions : result (list sdiskpart);
  psutil_disk_usage : string -> result Z;
  psutil_net_if_addrs : result (list string);
  sys_version : string;
  (** bytes one allocation can obtain; a larger request is a [MemoryError] *)
  mem_free : Z;
}.

(** The state a script reads and changes: the host, the readings that
    successive calls of [time.time()] return, the text files by path, the
    file objects that are open, and what was printed. *)
Record World : Type := {
  w_host : Host;
  w_time : nat -> float;
  w_now : nat;
  w_files : gmap string string;
  w_open : list string;
  w_stdout : string;
}.

Definition set_now (k : nat) (w : World) : World :=
  {| w_host := w_host w; w_time := w_time w; w_now := k;
     w_files := w_files w; w_open := w_open w; w_stdout := w_stdout w |}.
Definition set_files (fs : gmap string string) (w : World) : World :=
  {| w_host := w_host w; w_time := w_time w; w_now := w_now w;
     w_files := fs; w_open := w_open w; w_stdout := w_stdout w |}.
Definition set_open (o : list string) (w : World) : World :=
  {| w_host := w_host w; w_time := w_time w; w_now := w_now w;
     w_files := w_files w; w_open := o; w_stdout := w_stdout w |}.
Definition set_stdout (s : string) (w : World) : World :=
  {| w_host := w_host w; w_time := w_time w; w_now := w_now w;
     w_files := w_files w; w_open := w_open w; w_stdout := s |}.

(** A statement or call: it returns or raises, and leaves a world behind
    either way. *)
Definition M (A : Type) : Type := World -> result A * World.

Global Instance M_ret : MRet M := fun A a w => (Ok a, w).
Global Instance M_bind : MBind M := fun A B f m w =>
  match m w with
  | (Ok a, w') => f a w'
  | (Raise e, w') => (Raise e, w')
  end.

Notation "m ;; k" := (mbind (fun _ => k) m)
  (at level 100, k at level 200, right associativity) : stdpp_scope.

Definition lift {A : Type} (r : result A) : M A := fun w => (r, w).

(** [for x in l: body] *)
Fixpoint for_ {A : Type} (l : list A) (body : A -> M unit) : M unit :=
  match l with
  | [] => mret tt
  | x :: l' => body x;; for_ l' body
  end.

(** [time.time()]: the system clock, as the next reading of the world. *)
Definition time_time : M float := fun w =>
  (Ok (w_time w (w_now w)), set_now (S (w_now w)) w).

(** [print(s)] *)
Definition print (s : string) : M unit := fun w =>
  (Ok tt, set_stdout (w_stdout w +:+ s +:+ NL) w).

(** A call of one of the fact sources of the host. *)
Definition host_call {A : Type} (f : Host -> result A) : M A := fun w =>
  (f (w_host w), w).

(** An allocation of [size] bytes, as [bytearray(size)] and
    [os.urandom(size)] make it: a negative size is refused with the
    [ValueError] whose message is [refusal], and a size beyond what the
    host can give is a [MemoryError]. *)
Definition py_alloc (refusal : string) (size : Z) : M unit := fun w =>
  if size <? 0 then (Raise (ValueError refusal), w)
  else if size <=? mem_free (w_host w) then (Ok tt, w)
  else (Raise MemoryError, w).

(** What [bytearray] and [os.urandom] say to a negative size. *)
Definition negative_count : string := "negative count".
Definition negative_argument : string := "negative argument not allowed".

(** A NumPy array of the given shape with items of [itemsize] bytes
    ([np.ones], [np.zeros], [np.random.rand], [np.random.randint], and the
    results of [np.copy], [np.dot] and [np.sort]): a negative dimension is
    refused. *)
Definition np_alloc (shape : list Z) (itemsize : Z) : M unit :=
  if forallb (fun d => 0 <=? d) shape
  then py_alloc "negative dimensions are not allowed"
         (itemsize * fold_right Z.mul 1 shape)
  else lift (Raise (ValueError "negative dimensions are not allowed")).

(** *** Files *)

Inductive open_mode : Type := ModeAppend | ModeWriteBinary | ModeReadBinary.

Fixpoint remove_first (x : string) (l : list string) : list string :=
  match l with
  | [] => []
  | y :: l' => if decide (y = x) then l' else y :: remove_first x l'
  end.

(** [open(path, mode)]: ["a"] and ["wb"] create the file, ["wb"] empties
    it, ["rb"] needs it to exist. The file object is named by its path. *)
Definition py_open (path : string) (mode : open_mode) : M string := fun w =>
  match mode with
  | ModeAppend =>
      (Ok path, set_open (path :: w_open w)
                  (set_files (<[path := default "" (w_files w !! path)]> (w_files w)) w))
  | ModeWriteBinary =>
      (Ok path, set_open (path :: w_open w) (set_files (<[path := ""]> (w_files w)) w))
  | ModeReadBinary =>
      match w_files w !! path with
      | Some _ => (Ok path, set_open (path :: w_open w) w)
      | None => (Raise (OSError "No such file or directory"), w)
      end
  end.

(** [f.close()] *)
Definition file_close (f : string) (w : World) : World :=
  set_open (remove_first f (w_open w)) w.

(** [f.write(s)]: the text goes to the end of the file. *)
Definition file_write (f : string) (s : string) : M unit := fun w =>
  (Ok tt, set_files (<[f := default "" (w_files w !! f) +:+ s]> (w_files w)) w).

(** [with open(path, mode) as f: body]: the file object is closed when the
    body returns and when it raises. *)
Definition with_open {A : Type} (path : string) (mode : open_mode)
    (body : string -> M A) : M A := fun w =>
  match py_open path mode w with
  | (Ok f, w1) => let '(r, w2) := body f w1 in (r, file_close f w2)
  | (Raise e, w1) => (Raise e, w1)
  end.

(** [os.path.exists(path)] *)
Definition os_path_exists (path : string) : M bool := fun w =>
  (Ok (bool_decide (is_Some (w_files w !! path))), w).

(** [os.remove(path)] *)
Definition os_remove (path : string) : M unit := fun w =>
  match w_files w !! path with
  | Some _ => (Ok tt, set_files (delete path (w_files w)) w)
  | None => (Raise (OSError "No such file or directory"), w)
  end.

(** [open(path, "w")] empties or creates the file as ["wb"] does; what is
    written is a text in both cases. *)
Definition mode_w : open_mode := ModeWriteBinary.

(** [open(path, "r+b")] needs the file to exist and keeps its content, as
    ["rb"] does. *)
Definition mode_r_plus_b : open_mode := ModeReadBinary.

(** [f.seek(pos)], which returns the new position. *)
Definition file_seek (f : string) (pos : Z) : M Z :=
  if pos <? 0 then lift (Raise (OSError "Invalid argument")) else mret pos.

(** [f.write(data)] at position [pos] of a file opened for update: the
    data replace what stood there; a gap between the end of the file
    and [pos] is filled with zero bytes, and the file grows when the data
    go past its end. *)
Definition file_write_at (f : string) (pos : Z) (data : string) : M unit := fun w =>
  let old := default "" (w_files w !! f) in
  let k := Z.to_nat pos in
  (Ok tt,
   set_files
     (<[f := str_take k old
             +:+ str_mul (String "000"%char EmptyString) (pos - Z.of_nat (String.length old))
             +:+ data
             +:+ str_drop (k + String.length data) old]> (w_files w)) w).

(** *** Dict displays *)

(** [{k1: e1, k2: e2, ...}]: the values are computed from left to right and
    stored one by one; the first one that raises ends the display. *)
Fixpoint dict_display {V : Type} (entries : list (string * M V)) (d : dict V)
  : M (dict V) :=
  match entries with
  | [] => mret d
  | (k, e) :: rest => v ← e; dict_display rest (dict_setitem k v d)
  end.

(** [round(total / (1024 ** 3), 2)]; the quotient of two ints below [2^53]
    is the float quotient of their conversions. *)
Definition gigabytes `{PyRuntime} (total : Z) : pyobj :=
  PyFloat (py_round (float_div (float_of_Z total) (float_of_Z (1024 ^ 3))) 2).

(** A fact of the host profile: the source is called and its value stored. *)
Definition fact {A : Type} (source : Host -> result A) (conv : A -> pyobj) : M pyobj :=
  x ← host_call source; mret (conv x).

(** [sys.version] is an attribute; reading it cannot fail. *)
Definition sys_version_fact : M pyobj :=
  host_call (fun h => Ok (PyStr (sys_version h))).

(** How a script ends: exit status 0 when its last statement returns, 1
    after an exception nobody caught. *)
Definition exit_status {A : Type} (r : result A) : Z :=
  match r with
  | Ok _ => 0
  | Raise _ => 1
  end.

(** * cpu_benchmark.py *)

Module Cpu.
Section Script.
Context `{PyRuntime}.

Definition LOG_FILE : string := "benchmark_log.txt".

Definition get_system_info : M (dict pyobj) :=
  dict_display
    [ ("CPU", fact platform_platform PyStr);
      ("Architecture", fact platform_machine PyStr);
      ("Cores", fact (fun h => psutil_cpu_count h true) of_optional_int);
      ("Physical Cores", fact (fun h => psutil_cpu_count h false) of_optional_int);
      ("Python Version", sys_version_fact) ] [].

(** [all(num % i != 0 for i in range(2, int(num**0.5) + 1))] *)
Definition is_prime (num : Z) : bool :=
  forallb (fun i => negb (num `mod` i =? 0)) (py_range 2 (int_pow_half num + 1)).

(** The list [primes] at the end of the loop of [benchmark_prime_numbers]. *)
Definition prime_numbers_body (n : Z) : list Z :=
  fold_left (fun primes num => if is_prime num then primes ++ [num] else primes)
            (py_range 2 n) [].

Definition benchmark_prime_numbers (n : Z) : M (pyobj * string) :=
  start_time ← time_time;
  let primes := prime_numbers_body n in
  end_time ← time_time;
  mret (PyFloat (float_sub end_time start_time), "n=" +:+ str_int n).

(** [for i in range(p * p, n + 1, p): primes[i] = False] *)
Definition mark_multiples (n p : Z) (primes : list bool) : result (list bool) :=
  for_each (fun primes i => list_setitem primes i false)
           (py_range3 (p * p) (n + 1) p) primes.

(** One pass through the body of the [while] loop. *)
Definition sieve_step (n p : Z) (primes : list bool) : result (list bool) :=
  flag ← list_getitem primes p;
  if flag : bool then mark_multiples n p primes else Ok primes.

(** [while (p * p <= n): ...; p += 1] *)
Equations? sieve_while (n p : Z) (primes : list bool) : result (list bool)
  by wf (Z.to_nat (n + 1 - p)) lt :=
  sieve_while n p primes with Z_le_dec (p * p) n := {
    | left _ with sieve_step n p primes := {
        | Ok primes' => sieve_while n (p + 1) primes'
        | Raise e => Raise e }
    | right _ => Ok primes }.
Proof. nia. Qed.

(** [[p for p in range(2, n) if primes[p]]] *)
Fixpoint select_marked (primes : list bool) (l : list Z) : result (list Z) :=
  match l with
  | [] => Ok []
  | p :: l' =>
      flag ← list_getitem primes p;
      rest ← select_marked primes l';
      Ok (if flag : bool then p :: rest else rest)
  end.

(** The list [prime_numbers] that [benchmark_sieve_of_eratosthenes] builds. *)
Definition sieve_of_eratosthenes_body (n : Z) : result (list Z) :=
  let primes := replicate (Z.to_nat (n + 1)) true in
  primes' ← sieve_while n 2 primes;
  select_marked primes' (py_range 2 n).

Definition benchmark_sieve_of_eratosthenes (n : Z) : M (pyobj * string) :=
  start_time ← time_time;
  prime_numbers ← lift (sieve_of_eratosthenes_body n);
  end_time ← time_time;
  mret (PyFloat (float_sub end_time start_time), "n=" +:+ str_int n).

(** The hashing loop computes digests and drops them. *)
Definition benchmark_sha256 (iterations : Z) : M (pyobj * string) :=
  start_time ← time_time;
  end_time ← time_time;
  mret (PyFloat (float_sub end_time start_time), "iterations=" +:+ str_int iterations).

Definition benchmark_aes_encryption (iterations : Z) : M (pyobj * string) :=
  start_time ← time_time;
  py_alloc negative_argument 16;;
  py_alloc negative_argument 16;;
  end_time ← time_time;
  mret (PyFloat (float_sub end_time start_time), "iterations=" +:+ str_int iterations).

Definition benchmark_gzip_compression (size : Z) : M (pyobj * string) :=
  start_time ← time_time;
  py_alloc negative_argument size;;
  end_time ← time_time;
  mret (PyFloat (float_sub end_time start_time), "size=" +:+ str_int size +:+ " bytes").

Definition benchmark_numpy_operations (size : Z) : M (pyobj * string) :=
  start_time ← time_time;
  np_alloc [size; size] 8;;
  np_alloc [size; size] 8;;
  np_alloc [size; size] 8;;
  end_time ← time_time;
  mret (PyFloat (float_sub end_time start_time),
        "matrix_size=" +:+ str_int size +:+ "x" +:+ str_int size).

Definition benchmark_sorting (n : Z) : M (pyobj * string) :=
  np_alloc [n] 8;;
  start_time ← time_time;
  np_alloc [n] 8;;
  end_time ← time_time;
  mret (PyFloat (float_sub end_time start_time), "n=" +:+ str_int n).

(** The worker threads fill a list that is dropped; they are joined
    before the second reading of the clock. *)
Definition benchmark_multi_threaded_prime (n threads : Z) : M (pyobj * string) :=
  start_time ← time_time;
  step ← lift (py_floordiv n threads);
  end_time ← time_time;
  mret (PyFloat (float_sub end_time start_time),
        "n=" +:+ str_int n +:+ ", threads=" +:+ str_int threads).

(** [find_primes(start, end, primes_list)], the function one worker thread
    runs: the list after the call. *)
Definition find_primes (start end_ : Z) (primes_list : list Z) : list Z :=
  fold_left (fun primes_list num =>
               if is_prime num then primes_list ++ [num] else primes_list)
            (py_range start end_) primes_list.

(** The [(start, end)] arguments of the workers that
    [benchmark_multi_threaded_prime] starts: [(i * step, (i + 1) * step)]
    for [i] in [range(threads)], with [step = n // threads]. *)
Definition worker_spans (n threads : Z) : result (list (Z * Z)) :=
  step ← py_floordiv n threads;
  Ok ((fun i => (i * step, (i + 1) * step)) <$> py_range 0 threads).

Definition log_results (system_info : dict pyobj) (results : dict (pyobj * string))
  : M unit :=
  with_open LOG_FILE ModeAppend (fun log =>
    file_write log (str_mul "=" 50 +:+ NL);;
    file_write log ("CPU Benchmark Run " +:+ NL);;
    file_write log (str_mul "=" 50 +:+ NL);;
    for_ (dict_items system_info) (fun '(key, value) =>
      file_write log (key +:+ ": " +:+ py_str value +:+ NL));;
    file_write log (NL +:+ "Benchmark Results:" +:+ NL);;
    for_ (dict_items results) (fun '(test, (result, params)) =>
      shown ← lift (format_spec_2f result);
      file_write log (test +:+ " (" +:+ params +:+ "): " +:+ shown +:+ " sec" +:+ NL));;
    file_write log (NL +:+ NL)).

Definition run_benchmarks : M unit :=
  system_info ← get_system_info;
  print ("Running CPU Benchmarks..." +:+ NL);;
  results ← dict_display
    [ ("Prime Number Calculation (Brute-Force)", benchmark_prime_numbers 50000);
      ("Prime Number Calculation (Sieve of Eratosthenes)",
        benchmark_sieve_of_eratosthenes 50000);
      ("SHA256 Hashing", benchmark_sha256 100000);
      ("AES Encryption", benchmark_aes_encryption 100000);
      ("GZIP Compression", benchmark_gzip_compression 5000000);
      ("NumPy Matrix Multiplication", benchmark_numpy_operations 500);
      ("Sorting Algorithm", benchmark_sorting 1000000);
      ("Multi-threaded Prime Calculation", benchmark_multi_threaded_prime 10000 4) ] [];
  for_ (dict_items results) (fun '(test, (result, params)) =>
    shown ← lift (format_spec_2f result);
    print (test +:+ " (" +:+ params +:+ "): " +:+ shown +:+ " sec"));;
  log_results system_info results;;
  print (NL +:+ "Benchmark results saved to: " +:+ LOG_FILE).

End Script.
End Cpu.

(** * memory_benchmark.py *)

Module Memory.
Section Script.
Context `{PyRuntime}.

Definition LOG_FILE : string := "benchmark_memory_log.txt".

Definition get_system_info : M (dict pyobj) :=
  mem ← host_call psutil_virtual_memory;
  dict_display
    [ ("CPU", fact platform_platform PyStr);
      ("Architecture", fact platform_machine PyStr);
      ("Cores", fact (fun h => psutil_cpu_count h true) of_optional_int);
      ("Physical Cores", fact (fun h => psutil_cpu_count h false) of_optional_int);
      ("Total Memory (GB)", mret (gigabytes (vm_total mem)));
      ("Available Memory (GB)", mret (gigabytes (vm_available mem)));
      ("Used Memory (GB)", mret (gigabytes (vm_used mem)));
      ("Memory Usage (%)", mret (PyFloat (vm_percent mem)));
      ("Swap Total (GB)", fact psutil_swap_memory (fun s => gigabytes (sw_total s)));
      ("Swap Used (GB)", fact psutil_swap_memory (fun s => gigabytes (sw_used s)));
      ("Python Version", sys_version_fact) ] [].

(** The write loop and the sum work on the block that was allocated. *)
Definition benchmark_memory_read_write (size_mb : Z) : M (pyobj * string) :=
  let size_bytes := size_mb * 1024 * 1024 in
  py_alloc negative_count size_bytes;;
  start_time ← time_time;
  end_time ← time_time;
  mret (PyFloat (float_sub end_time start_time), "size=" +:+ str_int size_mb +:+ "MB").

Definition benchmark_memory_bandwidth (size_mb : Z) : M (pyobj * string) :=
  let size_elements := (size_mb * 1024 * 1024) `div` 8 in
  np_alloc [size_elements] 8;;
  start_time ← time_time;
  np_alloc [size_elements] 8;;
  end_time ← time_time;
  mret (PyFloat (float_sub end_time start_time), "size=" +:+ str_int size_mb +:+ "MB").

Definition benchmark_memory_allocation (size_mb : Z) : M (pyobj * string) :=
  let size_bytes := size_mb * 1024 * 1024 in
  start_time ← time_time;
  py_alloc negative_count size_bytes;;
  end_time ← time_time;
  mret (PyFloat (float_sub end_time start_time), "size=" +:+ str_int size_mb +:+ "MB").

Definition benchmark_page_faults (iterations : Z) : M (pyobj * string) :=
  np_alloc [iterations] 4;;
  start_time ← time_time;
  end_time ← time_time;
  mret (PyFloat (float_sub end_time start_time), "iterations=" +:+ str_int iterations).

Definition benchmark_random_access_latency (iterations : Z) : M (pyobj * string) :=
  let size := iterations in
  np_alloc [size] 4;;
  np_alloc [size] 8;;
  start_time ← time_time;
  end_time ← time_time;
  mret (PyFloat (float_sub end_time start_time), "iterations=" +:+ str_int iterations).

Definition log_results (system_info : dict pyobj) (results : dict (pyobj * string))
  : M unit :=
  with_open LOG_FILE ModeAppend (fun log =>
    file_write log (str_mul "=" 50 +:+ NL);;
    file_write log ("Memory Benchmark Run " +:+ NL);;
    file_write log (str_mul "=" 50 +:+ NL);;
    for_ (dict_items system_info) (fun '(key, value) =>
      file_write log (key +:+ ": " +:+ py_str value +:+ NL));;
    file_write log (NL +:+ "Memory Benchmark Results:" +:+ NL);;
    for_ (dict_items results) (fun '(test, (result, params)) =>
      shown ← lift (format_spec_2f result);
      file_write log (test +:+ " (" +:+ params +:+ "): " +:+ shown +:+ " sec" +:+ NL));;
    file_write log (NL +:+ NL)).

Definition run_memory_benchmarks : M unit :=
  system_info ← get_system_info;
  print ("Running Memory Benchmarks..." +:+ NL);;
  results ← dict_display
    [ ("Memory Read/Write Speed", benchmark_memory_read_write 500);
      ("Memory Bandwidth Test", benchmark_memory_bandwidth 500);
      ("Memory Allocation Stress Test", benchmark_memory_allocation 1000);
      ("Page Faults Test", benchmark_page_faults 1000000);
      ("Random Access Latency", benchmark_random_access_latency 100000) ] [];
  for_ (dict_items results) (fun '(test, (result, params)) =>
    shown ← lift (format_spec_2f result);
    print (test +:+ " (" +:+ params +:+ "): " +:+ shown +:+ " sec"));;
  log_results system_info results;;
  print (NL +:+ "Memory benchmark results saved to: " +:+ LOG_FILE).

End Script.

(** The block of [benchmark_memory_read_write], which the unit above
    shows as an allocation only. *)

(** [bytearray(size)]: a block of zero bytes. *)
Definition bytearray_new (size : Z) : result (list Z) :=
  if size <? 0 then Raise (ValueError "negative count")
  else Ok (replicate (Z.to_nat size) 0).

(** [data[i] = v] on a [bytearray]: the value has to be a byte, the index
    has to be inside the block. *)
Definition bytearray_setitem (data : list Z) (i v : Z) : result (list Z) :=
  if (0 <=? v) && (v <? 256) then list_setitem data i v
  else Raise (ValueError "byte must be in range(0, 256)").

(** [sum(data)] *)
Definition py_sum (data : list Z) : Z := fold_left Z.add data 0.

(** What [benchmark_memory_read_write] does with its block between the
    two readings of the clock: the block after the write loop, and the
    sum that is read back. *)
Definition memory_read_write_body (size_bytes : Z) : result (list Z * Z) :=
  data ← bytearray_new size_bytes;
  data ← for_each (fun data i => bytearray_setitem data i (i `mod` 256))
                  (py_range 0 size_bytes) data;
  Ok (data, py_sum data).

End Memory.

(** * storage_benchmark.py *)

Module Storage.
Section Script.
Context `{PyRuntime}.

(** The workloads that seek at random and create and delete thousands of
    small files are taken as they come: any computation that returns a
    measurement or raises. *)
Variable benchmark_random_read_write : M (pyobj * string).
Variable benchmark_file_iops : M (pyobj * string).
Variable benchmark_file_deletion : M (pyobj * string).
Variable benchmark_filesystem_latency : M (pyobj * string).

(** The bytes [os.urandom] hands out for a request of a given size. *)
Variable urandom_bytes : Z -> string.

Definition LOG_FILE : string := "benchmark_storage_log.txt".
Definition TEST_FILE : string := "test_benchmark.dat".

Definition get_system_info : M (dict pyobj) :=
  dict_display
    [ ("CPU", fact platform_platform PyStr);
      ("Architecture", fact platform_machine PyStr);
      ("Cores", fact (fun h => psutil_cpu_count h true) of_optional_int);
      ("Physical Cores", fact (fun h => psutil_cpu_count h false) of_optional_int);
      ("Total Memory (GB)", fact psutil_virtual_memory (fun m => gigabytes (vm_total m)));
      ("Disk Type",
        partitions ← host_call psutil_disk_partitions;
        first ← lift (list_getitem partitions 0);
        mret (PyStr (dp_fstype first)));
      ("Total Disk Space (GB)", fact (fun h => psutil_disk_usage h "/") gigabytes);
      ("Python Version", sys_version_fact) ] [].

(** [os.urandom(size)] *)
Definition os_urandom (size : Z) : M string :=
  py_alloc negative_argument size;; mret (urandom_bytes size).

Definition benchmark_sequential_write (size_mb : Z) : M (pyobj * string) :=
  let size_bytes := size_mb * 1024 * 1024 in
  start_time ← time_time;
  with_open TEST_FILE ModeWriteBinary (fun f =>
    data ← os_urandom size_bytes;
    file_write f data);;
  end_time ← time_time;
  mret (PyFloat (float_sub end_time start_time), "size=" +:+ str_int size_mb +:+ "MB").

(** The chunks that are read are dropped. *)
Definition benchmark_sequential_read : M (pyobj * string) :=
  found ← os_path_exists TEST_FILE;
  if negb found then mret (PyNone, "File not found")
  else
    start_time ← time_time;
    with_open TEST_FILE ModeReadBinary (fun f => mret tt);;
    end_time ← time_time;
    mret (PyFloat (float_sub end_time start_time), "file=" +:+ TEST_FILE).

Definition log_results (system_info : dict pyobj) (results : dict (pyobj * string))
  : M unit :=
  with_open LOG_FILE ModeAppend (fun log =>
    file_write log (str_mul "=" 50 +:+ NL);;
    file_write log ("Storage Benchmark Run " +:+ NL);;
    file_write log (str_mul "=" 50 +:+ NL);;
    for_ (dict_items system_info) (fun '(key, value) =>
      file_write log (key +:+ ": " +:+ py_str value +:+ NL));;
    file_write log (NL +:+ "Storage Benchmark Results:" +:+ NL);;
    for_ (dict_items results) (fun '(test, (result, params)) =>
      shown ← lift (format_spec_2f result);
      file_write log (test +:+ " (" +:+ params +:+ "): " +:+ shown +:+ " sec" +:+ NL));;
    file_write log (NL +:+ NL)).

Definition run_storage_benchmarks : M unit :=
  system_info ← get_system_info;
  print ("Running Storage Benchmarks..." +:+ NL);;
  results ← dict_display
    [ ("Sequential Write Speed", benchmark_sequential_write 500);
      ("Sequential Read Speed", benchmark_sequential_read);
      ("Random Read/Write Speed", benchmark_random_read_write);
      ("File IOPS Test", benchmark_file_iops);
      ("File Deletion Performance", benchmark_file_deletion);
      ("Filesystem Latency Test", benchmark_filesystem_latency) ] [];
  for_ (dict_items results) (fun '(test, (result, params)) =>
    shown ← lift (format_spec_2f result);
    print (test +:+ " (" +:+ params +:+ "): " +:+ shown +:+ " sec"));;
  log_results system_info results;;
  print (NL +:+ "Storage benchmark results saved to: " +:+ LOG_FILE).

End Script.

(** Two of the units that the run takes as they come, as far as the
    files of the world tell them apart. *)

(** [f"iops_test_{i}.tmp"] *)
Definition iops_test_name (i : Z) : string := "iops_test_" +:+ str_int i +:+ ".tmp".

Definition benchmark_file_iops (num_operations : Z) : M (pyobj * string) :=
  start_time ← time_time;
  for_ (py_range 0 num_operations) (fun i =>
    with_open (iops_test_name i) mode_w (fun f => file_write f "test");;
    os_remove (iops_test_name i));;
  end_time ← time_time;
  mret (PyFloat (float_sub end_time start_time),
        "operations=" +:+ str_int num_operations).

Section Random.

(** The bytes of [os.urandom] and the draws of [random.randint]. *)
Variable urandom_bytes : Z -> string.
Variable random_randint : Z -> Z -> M Z.

Definition benchmark_random_read_write (block_size iterations : Z)
  : M (pyobj * string) :=
  let size_bytes := block_size * iterations in
  with_open TEST_FILE ModeWriteBinary (fun f =>
    data ← os_urandom urandom_bytes size_bytes;
    file_write f data);;
  start_time ← time_time;
  with_open TEST_FILE mode_r_plus_b (fun f =>
    for_ (py_range 0 iterations) (fun _ =>
      target ← random_randint 0 (size_bytes - block_size);
      pos ← file_seek f target;
      data ← os_urandom urandom_bytes block_size;
      file_write_at f pos data));;
  end_time ← time_time;
  mret (PyFloat (float_sub end_time start_time),
        "block_size=" +:+ str_int block_size +:+ "B, iterations="
        +:+ str_int iterations).

End Random.

End Storage.

(** ** Searching and splitting texts *)

(** [s.partition(sub)] where [sub] occurs: the texts before and after the
    first place where [sub] stands in [s]. *)
Fixpoint str_partition (sub s : string) : option (string * string) :=
  if String.prefix sub s then Some (EmptyString, str_drop (String.length sub) s)
  else match s with
       | EmptyString => None
       | String c s' =>
           match str_partition sub s' with
           | Some (before, after) => Some (String c before, after)
           | None => None
           end
       end.

(** [sub in s] *)
Definition str_contains (sub s : string) : bool :=
  match str_partition sub s with
  | Some _ => true
  | None => false
  end.

(** The pieces between the occurrences of [sep], found from left to
    right; [fuel] bounds their number. *)
Fixpoint str_split_pieces (fuel : nat) (sep s : string) : list string :=
  match fuel with
  | O => [s]
  | S fuel' =>
      match str_partition sep s with
      | Some (before, after) => before :: str_split_pieces fuel' sep after
      | None => [s]
      end
  end.

(** [s.split(sep)]; a text has fewer occurrences of a separator than
    characters. *)
Definition str_split (sep s : string) : result (list string) :=
  if decide (sep = EmptyString) then Raise (ValueError "empty separator")
  else Ok (str_split_pieces (String.length s) sep s).

(** [c.isspace()] for a character below 128. *)
Definition is_space (c : ascii) : bool :=
  let n := nat_of_ascii c in
  ((9 <=? n)%nat && (n <=? 13)%nat) || ((28 <=? n)%nat && (n <=? 32)%nat).

Fixpoint str_split_whitespace_from (current s : string) : list string :=
  match s with
  | EmptyString => if decide (current = EmptyString) then [] else [current]
  | String c s' =>
      if is_space c then
        (if decide (current = EmptyString) then [] else [current])
        ++ str_split_whitespace_from EmptyString s'
      else str_split_whitespace_from (current +:+ String c EmptyString) s'
  end.

(** [s.split()]: the words between runs of white space. *)
Definition str_split_whitespace (s : string) : list string :=
  str_split_whitespace_from EmptyString s.

(** [not x] for what [shutil.which] returns: [None], or a path. *)
Definition py_not_optional_str (x : option string) : bool :=
  match x with
  | None => true
  | Some EmptyString => true
  | Some _ => false
  end.

(** * network_benchmark.py *)

Module Network.
Section Script.
Context `{PyRuntime}.

(** The units that drive speedtest, ping and iperf3 catch what those
    raise and return [(None, message)] instead; their bodies are taken as
    they come. So is the name lookup of [benchmark_dns_resolution]. *)
Variable benchmark_download_speed : string -> M (pyobj * string).
Variable benchmark_upload_speed : string -> M (pyobj * string).
Variable benchmark_latency : string -> M (pyobj * string).
Variable benchmark_packet_loss : string -> M (pyobj * string).
Variable benchmark_bandwidth : string -> M (pyobj * string).
Variable socket_gethostbyname : string -> M string.

Definition LOG_FILE : string := "network_benchmark_log.txt".

(** [None] is the absent interface. *)
Definition get_default_interface : M (option string) :=
  net_ifaces ← host_call psutil_net_if_addrs;
  if bool_decide ("eth0" ∈ net_ifaces) then mret (Some "eth0")
  else if bool_decide ("wlan0" ∈ net_ifaces) then mret (Some "wlan0")
  else mret None.

Definition get_system_info : M (dict pyobj) :=
  dict_display
    [ ("CPU", fact platform_platform PyStr);
      ("Architecture", fact platform_machine PyStr);
      ("Cores", fact (fun h => psutil_cpu_count h true) of_optional_int);
      ("Physical Cores", fact (fun h => psutil_cpu_count h false) of_optional_int);
      ("Total Memory (GB)", fact psutil_virtual_memory (fun m => gigabytes (vm_total m)));
      ("Python Version", sys_version_fact) ] [].

(** [try: body except Exception: handler] *)
Definition try_except {A : Type} (body : M A) (handler : exn -> M A) : M A := fun w =>
  match body w with
  | (Ok a, w') => (Ok a, w')
  | (Raise e, w') => handler e w'
  end.

(** The [return] inside the handler leaves the function; the statements
    after the [try] run only when the lookup returned. *)
Definition benchmark_dns_resolution : M (pyobj * string) :=
  start_time ← time_time;
  resolved ← try_except (socket_gethostbyname "www.google.com";; mret true)
                        (fun _ => mret false);
  if resolved : bool then
    end_time ← time_time;
    mret (PyFloat (float_sub end_time start_time), "DNS Resolution Time")
  else mret (PyNone, "Failed to resolve").

(** The line of one outcome, in the log and on the console. *)
Definition result_line (test : string) (value : pyobj) (params : string)
  : result string :=
  if is_int_or_float value then
    shown ← format_spec_2f value;
    Ok (test +:+ " (" +:+ params +:+ "): " +:+ shown +:+ " sec")
  else Ok (test +:+ " (" +:+ params +:+ "): " +:+ py_str value).

Definition log_results (system_info : dict pyobj) (results : dict (pyobj * string))
  : M unit :=
  with_open LOG_FILE ModeAppend (fun log =>
    file_write log (str_mul "=" 50 +:+ NL);;
    file_write log ("Network Benchmark Run " +:+ NL);;
    file_write log (str_mul "=" 50 +:+ NL);;
    for_ (dict_items system_info) (fun '(key, value) =>
      file_write log (key +:+ ": " +:+ py_str value +:+ NL));;
    file_write log (NL +:+ "Network Benchmark Results:" +:+ NL);;
    for_ (dict_items results) (fun '(test, (result, params)) =>
      line ← lift (result_line test result params);
      file_write log (line +:+ NL));;
    file_write log (NL +:+ NL)).

Definition run_network_benchmarks (interface : string) : M unit :=
  system_info ← get_system_info;
  print ("Running Network Benchmarks on " +:+ interface +:+ "..." +:+ NL);;
  results ← dict_display
    [ ("Download Speed Test", benchmark_download_speed interface);
      ("Upload Speed Test", benchmark_upload_speed interface);
      ("Network Latency Test", benchmark_latency interface);
      ("Packet Loss Test", benchmark_packet_loss interface);
      ("Bandwidth Test (iperf3)", benchmark_bandwidth interface);
      ("DNS Resolution Speed", benchmark_dns_resolution) ] [];
  for_ (dict_items results) (fun '(test, (result, params)) =>
    line ← lift (result_line test result params);
    print line);;
  log_results system_info results;;
  print (NL +:+ "Network benchmark results saved to: " +:+ LOG_FILE).

(** The body under [if __name__ == "__main__"]. The command line is
    either empty or [--interface NAME]; the default of the option is
    computed before the command line is read. *)
Definition main (interface_arg : option string) : M unit :=
  detected ← get_default_interface;
  let args_interface :=
    match interface_arg with
    | Some name => Some name
    | None => detected
    end in
  match args_interface with
  | None => print "No valid network interface found. Please specify manually."
  | Some interface => run_network_benchmarks interface
  end.

End Script.

(** The units that the run takes as they come, over what they call
    outside the script. *)

Definition PING_TARGET : string := "8.8.8.8".
Definition IPERF_SERVER : string := "ping.online.net".
Definition IPERF_PORT : string := "5200".

Section Units.

(** What the units call outside the script: a session of speedtest up to
    the figure it measured, in bits per second
    ([st = speedtest.Speedtest(); st.get_best_server(); st.download()] and
    then [st.results.download], and the same for the upload), the output
    of a command ([subprocess.run(argv, capture_output=True,
    text=True).stdout]), [shutil.which], [float(s)] on a text and [str(e)]
    on an exception. Each of the first three may raise. *)
Variable speedtest_download : M float.
Variable speedtest_upload : M float.
Variable subprocess_run_stdout : list string -> M string.
Variable shutil_which : string -> M (option string).
Variable float_of_str : string -> result float.
Variable exn_str : exn -> string.

(** [except Exception as e: return None, f"Error: {str(e)}"] *)
Definition error_outcome (e : exn) : M (pyobj * string) :=
  mret (PyNone, "Error: " +:+ exn_str e).

Definition benchmark_download_speed (interface : string) : M (pyobj * string) :=
  try_except
    (bits ← speedtest_download;
     let speed := float_div bits (float_of_Z (1024 * 1024)) in
     mret (PyFloat speed, format_2f speed +:+ " Mbps (" +:+ interface +:+ ")"))
    error_outcome.

Definition benchmark_upload_speed (interface : string) : M (pyobj * string) :=
  try_except
    (bits ← speedtest_upload;
     let speed := float_div bits (float_of_Z (1024 * 1024)) in
     mret (PyFloat speed, format_2f speed +:+ " Mbps (" +:+ interface +:+ ")"))
    error_outcome.

Definition benchmark_latency (interface : string) : M (pyobj * string) :=
  try_except
    (output ← subprocess_run_stdout ["ping"; "-I"; interface; "-c"; "5"; PING_TARGET];
     if str_contains "rtt min/avg/max/mdev" output then
       pieces ← lift (str_split "rtt min/avg/max/mdev = " output);
       summary ← lift (list_getitem pieces 1);
       figures ← lift (str_split "/" summary);
       avg_latency ← lift (list_getitem figures 1);
       value ← lift (float_of_str avg_latency);
       mret (PyFloat value, avg_latency +:+ " ms (" +:+ interface +:+ ")")
     else mret (PyNone, "Ping failed on " +:+ interface))
    error_outcome.

Definition benchmark_packet_loss (interface : string) : M (pyobj * string) :=
  try_except
    (output ← subprocess_run_stdout ["ping"; "-I"; interface; "-c"; "10"; PING_TARGET];
     if str_contains "packet loss" output then
       fields ← lift (str_split ", " output);
       field ← lift (list_getitem fields 2);
       parts ← lift (str_split "%" field);
       loss_percentage ← lift (list_getitem parts 0);
       value ← lift (float_of_str loss_percentage);
       mret (PyFloat value, loss_percentage +:+ " % (" +:+ interface +:+ ")")
     else mret (PyNone, "Packet loss data not found (" +:+ interface +:+ ")"))
    error_outcome.

Definition benchmark_bandwidth (interface : string) : M (pyobj * string) :=
  found ← shutil_which "iperf3";
  if py_not_optional_str found then mret (PyNone, "iperf3 not found, please install it")
  else
    try_except
      (output ← subprocess_run_stdout
                  ["iperf3"; "-c"; IPERF_SERVER; "-p"; IPERF_PORT; "-B"; interface];
       if str_contains "receiver" output then
         pieces ← lift (str_split "receiver" output);
         last ← lift (list_getitem pieces (-1));
         speed ← lift (list_getitem (str_split_whitespace last) (-2));
         value ← lift (float_of_str speed);
         mret (PyFloat value,
               "iperf3 Bandwidth to " +:+ IPERF_SERVER +:+ ": " +:+ speed
               +:+ " Mbps (" +:+ interface +:+ ")")
       else mret (PyNone, "iperf3 test failed on " +:+ interface))
      error_outcome.

End Units.
End Network.

(** * gpu_benchmark.py *)

Module Gpu.
Section Script.
Context `{PyRuntime}.

(** [get_platforms()] of the OpenCL binding. *)
Variable cl_get_platforms : M (list string).

(** The names bound at module level: the imports ([pyopencl] is imported
    under the name [cl] only), the constant and the functions. *)
Definition module_globals : list string :=
  [ "time"; "np"; "cl"; "platform"; "psutil"; "sys"; "LOG_FILE";
    "get_system_info"; "benchmark_opencl_vector_addition";
    "benchmark_matrix_multiplication"; "benchmark_cpu_computation";
    "log_results"; "run_gpu_benchmarks" ].

(** Reading a global name; none of the names looked up is a builtin. *)
Definition load_global (name : string) : M unit :=
  if bool_decide (name ∈ module_globals) then mret tt
  else lift (Raise (NameError name)).

Definition get_system_info : M (dict pyobj) :=
  dict_display
    [ ("CPU", fact platform_processor PyStr);
      ("Architecture", fact platform_machine PyStr);
      ("Cores", fact (fun h => psutil_cpu_count h true) of_optional_int);
      ("Physical Cores", fact (fun h => psutil_cpu_count h false) of_optional_int);
      ("Total Memory (GB)", fact psutil_virtual_memory (fun m => gigabytes (vm_total m)));
      ("Python Version", sys_version_fact);
      ("OpenCL Version",
        load_global "pyopencl";;
        platforms ← cl_get_platforms;
        mret (PyStr (if bool_decide (platforms = []) then "Not Available"
                     else "Available"))) ] [].

End Script.

Section Run.
Context `{PyRuntime}.

(** The OpenCL binding, the two units that need OpenCL and NumPy, and
    [time.strftime] are taken as they come. *)
Variable cl_get_platforms : M (list string).
Variable benchmark_opencl_vector_addition : M (pyobj * string).
Variable benchmark_matrix_multiplication : M (pyobj * string).
Variable time_strftime : string -> M string.

Definition LOG_FILE : string := "benchmark_gpu_log.txt".

(** The sum is computed and dropped. *)
Definition benchmark_cpu_computation : M (pyobj * string) :=
  let n := 10 ^ 7 in
  start_time ← time_time;
  let sum_result := fold_left Z.add (py_range 0 n) 0 in
  end_time ← time_time;
  mret (PyFloat (float_sub end_time start_time),
        "CPU Computation (sum 0 to " +:+ str_int (n - 1) +:+ ")").

Definition log_results (system_info : dict pyobj) (results : dict (pyobj * string))
  : M unit :=
  with_open LOG_FILE ModeAppend (fun log =>
    file_write log (str_mul "=" 50 +:+ NL);;
    stamp ← time_strftime "%Y-%m-%d %H:%M:%S";
    file_write log ("GPU Benchmark Run - " +:+ stamp +:+ NL);;
    file_write log (str_mul "=" 50 +:+ NL);;
    for_ (dict_items system_info) (fun '(key, value) =>
      file_write log (key +:+ ": " +:+ py_str value +:+ NL));;
    file_write log (NL +:+ "GPU Benchmark Results:" +:+ NL);;
    for_ (dict_items results) (fun '(test, (result, params)) =>
      shown ← lift (format_spec_2f result);
      file_write log (test +:+ " (" +:+ params +:+ "): " +:+ shown +:+ " sec" +:+ NL));;
    file_write log (NL +:+ NL)).

Definition run_gpu_benchmarks : M unit :=
  system_info ← get_system_info cl_get_platforms;
  print ("Running GPU Benchmarks..." +:+ NL);;
  results ← dict_display
    [ ("OpenCL Vector Addition", benchmark_opencl_vector_addition);
      ("Matrix Multiplication (CPU)", benchmark_matrix_multiplication);
      ("CPU Computation", benchmark_cpu_computation) ] [];
  for_ (dict_items results) (fun '(test, (result, params)) =>
    shown ← lift (format_spec_2f result);
    print (test +:+ " (" +:+ params +:+ "): " +:+ shown +:+ " sec"));;
  log_results system_info results;;
  print (NL +:+ "GPU benchmark results saved to: " +:+ LOG_FILE).

End Run.
End Gpu.

(** * The vocabulary of the statements *)

(** ** The sieve *)

(** [i] has been crossed out by a pass for some [d < p]. *)
Definition crossed (p i : Z) : Prop := ∃ d, 2 ≤ d < p ∧ d * d ≤ i ∧ (d | i).

(** Loop invariant of [while (p * p <= n)]: the flag list keeps its length
    and the flag of [i] is down exactly when [i] was crossed out by a pass
    for a smaller [p]. *)
Definition sieve_inv (n p : Z) (primes : list bool) : Prop :=
  length primes = Z.to_nat (n + 1) ∧
  ∀ i, 2 ≤ i ≤ n → ∃ b, primes !! Z.to_nat i = Some b ∧ (b = false ↔ crossed p i).

(** [i] has a divisor between 2 and its square root. *)
Definition has_small_divisor (i : Z) : Prop := ∃ d, 2 ≤ d ∧ d * d ≤ i ∧ (d | i).

(** ** Texts, files and reports *)

(** The text of a list of lines, each ended by a line feed. *)
Fixpoint unlines (ls : list string) : string :=
  match ls with
  | [] => ""
  | l :: ls' => l +:+ NL +:+ unlines ls'
  end.

(** A text without a line feed. *)
Fixpoint single_line (s : string) : bool :=
  match s with
  | EmptyString => true
  | String c s' => negb (Ascii.eqb c "010") && single_line s'
  end.

(** The lines of a text as an editor shows them: the parts that its line
    feeds end, and what is left after the last one, if anything. *)
Fixpoint lines_from (current s : string) : list string :=
  match s with
  | EmptyString => if decide (current = "") then [] else [current]
  | String c s' =>
      if Ascii.eqb c "010" then current :: lines_from "" s'
      else lines_from (current +:+ String c "") s'
  end.

(** The lines of a whole text. *)
Definition lines_of (s : string) : list string := lines_from "" s.

(** The world after a text went to the end of a file. *)
Definition appended (f s : string) (w : World) : World :=
  set_files (<[f := default "" (w_files w !! f) +:+ s]> (w_files w)) w.

(** The rule above and below the title of a block. *)
Definition banner : string := str_mul "=" 50.

(** The line of one entry of the host profile. *)
Definition info_line `{PyRuntime} (entry : string * pyobj) : string :=
  entry.1 +:+ ": " +:+ py_str entry.2.

(** The outcomes of units that returned a measurement. *)
Definition measured (outcomes : list (string * (float * string))) : dict (pyobj * string) :=
  (fun '(test, (x, params)) => (test, (PyFloat x, params))) <$> outcomes.

(** The line of one outcome with a duration. *)
Definition outcome_line (outcome : string * (float * string)) : string :=
  let '(test, (x, params)) := outcome in
  test +:+ " (" +:+ params +:+ "): " +:+ format_2f x +:+ " sec".

(** The lines of one run in a log file. *)
Definition report_lines `{PyRuntime} (title label : string)
    (system_info : dict pyobj) (outcomes : list (string * (float * string)))
  : list string :=
  [banner; title; banner] ++ (info_line <$> system_info) ++ [""; label]
  ++ (outcome_line <$> outcomes) ++ [""; ""].

(** ** Frames *)

(** Host, files, open file objects and console are the same in both worlds;
    only the clock may have been read. *)
Definition untouched (w w' : World) : Prop :=
  w_host w' = w_host w ∧ w_files w' = w_files w
  ∧ w_open w' = w_open w ∧ w_stdout w' = w_stdout w.

(** [m] touches nothing but the clock, and what it returns satisfies [Q]. *)
Definition silent {A} (m : M A) (Q : A → Prop) : Prop :=
  ∀ w, untouched w (m w).2 ∧ ∀ a, (m w).1 = Ok a → Q a.

(** The value of a unit that returned a measurement. *)
Definition is_measurement (v : pyobj * string) : Prop := ∃ x, v.1 = PyFloat x.

(** The world after a text went to the console. *)
Definition printed (s : string) (w : World) : World :=
  set_stdout (w_stdout w +:+ s) w.

(** ** Hosts and worlds to run the scripts on *)

(** An interpreter whose [int(num ** 0.5)] is the integer square root; it
    shows floats with two decimals and leaves them as they are when asked
    to round. *)
Definition sample_runtime : PyRuntime :=
  {| float_repr := format_2f; py_round := fun x _ => x; int_pow_half := Z.sqrt |}.

(** A small board: four cores, [free] bytes to allocate, the given disk
    partitions and network interfaces. *)
Definition sample_host (free : Z) (partitions : list sdiskpart) (ifaces : list string)
  : Host :=
  {| platform_platform := Ok "Linux-6.1.21-v8+-aarch64-with-glibc2.31";
     platform_machine := Ok "aarch64";
     platform_processor := Ok "";
     psutil_cpu_count := fun _ => Ok (Some 4);
     psutil_virtual_memory :=
       Ok {| vm_total := 3976200192; vm_available := free; vm_used := 3976200192 - free;
             vm_percent := float_of_Z 50 |};
     psutil_swap_memory := Ok {| sw_total := 104853504; sw_used := 0 |};
     psutil_disk_partitions := Ok partitions;
     psutil_disk_usage := fun _ => Ok 31268536320;
     psutil_net_if_addrs := Ok ifaces;
     sys_version := "3.11.2 (main, Mar 13 2023, 12:18:29) [GCC 12.2.0]";
     mem_free := free |}.

(** The one partition of the board. *)
Definition sd_card : sdiskpart :=
  {| dp_device := "/dev/mmcblk0p2"; dp_mountpoint := "/"; dp_fstype := "ext4" |}.

(** A world with no file yet, nothing printed, and a clock that gives the
    listed readings (in seconds) and then stands still at zero. *)
Definition sample_world (h : Host) (readings : list Z) : World :=
  {| w_host := h;
     w_time := fun k => float_of_Z (nth k readings 0);
     w_now := 0%nat;
     w_files := ∅;
     w_open := [];
     w_stdout := "" |}.

(** The difference of the next two readings of the clock. *)
Definition elapsed (w : World) : float :=
  float_sub (w_time w (S (w_now w))) (w_time w (w_now w)).

(** The board with one megabyte left to allocate. *)
Definition low_memory_world : World :=
  sample_world (sample_host 1000000 [sd_card] ["lo"]) [].

(** The board with 600 MiB left to allocate. *)
Definition small_board_world : World :=
  sample_world (sample_host 629145600 [sd_card] ["lo"]) [].

(** The system clock was set back by three seconds between its first two
    readings. *)
Definition clock_set_back_world : World :=
  sample_world (sample_host 1000000 [sd_card] ["lo"]) [10; 7].

(** What [f"{None:.2f}"] raises. *)
Definition none_format_error : exn :=
  TypeError "unsupported format string passed to NoneType.__format__".

(** A text of two decimal digits. *)
Definition two_decimal_digits (s : string) : bool :=
  match s with
  | String c1 (String c2 EmptyString) =>
      bool_decide (is_Some (Ascii.is_nat c1)) && bool_decide (is_Some (Ascii.is_nat c2))
  | _ => false
  end.

(** A board without a disk partition that [psutil] lists, as a container
    has it. *)
Definition no_partition_world : World :=
  sample_world (sample_host 1000000 [] ["lo"]) [].

(** A unit that must not be called. *)
Definition unit_not_to_call : string → M (pyobj * string) :=
  fun _ => lift (Raise (Exception "a unit was called")).

(** The board with no network interface but the loopback. *)
Definition loopback_only_world : World :=
  sample_world (sample_host 1000000 [sd_card] ["lo"]) [].

(** ** Outcomes of the network units *)

(** What a network unit returns first: a measurement, or [None] when it
    gave up. *)
Definition optional_measurement (o : option float) : pyobj :=
  match o with
  | Some x => PyFloat x
  | None => PyNone
  end.

(** The outcomes of network units that returned. *)
Definition recorded (outcomes : list (string * (option float * string)))
  : dict (pyobj * string) :=
  (fun '(test, (o, params)) => (test, (optional_measurement o, params))) <$> outcomes.

(** The line of one outcome of a network unit. *)
Definition network_outcome_line (outcome : string * (option float * string)) : string :=
  let '(test, (o, params)) := outcome in
  match o with
  | Some x => test +:+ " (" +:+ params +:+ "): " +:+ format_2f x +:+ " sec"
  | None => test +:+ " (" +:+ params +:+ "): None"
  end.

(** The lines of one run in the log of the network script. *)
Definition network_report_lines `{PyRuntime} (system_info : dict pyobj)
    (outcomes : list (string * (option float * string))) : list string :=
  [banner; "Network Benchmark Run "; banner] ++ (info_line <$> system_info)
  ++ [""; "Network Benchmark Results:"]
  ++ (network_outcome_line <$> outcomes) ++ [""; ""].

(** The value of a unit that returned a measurement or [None]. *)
Definition is_outcome (v : pyobj * string) : Prop := ∃ o, v.1 = optional_measurement o.


(** A network unit that gives up at once, as without a network. *)
Definition unit_that_gives_up : string → M (pyobj * string) :=
  fun _ => mret (PyNone, "Error: Network is unreachable").

(** The board with a wired and a wireless interface. *)
Definition two_interfaces_world : World :=
  sample_world (sample_host 1000000 [sd_card] ["lo"; "wlan0"; "eth0"]) [].

(** ** The outputs that the network units read *)

(** [sep] does not begin inside [a]: the first place where it stands in
    [a +:+ sep] is the end. For a separator of one character this says
    that [a] is free of it. *)
Definition ends_at_first (sep a : string) : Prop :=
  str_partition sep (a +:+ sep) = Some (a, "").

(** A [float] that knows the two figures of the sample outputs and
    rejects every other text as Python does. *)
Definition sample_float_of_str (s : string) : result float :=
  if decide (s = "12.5") then Ok (float_div (float_of_Z 25) (float_of_Z 2))
  else if decide (s = "0") then Ok (float_of_Z 0)
  else Raise (ValueError ("could not convert string to float: '" +:+ s +:+ "'")).

(** [str(e)] for the exceptions that carry their message. *)
Definition sample_exn_str (e : exn) : string :=
  match e with
  | TypeError msg | ValueError msg | OSError msg | Exception msg => msg
  | IndexError => "list index out of range"
  | _ => ""
  end.

(** What [ping] prints before its summary when the target answers. *)
Definition ping_heading : string :=
  "PING 8.8.8.8 (8.8.8.8) from 192.168.1.7 eth0: 56(84) bytes of data." +:+ NL
  +:+ "64 bytes from 8.8.8.8: icmp_seq=1 ttl=117 time=12.4 ms" +:+ NL +:+ NL
  +:+ "--- 8.8.8.8 ping statistics ---" +:+ NL.

(** What [ping] prints before its summary when nothing answers. *)
Definition ping_unreachable_heading : string :=
  "PING 8.8.8.8 (8.8.8.8) from 192.168.1.7 eth0: 56(84) bytes of data." +:+ NL
  +:+ "From 192.168.1.7 icmp_seq=1 Destination Host Unreachable" +:+ NL +:+ NL
  +:+ "--- 8.8.8.8 ping statistics ---" +:+ NL.

(** The end of the output of [iperf3 -c]: the line of the receiver, with
    the bitrate before the word, and the closing line. *)
Definition iperf3_receiver_line : string :=
  "[  5]   0.00-10.04  sec  1.10 GBytes   938 Mbits/sec                  ".
Definition iperf3_closing : string := NL +:+ NL +:+ "iperf Done." +:+ NL.

(** A tool that is installed and prints the given output. *)
Definition tool_prints (output : string) : list string → M string :=
  fun _ => mret output.
Definition tool_installed : string → M (option string) :=
  fun name => mret (Some ("/usr/bin/" +:+ name)).

(** ** Samples for the random writes *)


(** ** The units of a suite, called in order *)

(** The units [entries] are called one after the other, the first one in
    the world [w], and all of them return: [vs] holds what they returned,
    in order, and the last one left the world [w']. *)
Inductive all_return {V : Type}
  : list (string * M V) → World → list V → World → Prop :=
  | all_return_nil (w : World) : all_return [] w [] w
  | all_return_cons (name : string) (unit : M V) (rest : list (string * M V))
      (w w1 w2 : World) (v : V) (vs : list V) :
      unit w = (Ok v, w1) → all_return rest w1 vs w2 →
      all_return ((name, unit) :: rest) w (v :: vs) w2.

(** The units that [run_benchmarks] of the CPU script registers, in the
    order of its display. *)
Definition cpu_units `{PyRuntime} : list (string * M (pyobj * string)) :=
  [ ("Prime Number Calculation (Brute-Force)", Cpu.benchmark_prime_numbers 50000);
    ("Prime Number Calculation (Sieve of Eratosthenes)",
      Cpu.benchmark_sieve_of_eratosthenes 50000);
    ("SHA256 Hashing", Cpu.benchmark_sha256 100000);
    ("AES Encryption", Cpu.benchmark_aes_encryption 100000);
    ("GZIP Compression", Cpu.benchmark_gzip_compression 5000000);
    ("NumPy Matrix Multiplication", Cpu.benchmark_numpy_operations 500);
    ("Sorting Algorithm", Cpu.benchmark_sorting 1000000);
    ("Multi-threaded Prime Calculation", Cpu.benchmark_multi_threaded_prime 10000 4) ].

(** The units that [run_memory_benchmarks] registers. *)
Definition memory_units : list (string * M (pyobj * string)) :=
  [ ("Memory Read/Write Speed", Memory.benchmark_memory_read_write 500);
    ("Memory Bandwidth Test", Memory.benchmark_memory_bandwidth 500);
    ("Memory Allocation Stress Test", Memory.benchmark_memory_allocation 1000);
    ("Page Faults Test", Memory.benchmark_page_faults 1000000);
    ("Random Access Latency", Memory.benchmark_random_access_latency 100000) ].

(** The units that [run_storage_benchmarks] registers, over the four
    that the run takes as they come. *)
Definition storage_units
    (random_read_write file_iops file_deletion filesystem_latency : M (pyobj * string))
    (urandom_bytes : Z → string) : list (string * M (pyobj * string)) :=
  [ ("Sequential Write Speed", Storage.benchmark_sequential_write urandom_bytes 500);
    ("Sequential Read Speed", Storage.benchmark_sequential_read);
    ("Random Read/Write Speed", random_read_write);
    ("File IOPS Test", file_iops);
    ("File Deletion Performance", file_deletion);
    ("Filesystem Latency Test", filesystem_latency) ].

(** The world after a suite printed its heading and an empty line. *)
Definition heading_printed (heading : string) (w : World) : World :=
  printed ((heading +:+ NL) +:+ NL) w.

(** ** A host whose version text has two lines *)

(** The same host with another [sys.version]. *)
Definition with_sys_version (version : string) (h : Host) : Host :=
  {| platform_platform := platform_platform h;
     platform_machine := platform_machine h;
     platform_processor := platform_processor h;
     psutil_cpu_count := psutil_cpu_count h;
     psutil_virtual_memory := psutil_virtual_memory h;
     psutil_swap_memory := psutil_swap_memory h;
     psutil_disk_partitions := psutil_disk_partitions h;
     psutil_disk_usage := psutil_disk_usage h;
     psutil_net_if_addrs := psutil_net_if_addrs h;
     sys_version := version;
     mem_free := mem_free h |}.

(** The board under an interpreter built with GCC, whose [sys.version]
    names the compiler on a line of its own. *)
Definition two_line_version_world : World :=
  sample_world
    (with_sys_version
       ("3.9.2 (default, Feb 28 2021, 17:03:44) " +:+ NL +:+ "[GCC 10.2.1 20210110]")
       (sample_host 1000000 [sd_card] ["lo"]))
    [].

(** * Theorems *)

(** ** Ranges and checked list accesses *)

Lemma elem_of_py_range (a b i : Z) : i ∈ py_range a b ↔ a ≤ i < b.
Proof. unfold py_range. rewrite elem_of_seqZ. lia. Qed.

Lemma elem_of_py_range3_pos (a b s i : Z) :
  0 < s → i ∈ py_range3 a b s ↔ ∃ k, 0 ≤ k ∧ i = a + k * s ∧ i < b.
Proof.
  intros Hs. unfold py_range3.
  destruct (Z.ltb_spec 0 s) as [_|?]; [|lia].
  rewrite list_elem_of_fmap. setoid_rewrite elem_of_seqZ.
  split.
  - intros (k & -> & Hk). exists k. split; [lia|]. split; [done|].
    assert (k + 1 ≤ (b - a + s - 1) `div` s) as Hle by lia.
    assert (s * ((b - a + s - 1) `div` s) ≤ b - a + s - 1)
      by (apply Z.mul_div_le; lia).
    nia.
  - intros (k & Hk & -> & Hlt). exists k. split; [done|]. split; [lia|].
    simpl. pose proof (Z.div_le_lower_bound (b - (a + k * s) + k * s + s - 1) s (k + 1) Hs) as Hq.
    replace (b - (a + k * s) + k * s + s - 1) with (b - a + s - 1) in Hq by lia.
    lia.
Qed.

Lemma py_index_in_range (len : nat) (i : Z) :
  0 ≤ i < Z.of_nat len → py_index len i = Ok (Z.to_nat i).
Proof.
  intros Hi. unfold py_index.
  destruct (Z.ltb_spec i 0); [lia|].
  destruct (Z.leb_spec 0 i); [|lia].
  destruct (Z.ltb_spec i (Z.of_nat len)); [done|lia].
Qed.

Lemma list_getitem_in_range {A} (l : list A) (i : Z) (x : A) :
  0 ≤ i → l !! Z.to_nat i = Some x → list_getitem l i = Ok x.
Proof.
  intros Hi Hx. unfold list_getitem.
  rewrite py_index_in_range; [simpl; by rewrite Hx|].
  apply lookup_lt_Some in Hx. lia.
Qed.

Lemma list_setitem_in_range {A} (l : list A) (i : Z) (x : A) :
  0 ≤ i < Z.of_nat (length l) → list_setitem l i x = Ok (<[Z.to_nat i := x]> l).
Proof. intros Hi. unfold list_setitem. by rewrite py_index_in_range. Qed.

(** Clearing the flags at in-range positions never raises; it clears exactly
    those positions and keeps the length. *)
Lemma for_each_clear (idxs : list Z) (l : list bool) :
  (∀ i, i ∈ idxs → 0 ≤ i < Z.of_nat (length l)) →
  ∃ l', for_each (fun primes i => list_setitem primes i false) idxs l = Ok l'
        ∧ length l' = length l
        ∧ (∀ i, i ∈ idxs → l' !! Z.to_nat i = Some false)
        ∧ (∀ i, 0 ≤ i → i ∉ idxs → l' !! Z.to_nat i = l !! Z.to_nat i).
Proof.
  revert l. induction idxs as [|j idxs IH]; intros l Hin.
  - exists l. split; [done|]. split; [done|]. split; [|done].
    intros i Hi. by apply elem_of_nil in Hi.
  - assert (0 ≤ j < Z.of_nat (length l)) as Hj by (apply Hin; left).
    simpl. rewrite list_setitem_in_range by done. simpl.
    destruct (IH (<[Z.to_nat j := false]> l)) as (l' & Hrun & Hlen & Hset & Hkeep).
    { intros i Hi. rewrite length_insert. apply Hin. by right. }
    exists l'. rewrite length_insert in Hlen.
    split; [done|]. split; [done|]. split.
    + intros i Hi. destruct (decide (i ∈ idxs)) as [|Hni]; [by apply Hset|].
      apply elem_of_cons in Hi as [->|]; [|done].
      rewrite Hkeep by (done || lia). apply list_lookup_insert_eq. lia.
    + intros i Hi Hni. apply not_elem_of_cons in Hni as [Hne Hni].
      rewrite Hkeep by done. apply list_lookup_insert_ne. lia.
Qed.

(** The [append] loop of the brute-force body is a filter. *)
Lemma fold_left_append_filter {A} (f : A → bool) (l acc : list A) :
  fold_left (fun acc x => if f x then acc ++ [x] else acc) l acc
  = acc ++ List.filter f l.
Proof.
  revert acc. induction l as [|x l IH]; intros acc; simpl.
  - by rewrite app_nil_r.
  - rewrite IH. destruct (f x); [|done]. by rewrite <- app_assoc.
Qed.

(** The comprehension of the sieve body is a filter as long as every index
    read is in range. *)
Lemma select_marked_filter (primes : list bool) (l : list Z) :
  (∀ p, p ∈ l → 0 ≤ p < Z.of_nat (length primes)) →
  Cpu.select_marked primes l
  = Ok (List.filter (fun p => default false (primes !! Z.to_nat p)) l).
Proof.
  induction l as [|p l IH]; intros Hin; [done|].
  assert (0 ≤ p < Z.of_nat (length primes)) as Hp by (apply Hin; left).
  destruct (lookup_lt_is_Some_2 primes (Z.to_nat p)) as [b Hb]; [lia|].
  simpl. rewrite (list_getitem_in_range _ _ b) by (done || lia). simpl.
  rewrite IH by (intros q Hq; apply Hin; by right). simpl.
  rewrite Hb. by destruct b.
Qed.

(** ** The sieve loop *)

Lemma crossed_mono (p i : Z) : crossed p i → crossed (p + 1) i.
Proof. intros (d & ? & ? & ?). exists d. split; [lia|done]. Qed.

Lemma sieve_inv_init (n : Z) :
  0 ≤ n → sieve_inv n 2 (replicate (Z.to_nat (n + 1)) true).
Proof.
  intros Hn. split; [by rewrite length_replicate|].
  intros i Hi. exists true. split.
  - apply lookup_replicate_2. lia.
  - split; [done|]. intros (d & ? & _). lia.
Qed.

Lemma sieve_step_inv (n p : Z) (primes : list bool) :
  2 ≤ p → p * p ≤ n → sieve_inv n p primes →
  ∃ primes', Cpu.sieve_step n p primes = Ok primes' ∧ sieve_inv n (p + 1) primes'.
Proof.
  intros Hp Hpp [Hlen Hinv].
  destruct (Hinv p) as (b & Hb & Hbp); [nia|].
  unfold Cpu.sieve_step. rewrite (list_getitem_in_range _ _ b) by (done || lia).
  simpl. destruct b.
  - (* [primes[p]] is still up: its multiples from [p * p] on are cleared *)
    destruct (for_each_clear (py_range3 (p * p) (n + 1) p) primes)
      as (primes' & Hrun & Hlen' & Hset & Hkeep).
    { intros i (k & ? & -> & ?)%elem_of_py_range3_pos; [|lia]. rewrite Hlen. nia. }
    exists primes'. split; [done|]. split; [congruence|].
    intros i Hi. destruct (decide (i ∈ py_range3 (p * p) (n + 1) p)) as [Hin|Hni].
    + exists false. split; [by apply Hset|]. split; [|done]. intros _.
      apply elem_of_py_range3_pos in Hin as (k & ? & -> & ?); [|lia].
      exists p. split; [lia|]. split; [nia|]. exists (p + k). lia.
    + destruct (Hinv i Hi) as (b' & Hb' & Hcr). exists b'.
      split; [rewrite Hkeep by (done || lia); done|].
      rewrite Hcr. split; [apply crossed_mono|].
      intros (d & Hd & Hdd & [m Hm]).
      destruct (decide (d = p)) as [->|]; [|exists d; split; [lia|]; split; [done|by exists m]].
      exfalso. apply Hni. apply elem_of_py_range3_pos; [lia|].
      exists (m - p). split; [nia|]. split; [lia|lia].
  - (* [primes[p]] is down: [p] has a smaller divisor, which also crosses
       out every multiple of [p] *)
    exists primes. split; [done|]. split; [done|].
    intros i Hi. destruct (Hinv i Hi) as (b' & Hb' & Hcr). exists b'.
    split; [done|]. rewrite Hcr. split; [apply crossed_mono|].
    intros (d & Hd & Hdd & Hdiv).
    destruct (decide (d = p)) as [->|]; [|exists d; split; [lia|done]].
    destruct Hbp as [Hbp _]. destruct (Hbp eq_refl) as (d' & Hd' & Hdd' & Hdiv').
    exists d'. split; [done|]. split; [nia|]. by etrans.
Qed.

(** The loop terminates without raising, at the first [q] with [n < q * q]. *)
Lemma sieve_while_inv (n p : Z) (primes : list bool) :
  2 ≤ p → sieve_inv n p primes →
  ∃ primes' q, Cpu.sieve_while n p primes = Ok primes'
               ∧ 2 ≤ q ∧ n < q * q ∧ sieve_inv n q primes'.
Proof.
  funelim (Cpu.sieve_while n p primes); intros Hp Hinv.
  - exists primes, p. split; [done|]. split; [done|]. split; [lia|done].
  - match goal with
    | Hle : _ * _ ≤ _, Hs : Cpu.sieve_step _ _ _ = _ |- _ =>
        destruct (sieve_step_inv _ _ _ Hp Hle Hinv) as (primes'' & Hstep & Hinv');
        rewrite Hs in Hstep; injection Hstep as <-
    end.
    match goal with IH : _ → _ → ∃ _, _ |- _ => apply IH; [lia|done] end.
  - match goal with
    | Hle : _ * _ ≤ _, Hs : Cpu.sieve_step _ _ _ = _ |- _ =>
        destruct (sieve_step_inv _ _ _ Hp Hle Hinv) as (primes'' & Hstep & _);
        congruence
    end.
Qed.

(** ** The trial-division test *)

Lemma is_prime_spec `{PyRuntime} (num : Z) :
  2 ≤ num → Z.sqrt num ≤ int_pow_half num < num →
  Cpu.is_prime num = true ↔ ¬ has_small_divisor num.
Proof.
  intros Hnum Hr.
  unfold Cpu.is_prime. rewrite forallb_forall. split.
  - intros Hall (d & Hd & Hdd & Hdiv).
    assert (d ≤ Z.sqrt num) by (apply Z.sqrt_le_square; lia).
    specialize (Hall d). rewrite <- list_elem_of_In, elem_of_py_range in Hall.
    specialize (Hall ltac:(lia)). apply negb_true_iff, Z.eqb_neq in Hall.
    apply Hall, Z.mod_divide; [lia|done].
  - intros Hnone d Hd. apply list_elem_of_In, elem_of_py_range in Hd.
    apply negb_true_iff, Z.eqb_neq. intros Hmod.
    apply Z.mod_divide in Hmod as [e He]; [|lia].
    apply Hnone. destruct (Z_le_gt_dec d e).
    + exists d. split; [lia|]. split; [nia|]. by exists e.
    + exists e. split; [nia|]. split; [nia|]. exists d. lia.
Qed.

Lemma sieve_flag_spec (n q i : Z) (primes : list bool) :
  2 ≤ q → n < q * q → sieve_inv n q primes → 2 ≤ i ≤ n →
  default false (primes !! Z.to_nat i) = true ↔ ¬ has_small_divisor i.
Proof.
  intros Hq Hn [_ Hinv] Hi. destruct (Hinv i Hi) as (b & -> & Hb). simpl.
  split.
  - intros -> (d & ? & ? & ?). assert (crossed q i) as Hc; [|apply Hb in Hc; done].
    exists d. split; [nia|done].
  - intros Hnone. destruct b; [done|]. exfalso. apply Hnone.
    destruct Hb as [Hb _]. destruct (Hb eq_refl) as (d & ? & ? & ?).
    exists d. split; [lia|done].
Qed.

(** C10. For every [n >= 2] the sieve returns, without raising, the very
    list of primes that the trial-division loop builds, as long as the
    interpreter's [int(num ** 0.5)] is at least the integer square root of
    [num] and below [num] for the numbers [num] that the loop tests, those
    from 2 to [n - 1]. *)
Theorem prime_workloads_agree `{PyRuntime} (n : Z) :
  (∀ num, 2 ≤ num < n → Z.sqrt num ≤ int_pow_half num < num) →
  2 ≤ n →
  Cpu.sieve_of_eratosthenes_body n = Ok (Cpu.prime_numbers_body n).
Proof.
  intros Hsqrt Hn. unfold Cpu.sieve_of_eratosthenes_body, Cpu.prime_numbers_body.
  destruct (sieve_while_inv n 2 (replicate (Z.to_nat (n + 1)) true))
    as (primes' & q & -> & Hq & Hnq & Hinv); [done|apply sieve_inv_init; lia|].
  simpl. rewrite fold_left_append_filter. simpl.
  rewrite select_marked_filter.
  - f_equal. apply List.filter_ext_in. intros i Hi.
    apply list_elem_of_In, elem_of_py_range in Hi.
    apply eq_true_iff_eq.
    rewrite (sieve_flag_spec n q i primes') by (done || lia).
    by rewrite is_prime_spec by (lia || apply Hsqrt; lia).
  - intros p Hp%elem_of_py_range. destruct Hinv as [-> _]. lia.
Qed.

(** The sieve never raises: every index it uses is in range. *)
Lemma sieve_returns (n : Z) :
  2 ≤ n → ∃ l, Cpu.sieve_of_eratosthenes_body n = Ok l.
Proof.
  intros Hn. unfold Cpu.sieve_of_eratosthenes_body.
  destruct (sieve_while_inv n 2 (replicate (Z.to_nat (n + 1)) true))
    as (primes' & q & -> & Hq & Hnq & Hinv); [done|apply sieve_inv_init; lia|].
  simpl. rewrite select_marked_filter; [eauto|].
  intros p Hp%elem_of_py_range. destruct Hinv as [-> _]. lia.
Qed.

(** Having no divisor between 2 and the square root is being prime. *)
Lemma no_small_divisor_prime (i : Z) : 2 ≤ i → ¬ has_small_divisor i ↔ Z.prime i.
Proof.
  intros Hi. split.
  - intros Hnone. split; [lia|]. intros n Hn [e He]. apply Hnone.
    destruct (Z_le_gt_dec n e).
    + exists n. split; [lia|]. split; [nia|]. by exists e.
    + exists e. split; [nia|]. split; [nia|]. exists n. lia.
  - intros [_ Hprime] (d & Hd & Hdd & Hdiv). apply (Hprime d); [nia|done].
Qed.

(** Both workloads list the primes below [n], in increasing order. *)
Lemma prime_numbers_body_spec `{PyRuntime} (n i : Z) :
  (∀ num, 2 ≤ num < n → Z.sqrt num ≤ int_pow_half num < num) →
  i ∈ Cpu.prime_numbers_body n ↔ 2 ≤ i < n ∧ Z.prime i.
Proof.
  intros Hsqrt. unfold Cpu.prime_numbers_body.
  rewrite fold_left_append_filter. simpl.
  rewrite list_elem_of_In, filter_In, <- list_elem_of_In, elem_of_py_range.
  split.
  - intros [Hi Hp]. split; [done|].
    apply no_small_divisor_prime; [lia|]. by apply is_prime_spec; [lia|apply Hsqrt|].
  - intros [Hi Hp]. split; [done|].
    apply is_prime_spec; [lia|by apply Hsqrt|]. by apply no_small_divisor_prime; [lia|].
Qed.

Lemma prime_workloads_agree_witness :
  (∀ num, 2 ≤ num < 30 → Z.sqrt num ≤ @int_pow_half sample_runtime num < num)
  ∧ @Cpu.sieve_of_eratosthenes_body 30 = Ok (@Cpu.prime_numbers_body sample_runtime 30).
Proof.
  assert (∀ num, 2 ≤ num < 30 → Z.sqrt num ≤ @int_pow_half sample_runtime num < num)
    as Hsqrt.
  { intros num Hnum. simpl. split; [lia|]. apply Z.sqrt_lt_lin. lia. }
  split; [exact Hsqrt|].
  apply (@prime_workloads_agree sample_runtime 30 Hsqrt). lia.
Defined.

(** ** Strings and files *)

Arguments appended : simpl never.
Arguments file_write : simpl never.
Arguments print : simpl never.
Arguments time_time : simpl never.

Lemma string_app_assoc (s1 s2 s3 : string) : (s1 +:+ s2) +:+ s3 = s1 +:+ (s2 +:+ s3).
Proof.
  induction s1 as [|c s1 IH]; [done|].
  change (String c ((s1 +:+ s2) +:+ s3) = String c (s1 +:+ (s2 +:+ s3))).
  by rewrite IH.
Qed.

Lemma string_app_nil_r (s : string) : s +:+ "" = s.
Proof.
  induction s as [|c s IH]; [done|].
  change (String c (s +:+ "") = String c s). by rewrite IH.
Qed.

Lemma unlines_app (l1 l2 : list string) : unlines (l1 ++ l2) = unlines l1 +:+ unlines l2.
Proof.
  induction l1 as [|l l1 IH]; [done|]. simpl.
  by rewrite IH, !string_app_assoc.
Qed.

Lemma file_write_appended (f s : string) (w : World) :
  file_write f s w = (Ok tt, appended f s w).
Proof. done. Qed.

Lemma appended_appended (f s1 s2 : string) (w : World) :
  appended f s2 (appended f s1 w) = appended f (s1 +:+ s2) w.
Proof.
  unfold appended, set_files. simpl.
  rewrite lookup_insert_eq, insert_insert_eq. simpl.
  by rewrite string_app_assoc.
Qed.

Lemma set_open_appended (o : list string) (f s : string) (w : World) :
  appended f s (set_open o w) = set_open o (appended f s w).
Proof. done. Qed.

Lemma py_open_append (f : string) (w : World) :
  py_open f ModeAppend w = (Ok f, set_open (f :: w_open w) (appended f "" w)).
Proof.
  unfold py_open, appended. by rewrite string_app_nil_r.
Qed.

Lemma file_close_opened (f : string) (w : World) :
  file_close f (set_open (f :: w_open w) w) = w.
Proof.
  unfold file_close, set_open. simpl. rewrite decide_True by done. by destruct w.
Qed.

Lemma file_close_appended (f g s : string) (w : World) :
  file_close f (appended g s w) = appended g s (file_close f w).
Proof. done. Qed.

(** Stepping through a block of statements. *)
Lemma bind_ok {A B} (m : M A) (k : A → M B) (a : A) (w w' : World) :
  m w = (Ok a, w') → (x ← m; k x) w = k a w'.
Proof. intros Hm. unfold mbind, M_bind. by rewrite Hm. Qed.

Lemma bind_raise {A B} (m : M A) (k : A → M B) (e : exn) (w w' : World) :
  m w = (Raise e, w') → (x ← m; k x) w = (Raise e, w').
Proof. intros Hm. unfold mbind, M_bind. by rewrite Hm. Qed.

Lemma for_fmap {A B} (h : A → B) (l : list A) (body : B → M unit) :
  for_ (h <$> l) body = for_ l (fun x => body (h x)).
Proof.
  induction l as [|x l IH]; [done|].
  change (for_ (h x :: (h <$> l)) body = for_ (x :: l) (fun x => body (h x))).
  simpl. by rewrite IH.
Qed.

(** A loop whose body writes one line per element, started after a first
    write, adds those lines. *)
Lemma for_appends {A} (f : string) (l : list A) (body : A → M unit) (g : A → string) :
  (∀ x s w, body x (appended f s w) = (Ok tt, appended f (s +:+ g x +:+ NL) w)) →
  ∀ s0 w, for_ l body (appended f s0 w)
          = (Ok tt, appended f (s0 +:+ unlines (g <$> l)) w).
Proof.
  intros Hbody. induction l as [|x l IH]; intros s0 w.
  - simpl. by rewrite string_app_nil_r.
  - change (for_ (x :: l) body) with (body x;; for_ l body).
    erewrite bind_ok by apply Hbody. rewrite IH.
    do 2 f_equal. simpl. by rewrite !string_app_assoc.
Qed.

Lemma write_info_line `{PyRuntime} (f : string) (entry : string * pyobj) s w :
  (let '(key, value) := entry in file_write f (key +:+ ": " +:+ py_str value +:+ NL))
    (appended f s w)
  = (Ok tt, appended f (s +:+ info_line entry +:+ NL) w).
Proof.
  destruct entry as [key value]. rewrite file_write_appended, appended_appended.
  unfold info_line. simpl. by rewrite !string_app_assoc.
Qed.

Lemma write_outcome_line (f : string) (outcome : string * (float * string)) s w :
  (let '(test, (result, params)) :=
     (let '(test, (x, params)) := outcome in (test, (PyFloat x, params))) in
   shown ← lift (format_spec_2f result);
   file_write f (test +:+ " (" +:+ params +:+ "): " +:+ shown +:+ " sec" +:+ NL))
    (appended f s w)
  = (Ok tt, appended f (s +:+ outcome_line outcome +:+ NL) w).
Proof.
  destruct outcome as [test [x params]].
  erewrite bind_ok by reflexivity.
  rewrite file_write_appended, appended_appended.
  unfold outcome_line. by rewrite !string_app_assoc.
Qed.

(** The four [log_results] with a fixed-point format differ in their
    constants only; one script of steps goes through each of them. *)
Ltac step_write :=
  erewrite bind_ok by (rewrite file_write_appended, appended_appended; reflexivity).

Ltac log_results_measured :=
  unfold with_open; rewrite py_open_append;
  unfold dict_items, measured; rewrite for_fmap;
  rewrite <- set_open_appended;
  do 3 step_write;
  erewrite bind_ok by (apply for_appends, write_info_line);
  step_write;
  erewrite bind_ok by (apply for_appends, write_outcome_line);
  rewrite file_write_appended, appended_appended;
  rewrite file_close_appended, file_close_opened;
  do 2 f_equal; unfold report_lines, banner;
  rewrite !unlines_app; simpl; by rewrite !string_app_assoc, ?string_app_nil_r.

Section Reports.
Context `{PyRuntime}.

Lemma cpu_log_results_measured system_info outcomes w :
  Cpu.log_results system_info (measured outcomes) w
  = (Ok tt, appended Cpu.LOG_FILE
              (unlines (report_lines "CPU Benchmark Run " "Benchmark Results:"
                          system_info outcomes)) w).
Proof. unfold Cpu.log_results. log_results_measured. Qed.

Lemma memory_log_results_measured system_info outcomes w :
  Memory.log_results system_info (measured outcomes) w
  = (Ok tt, appended Memory.LOG_FILE
              (unlines (report_lines "Memory Benchmark Run " "Memory Benchmark Results:"
                          system_info outcomes)) w).
Proof. unfold Memory.log_results. log_results_measured. Qed.

Lemma storage_log_results_measured system_info outcomes w :
  Storage.log_results system_info (measured outcomes) w
  = (Ok tt, appended Storage.LOG_FILE
              (unlines (report_lines "Storage Benchmark Run " "Storage Benchmark Results:"
                          system_info outcomes)) w).
Proof. unfold Storage.log_results. log_results_measured. Qed.
End Reports.

(** The loop over arbitrary outcomes: it may stop at an outcome that has no
    fixed-point format, and whatever it wrote went to the end of the file. *)
Lemma for_outcomes_any (f : string) (results : dict (pyobj * string)) s0 w :
  ∃ r s', for_ (dict_items results)
            (fun '(test, (result, params)) =>
               shown ← lift (format_spec_2f result);
               file_write f (test +:+ " (" +:+ params +:+ "): " +:+ shown +:+ " sec" +:+ NL))
            (appended f s0 w)
          = (r, appended f (s0 +:+ s') w).
Proof.
  unfold dict_items. revert s0.
  induction results as [|[test [result params]] results IH]; intros s0.
  - exists (Ok tt), "". by rewrite string_app_nil_r.
  - match goal with |- context [for_ (?x :: ?l) ?body] =>
      change (for_ (x :: l) body) with (body x;; for_ l body) end.
    destruct (format_spec_2f result) as [shown|e] eqn:Hfmt.
    + erewrite bind_ok; cycle 1.
      { erewrite bind_ok by (unfold lift; rewrite Hfmt; reflexivity).
        rewrite file_write_appended, appended_appended. reflexivity. }
      destruct (IH (s0 +:+ test +:+ " (" +:+ params +:+ "): " +:+ shown +:+ " sec" +:+ NL))
        as (r & s' & ->).
      exists r. eexists. by rewrite string_app_assoc.
    + exists (Raise e), "". rewrite string_app_nil_r.
      erewrite bind_raise; [done|].
      erewrite bind_raise; [done|]. unfold lift. by rewrite Hfmt.
Qed.

Ltac log_results_any results :=
  unfold with_open; rewrite py_open_append;
  rewrite <- set_open_appended;
  do 3 step_write;
  erewrite bind_ok by (apply for_appends, write_info_line);
  step_write;
  let Hloop := fresh "Hloop" in
  let s' := fresh "s'" in
  let e := fresh "e" in
  match goal with
  | |- context [mbind _ (for_ (dict_items results) ?body) (appended ?f ?s0 ?w1)] =>
      destruct (for_outcomes_any f results s0 w1) as ([[]|e] & s' & Hloop)
  end;
  [ erewrite bind_ok by exact Hloop;
    rewrite file_write_appended, appended_appended
  | erewrite bind_raise by exact Hloop ];
  rewrite file_close_appended, file_close_opened; eauto.

Section AnyResults.
Context `{PyRuntime}.

Lemma cpu_log_results_any system_info results w :
  ∃ r block, Cpu.log_results system_info results w
             = (r, appended Cpu.LOG_FILE block w).
Proof. unfold Cpu.log_results. log_results_any results. Qed.

Lemma memory_log_results_any system_info results w :
  ∃ r block, Memory.log_results system_info results w
             = (r, appended Memory.LOG_FILE block w).
Proof. unfold Memory.log_results. log_results_any results. Qed.

Lemma storage_log_results_any system_info results w :
  ∃ r block, Storage.log_results system_info results w
             = (r, appended Storage.LOG_FILE block w).
Proof. unfold Storage.log_results. log_results_any results. Qed.
End AnyResults.

(** ** Statements that leave files and console alone *)

Lemma untouched_refl w : untouched w w.
Proof. done. Qed.

Lemma untouched_trans w1 w2 w3 : untouched w1 w2 → untouched w2 w3 → untouched w1 w3.
Proof. unfold untouched. intros (?&?&?&?) (?&?&?&?). repeat split; congruence. Qed.

Lemma silent_ret {A} (a : A) (Q : A → Prop) : Q a → silent (mret a) Q.
Proof. intros HQ w. split; [done|]. by intros a' [= <-]. Qed.

Lemma silent_bind {A B} (m : M A) (k : A → M B) (P : A → Prop) (Q : B → Prop) :
  silent m P → (∀ a, P a → silent (k a) Q) → silent (m ≫= k) Q.
Proof.
  intros Hm Hk w. destruct (Hm w) as [Hw HP].
  unfold mbind, M_bind. destruct (m w) as [[a|e] w1]; simpl in *.
  - destruct (Hk a (HP a eq_refl) w1) as [Hw1 HQ].
    split; [by eapply untouched_trans|done].
  - split; [done|]. by intros b.
Qed.

Lemma silent_weaken {A} (m : M A) (P Q : A → Prop) :
  silent m P → (∀ a, P a → Q a) → silent m Q.
Proof. intros Hm HPQ w. destruct (Hm w). split; [done|]. eauto. Qed.

Lemma silent_time_time : silent time_time (fun _ => True).
Proof. intros w. by split. Qed.

Lemma silent_py_alloc (refusal : string) (size : Z) :
  silent (py_alloc refusal size) (fun _ => True).
Proof.
  intros w. unfold py_alloc.
  by destruct (size <? 0), (size <=? mem_free (w_host w)).
Qed.

Lemma silent_np_alloc (shape : list Z) (itemsize : Z) :
  silent (np_alloc shape itemsize) (fun _ => True).
Proof.
  unfold np_alloc. destruct (forallb _ _); [apply silent_py_alloc|].
  intros w. by split.
Qed.

Lemma silent_lift {A} (r : result A) : silent (lift r) (fun a => r = Ok a).
Proof. intros w. by split. Qed.

Lemma silent_host_call {A} (f : Host → result A) : silent (host_call f) (fun _ => True).
Proof. intros w. by split. Qed.

Lemma silent_fact {A} (source : Host → result A) (conv : A → pyobj) :
  silent (fact source conv) (fun _ => True).
Proof.
  eapply silent_bind; [apply silent_host_call|]. intros a _. by apply silent_ret.
Qed.

(** A block of clock readings, allocations and pure steps that ends by
    returning a measurement. *)
Ltac silent_unit :=
  cbv zeta;
  repeat match goal with
    | |- silent (mret _) _ => apply silent_ret; eexists; reflexivity
    | |- silent (mbind _ time_time) _ =>
        eapply silent_bind; [apply silent_time_time | intros ? _]
    | |- silent (mbind _ (py_alloc _ _)) _ =>
        eapply silent_bind; [apply silent_py_alloc | intros ? _]
    | |- silent (mbind _ (np_alloc _ _)) _ =>
        eapply silent_bind; [apply silent_np_alloc | intros ? _]
    | |- silent (mbind _ (lift _)) _ =>
        eapply silent_bind; [apply silent_lift | intros ? _]
    end.

(** ** Dict displays *)

Lemma dict_setitem_fresh {V} (k : string) (v : V) (d : dict V) :
  k ∉ dict_keys d → dict_setitem k v d = d ++ [(k, v)].
Proof.
  unfold dict_keys. induction d as [|[k' v'] d IH]; intros Hk; [done|].
  simpl in *. apply not_elem_of_cons in Hk as [Hne Hk].
  rewrite decide_False by done. by rewrite IH.
Qed.

(** A display of distinct keys whose values are all silent: if it returns,
    the dict holds one value per entry, in the order of the entries. *)
Lemma silent_dict_display {V} (entries : list (string * M V)) (Q : V → Prop) (d : dict V) :
  Forall (fun entry => silent entry.2 Q) entries →
  NoDup (dict_keys d ++ entries.*1) →
  silent (dict_display entries d)
         (fun d' => ∃ vs, Forall Q vs ∧ d' = d ++ zip (entries.*1) vs
                          ∧ length vs = length entries).
Proof.
  revert d. induction entries as [|[k e] entries IH]; intros d Hall Hnd.
  - apply silent_ret. exists []. by rewrite app_nil_r.
  - apply Forall_cons in Hall as [He Hall]. simpl in *.
    eapply silent_bind; [exact He|]. intros v Hv.
    apply NoDup_app in Hnd as (Hd & Hdisj & Hk).
    apply NoDup_cons in Hk as [Hk Hks].
    rewrite dict_setitem_fresh by (intros Hin; eapply Hdisj; [done|left]).
    eapply silent_weaken.
    + apply IH; [done|]. unfold dict_keys. rewrite fmap_app. simpl.
      rewrite <- app_assoc. simpl. apply NoDup_app. split; [done|].
      split; [|by apply NoDup_cons].
      intros x Hx. by apply Hdisj.
    + intros d' (vs & Hvs & -> & Hlen). exists (v :: vs).
      split; [by apply Forall_cons|]. split; [by rewrite <- app_assoc|].
      simpl. by rewrite Hlen.
Qed.


(** Values that are all measurements are the outcomes of units that
    returned. *)
Lemma zip_measurements (names : list string) (vs : list (pyobj * string)) :
  Forall is_measurement vs → length vs = length names →
  ∃ outcomes, zip names vs = measured outcomes ∧ outcomes.*1 = names.
Proof.
  intros Hvs. revert names. induction Hvs as [|[r params] vs [x Hx] _ IH];
    intros [|name names] Hlen; simplify_eq/=.
  - by exists [].
  - destruct (IH names) as (outcomes & -> & <-); [done|].
    by exists ((name, (x, params)) :: outcomes).
Qed.

(** ** The console *)

Arguments printed : simpl never.

Lemma print_printed (s : string) (w : World) : print s w = (Ok tt, printed (s +:+ NL) w).
Proof. done. Qed.

Lemma printed_printed (s1 s2 : string) (w : World) :
  printed s2 (printed s1 w) = printed (s1 +:+ s2) w.
Proof. unfold printed, set_stdout. simpl. by rewrite string_app_assoc. Qed.

Lemma printed_nil (w : World) : printed "" w = w.
Proof. unfold printed, set_stdout. rewrite string_app_nil_r. by destruct w. Qed.

Lemma for_prints {A} (l : list A) (body : A → M unit) (g : A → string) :
  (∀ x w, body x w = (Ok tt, printed (g x +:+ NL) w)) →
  ∀ w, for_ l body w = (Ok tt, printed (unlines (g <$> l)) w).
Proof.
  intros Hbody. induction l as [|x l IH]; intros w.
  - simpl. by rewrite printed_nil.
  - change (for_ (x :: l) body) with (body x;; for_ l body).
    erewrite bind_ok by apply Hbody. rewrite IH, printed_printed.
    do 2 f_equal. simpl. by rewrite !string_app_assoc.
Qed.

Lemma print_outcome_line (outcome : string * (float * string)) w :
  (let '(test, (result, params)) :=
     (let '(test, (x, params)) := outcome in (test, (PyFloat x, params))) in
   shown ← lift (format_spec_2f result);
   print (test +:+ " (" +:+ params +:+ "): " +:+ shown +:+ " sec")) w
  = (Ok tt, printed (outcome_line outcome +:+ NL) w).
Proof.
  destruct outcome as [test [x params]].
  erewrite bind_ok by reflexivity.
  rewrite print_printed. unfold outcome_line. by rewrite !string_app_assoc.
Qed.

Lemma untouched_printed (s : string) (w w' : World) :
  untouched w w' → w_host (printed s w') = w_host w ∧ w_files (printed s w') = w_files w
                   ∧ w_open (printed s w') = w_open w.
Proof. intros (?&?&?&?). done. Qed.

(** ** Stepping through a display and through the units *)

Lemma dict_display_cons_ok {V} (k : string) (e : M V) rest d (v : V) w w' :
  e w = (Ok v, w') →
  dict_display ((k, e) :: rest) d w = dict_display rest (dict_setitem k v d) w'.
Proof. intros He. simpl. by erewrite bind_ok. Qed.

Lemma dict_display_cons_raise {V} (k : string) (e : M V) rest d (x : exn) w w' :
  e w = (Raise x, w') → dict_display ((k, e) :: rest) d w = (Raise x, w').
Proof. intros He. simpl. by erewrite bind_raise. Qed.

Section Units.
Context `{PyRuntime}.

Lemma cpu_prime_numbers_run (n : Z) (w : World) :
  Cpu.benchmark_prime_numbers n w
  = (Ok (PyFloat (elapsed w), "n=" +:+ str_int n), set_now (S (S (w_now w))) w).
Proof. reflexivity. Qed.

Lemma cpu_sieve_run (n : Z) (w : World) :
  2 ≤ n →
  Cpu.benchmark_sieve_of_eratosthenes n w
  = (Ok (PyFloat (elapsed w), "n=" +:+ str_int n), set_now (S (S (w_now w))) w).
Proof.
  intros Hn. destruct (sieve_returns n Hn) as [l Hl].
  unfold Cpu.benchmark_sieve_of_eratosthenes.
  erewrite bind_ok by reflexivity.
  erewrite bind_ok by (unfold lift; rewrite Hl; reflexivity).
  reflexivity.
Qed.

Lemma cpu_sha256_run (iterations : Z) (w : World) :
  Cpu.benchmark_sha256 iterations w
  = (Ok (PyFloat (elapsed w), "iterations=" +:+ str_int iterations),
     set_now (S (S (w_now w))) w).
Proof. reflexivity. Qed.

Lemma py_alloc_fits (refusal : string) (size : Z) (w : World) :
  0 ≤ size → size ≤ mem_free (w_host w) → py_alloc refusal size w = (Ok tt, w).
Proof.
  intros Hsize Hs. unfold py_alloc.
  destruct (Z.ltb_spec size 0); [lia|]. by rewrite (proj2 (Z.leb_le _ _) Hs).
Qed.

Lemma py_alloc_fails (refusal : string) (size : Z) (w : World) :
  0 ≤ size → mem_free (w_host w) < size →
  py_alloc refusal size w = (Raise MemoryError, w).
Proof.
  intros Hsize Hs. unfold py_alloc.
  destruct (Z.ltb_spec size 0); [lia|]. by rewrite (proj2 (Z.leb_gt _ _) Hs).
Qed.

Lemma py_alloc_negative (refusal : string) (size : Z) (w : World) :
  size < 0 → py_alloc refusal size w = (Raise (ValueError refusal), w).
Proof. intros Hsize. unfold py_alloc. by destruct (Z.ltb_spec size 0); [|lia]. Qed.

(** The three ways an allocation can go. *)
Lemma py_alloc_cases (refusal : string) (size : Z) (w : World) :
  py_alloc refusal size w = (Ok tt, w)
  ∨ py_alloc refusal size w = (Raise (ValueError refusal), w)
  ∨ py_alloc refusal size w = (Raise MemoryError, w).
Proof.
  unfold py_alloc. destruct (size <? 0), (size <=? mem_free (w_host w)); auto.
Qed.

Lemma cpu_aes_run (iterations : Z) (w : World) :
  16 ≤ mem_free (w_host w) →
  Cpu.benchmark_aes_encryption iterations w
  = (Ok (PyFloat (elapsed w), "iterations=" +:+ str_int iterations),
     set_now (S (S (w_now w))) w).
Proof.
  intros Hs. unfold Cpu.benchmark_aes_encryption.
  erewrite bind_ok by reflexivity.
  erewrite bind_ok by (by apply py_alloc_fits).
  erewrite bind_ok by (by apply py_alloc_fits).
  reflexivity.
Qed.

Lemma cpu_gzip_fails (size : Z) (w : World) :
  0 ≤ size → mem_free (w_host w) < size →
  Cpu.benchmark_gzip_compression size w = (Raise MemoryError, set_now (S (w_now w)) w).
Proof.
  intros Hsize Hs. unfold Cpu.benchmark_gzip_compression.
  erewrite bind_ok by reflexivity.
  erewrite bind_raise; [done|]. by apply py_alloc_fails.
Qed.

Lemma np_alloc_vector (n itemsize : Z) (w : World) :
  np_alloc [n] itemsize w
  = if n <? 0 then (Raise (ValueError "negative dimensions are not allowed"), w)
    else py_alloc "negative dimensions are not allowed" (itemsize * n) w.
Proof.
  unfold np_alloc. cbn [forallb fold_right]. rewrite Z.mul_1_r, andb_true_r.
  destruct (Z.leb_spec 0 n), (Z.ltb_spec n 0); try lia; done.
Qed.

(** The bandwidth unit: a negative size is refused by NumPy before the
    clock is read, the first array may not fit, and the copy fits when
    the first array did. *)
Lemma memory_bandwidth_run (size_mb : Z) (w : World) :
  Memory.benchmark_memory_bandwidth size_mb w
  = if (size_mb * 1024 * 1024) `div` 8 <? 0
    then (Raise (ValueError "negative dimensions are not allowed"), w)
    else if 8 * ((size_mb * 1024 * 1024) `div` 8) <=? mem_free (w_host w)
    then (Ok (PyFloat (elapsed w), "size=" +:+ str_int size_mb +:+ "MB"),
          set_now (S (S (w_now w))) w)
    else (Raise MemoryError, w).
Proof.
  unfold Memory.benchmark_memory_bandwidth. cbv zeta.
  set (size_elements := (size_mb * 1024 * 1024) `div` 8).
  destruct (Z.ltb_spec size_elements 0) as [Hneg|Hpos].
  { erewrite bind_raise; [done|]. rewrite np_alloc_vector.
    by destruct (Z.ltb_spec size_elements 0); [|lia]. }
  assert (∀ w', np_alloc [size_elements] 8 w'
                = py_alloc "negative dimensions are not allowed" (8 * size_elements) w')
    as Hvec.
  { intros w'. rewrite np_alloc_vector. by destruct (Z.ltb_spec size_elements 0); [lia|]. }
  destruct (Z.leb_spec (8 * size_elements) (mem_free (w_host w))).
  - erewrite bind_ok by (rewrite Hvec; apply py_alloc_fits; lia).
    erewrite bind_ok by reflexivity.
    erewrite bind_ok by (rewrite Hvec; apply py_alloc_fits; simpl; lia).
    reflexivity.
  - erewrite bind_raise; [done|]. rewrite Hvec. apply py_alloc_fails; lia.
Qed.
End Units.

(** ** Failure of a unit (claim C1) *)

(** A display whose first entries return and whose next one raises ends
    with that exception, in the world that the raising entry left; the
    entries after it are not evaluated. *)
Lemma display_stops_at_first_failure {V} (before after : list (string * M V))
    (name : string) (unit : M V) (d : dict V) (vs : list V) (e : exn) (w w1 w2 : World) :
  all_return before w vs w1 → unit w1 = (Raise e, w2) →
  dict_display (before ++ (name, unit) :: after) d w = (Raise e, w2).
Proof.
  intros Hbefore Hunit. revert d.
  induction Hbefore as [w|n u rest w wa wb v vs Hu Hrest IH]; intros d.
  - by apply dict_display_cons_raise.
  - change (((n, u) :: rest) ++ (name, unit) :: after)
      with ((n, u) :: (rest ++ (name, unit) :: after)).
    erewrite dict_display_cons_ok by exact Hu. by apply IH.
Qed.

(** A display of distinct names whose entries all return holds their
    values under their names, in the order of the entries. *)
Lemma display_of_returning_units {V} (entries : list (string * M V)) (d : dict V)
    (vs : list V) (w w' : World) :
  all_return entries w vs w' → NoDup (dict_keys d ++ entries.*1) →
  dict_display entries d w = (Ok (d ++ zip (entries.*1) vs), w').
Proof.
  intros Hall. revert d.
  induction Hall as [w|n u rest w wa wb v vs Hu Hrest IH]; intros d Hnd.
  - simpl. by rewrite app_nil_r.
  - erewrite dict_display_cons_ok by exact Hu.
    simpl in Hnd. apply NoDup_app in Hnd as Hparts. destruct Hparts as (Hd & Hdisj & Hk).
    rewrite dict_setitem_fresh by (intros Hin; eapply Hdisj; [done|left]).
    rewrite IH.
    + simpl. by rewrite <- app_assoc.
    + unfold dict_keys. rewrite fmap_app. simpl. rewrite <- app_assoc. exact Hnd.
Qed.

(** Units that touch nothing but the clock leave files and console as
    they were, and what they return is what each of them can return. *)
Lemma all_return_silent {V} (entries : list (string * M V)) (Q : V → Prop)
    (vs : list V) (w w' : World) :
  Forall (fun entry => silent entry.2 Q) entries → all_return entries w vs w' →
  untouched w w' ∧ Forall Q vs ∧ length vs = length entries.
Proof.
  intros Hsilent Hall.
  induction Hall as [w|n u rest w wa wb v vs Hu Hrest IH].
  - split; [apply untouched_refl|]. split; [constructor|done].
  - apply Forall_cons in Hsilent as [Hfirst Hsilent].
    destruct (IH Hsilent) as (Hw & Hvs & Hlen).
    simpl in Hfirst.
    destruct (Hfirst w) as [Hwa Hv]. rewrite Hu in Hwa, Hv. simpl in Hwa, Hv.
    split; [by eapply untouched_trans|]. split; [|simpl; by rewrite Hlen].
    apply Forall_cons. split; [by apply Hv|done].
Qed.

Section Suites.
Context `{PyRuntime}.

Lemma cpu_get_system_info_silent : silent Cpu.get_system_info (fun _ => True).
Proof.
  eapply silent_weaken; [apply (silent_dict_display _ (fun _ => True))|done].
  - repeat (apply Forall_cons; split; [apply silent_fact || apply silent_host_call|]).
    constructor.
  - simpl. apply (bool_decide_unpack _). by vm_compute.
Qed.

Lemma cpu_units_silent :
  Forall (fun entry : string * M (pyobj * string) => silent entry.2 is_measurement)
    [ ("Prime Number Calculation (Brute-Force)", Cpu.benchmark_prime_numbers 50000);
      ("Prime Number Calculation (Sieve of Eratosthenes)",
        Cpu.benchmark_sieve_of_eratosthenes 50000);
      ("SHA256 Hashing", Cpu.benchmark_sha256 100000);
      ("AES Encryption", Cpu.benchmark_aes_encryption 100000);
      ("GZIP Compression", Cpu.benchmark_gzip_compression 5000000);
      ("NumPy Matrix Multiplication", Cpu.benchmark_numpy_operations 500);
      ("Sorting Algorithm", Cpu.benchmark_sorting 1000000);
      ("Multi-threaded Prime Calculation", Cpu.benchmark_multi_threaded_prime 10000 4) ].
Proof.
  repeat (apply Forall_cons; split; [cbv beta iota delta [snd]|]); [..|constructor].
  all: unfold Cpu.benchmark_prime_numbers, Cpu.benchmark_sieve_of_eratosthenes,
    Cpu.benchmark_sha256, Cpu.benchmark_aes_encryption, Cpu.benchmark_gzip_compression,
    Cpu.benchmark_numpy_operations, Cpu.benchmark_sorting,
    Cpu.benchmark_multi_threaded_prime.
  all: silent_unit.
Qed.

Lemma cpu_units_all_silent :
  Forall (fun entry : string * M (pyobj * string) => silent entry.2 is_measurement)
    cpu_units.
Proof. exact cpu_units_silent. Qed.

(** The four units of the storage suite that the run takes as they
    come. *)
Variable random_read_write file_iops file_deletion filesystem_latency
  : M (pyobj * string).
Variable urandom_bytes : Z → string.

(** C1, as amended. The runners catch nothing. In the CPU suite and in
    the storage suite, when the units before some unit have returned and
    that unit raises, the run raises the very same exception and ends in
    the world that the failing unit left: the runner records nothing for
    it, calls no later unit, prints no outcome line and appends nothing
    to the log (for the CPU suite, whose units only read the clock, the
    files are those from before the run and the console shows the heading
    only). When the host profile cannot be collected, the CPU run ends
    with that exception before anything is printed. The CPU suite produces
    a report only when all its eight units return, and then the report
    holds, in the order of registration, what each of them returned. *)
Theorem suite_run_ends_at_first_failure :
  (∀ w system_info w0 before name unit after vs w1 e w2,
     Cpu.get_system_info w = (Ok system_info, w0) →
     cpu_units = before ++ (name, unit) :: after →
     all_return before (heading_printed "Running CPU Benchmarks..." w0) vs w1 →
     unit w1 = (Raise e, w2) →
     Cpu.run_benchmarks w = (Raise e, w2)
     ∧ w_files w2 = w_files w
     ∧ w_stdout w2 = w_stdout w +:+ ("Running CPU Benchmarks..." +:+ NL) +:+ NL)
  ∧ (∀ w e w0,
       Cpu.get_system_info w = (Raise e, w0) →
       Cpu.run_benchmarks w = (Raise e, w0) ∧ w_stdout w0 = w_stdout w)
  ∧ (∀ w system_info w0 vs w1,
       Cpu.get_system_info w = (Ok system_info, w0) →
       all_return cpu_units (heading_printed "Running CPU Benchmarks..." w0) vs w1 →
       ∃ outcomes,
         measured outcomes = zip (cpu_units.*1) vs
         ∧ Cpu.run_benchmarks w
           = (Ok tt,
              printed ((NL +:+ "Benchmark results saved to: " +:+ Cpu.LOG_FILE) +:+ NL)
                (appended Cpu.LOG_FILE
                   (unlines (report_lines "CPU Benchmark Run " "Benchmark Results:"
                               system_info outcomes))
                   (printed (unlines (outcome_line <$> outcomes)) w1))))
  ∧ (∀ w system_info w0 before name unit after vs w1 e w2,
       Storage.get_system_info w = (Ok system_info, w0) →
       storage_units random_read_write file_iops file_deletion filesystem_latency
         urandom_bytes = before ++ (name, unit) :: after →
       all_return before (heading_printed "Running Storage Benchmarks..." w0) vs w1 →
       unit w1 = (Raise e, w2) →
       Storage.run_storage_benchmarks random_read_write file_iops file_deletion
         filesystem_latency urandom_bytes w = (Raise e, w2)).
Proof.
  split; [|split; [|split]].
  - intros w system_info w0 before name unit after vs w1 e w2 Hinfo Hunits Hbefore Hunit.
    split.
    + unfold Cpu.run_benchmarks.
      erewrite bind_ok by exact Hinfo.
      erewrite bind_ok by apply print_printed.
      erewrite bind_raise; [reflexivity|].
      change [ ("Prime Number Calculation (Brute-Force)", Cpu.benchmark_prime_numbers 50000);
               ("Prime Number Calculation (Sieve of Eratosthenes)",
                 Cpu.benchmark_sieve_of_eratosthenes 50000);
               ("SHA256 Hashing", Cpu.benchmark_sha256 100000);
               ("AES Encryption", Cpu.benchmark_aes_encryption 100000);
               ("GZIP Compression", Cpu.benchmark_gzip_compression 5000000);
               ("NumPy Matrix Multiplication", Cpu.benchmark_numpy_operations 500);
               ("Sorting Algorithm", Cpu.benchmark_sorting 1000000);
               ("Multi-threaded Prime Calculation",
                 Cpu.benchmark_multi_threaded_prime 10000 4) ] with cpu_units.
      rewrite Hunits. by eapply display_stops_at_first_failure.
    + pose proof cpu_units_all_silent as Hsilent. rewrite Hunits in Hsilent.
      apply Forall_app in Hsilent as [Hsb Hsu].
      apply Forall_cons in Hsu as [Hsu _]. simpl in Hsu.
      destruct (all_return_silent _ _ _ _ _ Hsb Hbefore) as ((_ & Hf1 & _ & Hs1) & _).
      destruct (Hsu w1) as [(_ & Hf2 & _ & Hs2) _]. rewrite Hunit in Hf2, Hs2.
      destruct (cpu_get_system_info_silent w) as [(_ & Hf0 & _ & Hs0) _].
      rewrite Hinfo in Hf0, Hs0. simpl in *.
      split; [congruence|]. rewrite Hs2, Hs1. unfold heading_printed, printed. simpl.
      by rewrite Hs0.
  - intros w e w0 Hinfo. split.
    + unfold Cpu.run_benchmarks. by erewrite bind_raise by exact Hinfo.
    + destruct (cpu_get_system_info_silent w) as [(_ & _ & _ & Hs0) _].
      by rewrite Hinfo in Hs0.
  - intros w system_info w0 vs w1 Hinfo Hall.
    destruct (all_return_silent _ _ _ _ _ cpu_units_all_silent Hall) as (_ & Hvs & Hlen).
    pose proof (eq_trans Hlen (eq_sym (length_fmap fst _))) as Hlen'.
    destruct (zip_measurements _ vs Hvs Hlen') as (outcomes & Hzip & Hnames).
    exists outcomes. split; [done|].
    unfold Cpu.run_benchmarks.
    erewrite bind_ok by exact Hinfo.
    erewrite bind_ok by apply print_printed.
    erewrite bind_ok; cycle 1.
    { apply (display_of_returning_units cpu_units [] vs); [exact Hall|].
      simpl. apply (bool_decide_unpack _). by vm_compute. }
    change (@app (string * (pyobj * string)) [] ?l) with l. rewrite Hzip.
    erewrite bind_ok; cycle 1.
    { unfold dict_items, measured. rewrite for_fmap.
      apply for_prints, print_outcome_line. }
    erewrite bind_ok by apply cpu_log_results_measured.
    by rewrite print_printed.
  - intros w system_info w0 before name unit after vs w1 e w2 Hinfo Hunits Hbefore Hunit.
    unfold Storage.run_storage_benchmarks.
    erewrite bind_ok by exact Hinfo.
    erewrite bind_ok by apply print_printed.
    erewrite bind_raise; [reflexivity|].
    change [ ("Sequential Write Speed",
               Storage.benchmark_sequential_write urandom_bytes 500);
             ("Sequential Read Speed", Storage.benchmark_sequential_read);
             ("Random Read/Write Speed", random_read_write);
             ("File IOPS Test", file_iops);
             ("File Deletion Performance", file_deletion);
             ("Filesystem Latency Test", filesystem_latency) ]
      with (storage_units random_read_write file_iops file_deletion filesystem_latency
              urandom_bytes).
    rewrite Hunits. by eapply display_stops_at_first_failure.
Qed.
End Suites.

(** C1, as stated, fails on a host that cannot allocate the five million
    bytes of the compression unit: the [MemoryError] of that unit ends the
    run, after four units had returned. Nothing is in the log, and the
    console shows the heading only. *)
Lemma cpu_run_aborts_on_memory_error :
  ∃ w', @Cpu.run_benchmarks sample_runtime low_memory_world = (Raise MemoryError, w')
        ∧ w_files w' = ∅
        ∧ w_stdout w' = ("Running CPU Benchmarks..." +:+ NL) +:+ NL.
Proof.
  unfold Cpu.run_benchmarks.
  assert (Cpu.get_system_info low_memory_world
          = (Ok [ ("CPU", PyStr "Linux-6.1.21-v8+-aarch64-with-glibc2.31");
                  ("Architecture", PyStr "aarch64"); ("Cores", PyInt 4);
                  ("Physical Cores", PyInt 4);
                  ("Python Version",
                    PyStr "3.11.2 (main, Mar 13 2023, 12:18:29) [GCC 12.2.0]") ],
             low_memory_world)) as Hinfo by reflexivity.
  erewrite bind_ok by exact Hinfo.
  erewrite bind_ok by apply print_printed.
  erewrite bind_raise; cycle 1.
  { erewrite dict_display_cons_ok by apply cpu_prime_numbers_run.
    erewrite dict_display_cons_ok by (apply cpu_sieve_run; lia).
    erewrite dict_display_cons_ok by apply cpu_sha256_run.
    erewrite dict_display_cons_ok by (apply cpu_aes_run; simpl; lia).
    erewrite dict_display_cons_raise; [reflexivity|].
    apply cpu_gzip_fails; simpl; lia. }
  eexists. split; [reflexivity|]. split; reflexivity.
Qed.

Lemma suite_run_ends_at_first_failure_witness :
  ∃ w2, @Cpu.run_benchmarks sample_runtime low_memory_world = (Raise MemoryError, w2)
        ∧ w_files w2 = w_files low_memory_world
        ∧ w_stdout w2
          = w_stdout low_memory_world +:+ ("Running CPU Benchmarks..." +:+ NL) +:+ NL.
Proof.
  eexists.
  eapply (proj1 (@suite_run_ends_at_first_failure sample_runtime
                   (unit_not_to_call "") (unit_not_to_call "") (unit_not_to_call "")
                   (unit_not_to_call "") (fun _ => ""))
            low_memory_world _ low_memory_world
            [ ("Prime Number Calculation (Brute-Force)",
                @Cpu.benchmark_prime_numbers sample_runtime 50000);
              ("Prime Number Calculation (Sieve of Eratosthenes)",
                Cpu.benchmark_sieve_of_eratosthenes 50000);
              ("SHA256 Hashing", Cpu.benchmark_sha256 100000);
              ("AES Encryption", Cpu.benchmark_aes_encryption 100000) ]
            "GZIP Compression" (Cpu.benchmark_gzip_compression 5000000)
            [ ("NumPy Matrix Multiplication", Cpu.benchmark_numpy_operations 500);
              ("Sorting Algorithm", Cpu.benchmark_sorting 1000000);
              ("Multi-threaded Prime Calculation",
                Cpu.benchmark_multi_threaded_prime 10000 4) ]).
  - reflexivity.
  - reflexivity.
  - eapply all_return_cons; [apply cpu_prime_numbers_run|].
    eapply all_return_cons; [apply cpu_sieve_run; lia|].
    eapply all_return_cons; [apply cpu_sha256_run|].
    eapply all_return_cons; [apply cpu_aes_run; simpl; lia|].
    apply all_return_nil.
  - apply cpu_gzip_fails; simpl; lia.
Defined.

(** The storage suite ends the same way when its first unit cannot get the
    500 MiB it writes: the run raises, nothing is logged, and the test file
    stays behind, empty. *)
Lemma storage_run_aborts_on_memory_error `{PyRuntime}
    (random_read_write file_iops file_deletion filesystem_latency : M (pyobj * string))
    (urandom_bytes : Z → string) (system_info : dict pyobj) (w : World) :
  Storage.get_system_info w = (Ok system_info, w) →
  mem_free (w_host w) < 500 * 1024 * 1024 →
  ∃ w', Storage.run_storage_benchmarks random_read_write file_iops file_deletion
          filesystem_latency urandom_bytes w = (Raise MemoryError, w')
        ∧ w_files w' = <[Storage.TEST_FILE := ""]> (w_files w)
        ∧ w_open w' = w_open w
        ∧ w_stdout w' = w_stdout w +:+ ("Running Storage Benchmarks..." +:+ NL) +:+ NL.
Proof.
  intros Hinfo Hfree. unfold Storage.run_storage_benchmarks.
  erewrite bind_ok by exact Hinfo.
  erewrite bind_ok by apply print_printed.
  erewrite bind_raise; cycle 1.
  { erewrite dict_display_cons_raise; [reflexivity|].
    unfold Storage.benchmark_sequential_write.
    erewrite bind_ok by reflexivity.
    erewrite bind_raise; [reflexivity|].
    unfold with_open, py_open.
    erewrite (bind_raise (Storage.os_urandom _ _)); [reflexivity|].
    unfold Storage.os_urandom. erewrite bind_raise; [reflexivity|].
    apply py_alloc_fails; [lia|exact Hfree]. }
  eexists. split; [reflexivity|]. done.
Qed.

(** ** One outcome per unit, in order (claim C2) *)

Section MemorySuite.
Context `{PyRuntime}.

Lemma memory_get_system_info_silent : silent Memory.get_system_info (fun _ => True).
Proof.
  unfold Memory.get_system_info.
  eapply silent_bind; [apply silent_host_call|]. intros mem _.
  eapply silent_weaken; [apply (silent_dict_display _ (fun _ => True))|done].
  - repeat (apply Forall_cons; split;
            [first [apply silent_fact | apply silent_host_call | by apply silent_ret]|]).
    constructor.
  - simpl. apply (bool_decide_unpack _). by vm_compute.
Qed.

Lemma memory_units_silent :
  Forall (fun entry : string * M (pyobj * string) => silent entry.2 is_measurement)
    [ ("Memory Read/Write Speed", Memory.benchmark_memory_read_write 500);
      ("Memory Bandwidth Test", Memory.benchmark_memory_bandwidth 500);
      ("Memory Allocation Stress Test", Memory.benchmark_memory_allocation 1000);
      ("Page Faults Test", Memory.benchmark_page_faults 1000000);
      ("Random Access Latency", Memory.benchmark_random_access_latency 100000) ].
Proof.
  repeat (apply Forall_cons; split; [cbv beta iota delta [snd]|]); [..|constructor].
  all: unfold Memory.benchmark_memory_read_write, Memory.benchmark_memory_bandwidth,
    Memory.benchmark_memory_allocation, Memory.benchmark_page_faults,
    Memory.benchmark_random_access_latency.
  all: silent_unit.
Qed.

Lemma memory_units_all_silent :
  Forall (fun entry : string * M (pyobj * string) => silent entry.2 is_measurement)
    memory_units.
Proof. exact memory_units_silent. Qed.

(** C2, as amended. When all five units of the memory suite return, the
    run returns and its report holds exactly one outcome for each unit,
    in the order of registration, each with what its unit returned: the
    outcome lines go to the console and the block to the end of the log.
    When a unit raises after the units before it returned, the run
    raises the same exception, in the world that the failing unit left:
    there is no report, the values of the units that had returned are
    lost with the dict under construction, no file has changed and the
    console shows the heading only. *)
Theorem memory_run_reports_in_order_or_nothing :
  (∀ w system_info w0 vs w1,
     Memory.get_system_info w = (Ok system_info, w0) →
     all_return memory_units (heading_printed "Running Memory Benchmarks..." w0) vs w1 →
     ∃ outcomes,
       measured outcomes = zip (memory_units.*1) vs
       ∧ length outcomes = length memory_units
       ∧ Memory.run_memory_benchmarks w
         = (Ok tt,
            printed ((NL +:+ "Memory benchmark results saved to: " +:+ Memory.LOG_FILE)
                     +:+ NL)
              (appended Memory.LOG_FILE
                 (unlines (report_lines "Memory Benchmark Run "
                             "Memory Benchmark Results:" system_info outcomes))
                 (printed (unlines (outcome_line <$> outcomes)) w1))))
  ∧ (∀ w system_info w0 before name unit after vs w1 e w2,
       Memory.get_system_info w = (Ok system_info, w0) →
       memory_units = before ++ (name, unit) :: after →
       all_return before (heading_printed "Running Memory Benchmarks..." w0) vs w1 →
       unit w1 = (Raise e, w2) →
       Memory.run_memory_benchmarks w = (Raise e, w2)
       ∧ w_files w2 = w_files w
       ∧ w_stdout w2 = w_stdout w +:+ ("Running Memory Benchmarks..." +:+ NL) +:+ NL).
Proof.
  split.
  - intros w system_info w0 vs w1 Hinfo Hall.
    destruct (all_return_silent _ _ _ _ _ memory_units_all_silent Hall)
      as (_ & Hvs & Hlen).
    pose proof (eq_trans Hlen (eq_sym (length_fmap fst _))) as Hlen'.
    destruct (zip_measurements _ vs Hvs Hlen') as (outcomes & Hzip & Hnames).
    exists outcomes. split; [done|]. split.
    { rewrite <- (length_fmap fst outcomes), Hnames. by rewrite length_fmap. }
    unfold Memory.run_memory_benchmarks.
    erewrite bind_ok by exact Hinfo.
    erewrite bind_ok by apply print_printed.
    erewrite bind_ok; cycle 1.
    { apply (display_of_returning_units memory_units [] vs); [exact Hall|].
      simpl. apply (bool_decide_unpack _). by vm_compute. }
    change (@app (string * (pyobj * string)) [] ?l) with l. rewrite Hzip.
    erewrite bind_ok; cycle 1.
    { unfold dict_items, measured. rewrite for_fmap.
      apply for_prints, print_outcome_line. }
    erewrite bind_ok by apply memory_log_results_measured.
    by rewrite print_printed.
  - intros w system_info w0 before name unit after vs w1 e w2 Hinfo Hunits Hbefore Hunit.
    split.
    + unfold Memory.run_memory_benchmarks.
      erewrite bind_ok by exact Hinfo.
      erewrite bind_ok by apply print_printed.
      erewrite bind_raise; [reflexivity|].
      change [ ("Memory Read/Write Speed", Memory.benchmark_memory_read_write 500);
               ("Memory Bandwidth Test", Memory.benchmark_memory_bandwidth 500);
               ("Memory Allocation Stress Test", Memory.benchmark_memory_allocation 1000);
               ("Page Faults Test", Memory.benchmark_page_faults 1000000);
               ("Random Access Latency", Memory.benchmark_random_access_latency 100000) ]
        with memory_units.
      rewrite Hunits. by eapply display_stops_at_first_failure.
    + pose proof memory_units_all_silent as Hsilent.
      rewrite Hunits in Hsilent.
      apply Forall_app in Hsilent as [Hsb Hsu].
      apply Forall_cons in Hsu as [Hsu _]. simpl in Hsu.
      destruct (all_return_silent _ _ _ _ _ Hsb Hbefore) as ((_ & Hf1 & _ & Hs1) & _).
      destruct (Hsu w1) as [(_ & Hf2 & _ & Hs2) _]. rewrite Hunit in Hf2, Hs2.
      destruct (memory_get_system_info_silent w) as [(_ & Hf0 & _ & Hs0) _].
      rewrite Hinfo in Hf0, Hs0. simpl in *.
      split; [congruence|]. rewrite Hs2, Hs1. unfold heading_printed, printed. simpl.
      by rewrite Hs0.
Qed.
End MemorySuite.

(** C2, as stated, fails on a board with 600 MiB to allocate: the first two
    units return, the third asks for 1000 MiB and raises, and the run ends
    without a report; the log file does not even exist afterwards. *)
Lemma memory_run_drops_recorded_outcomes :
  (@Memory.benchmark_memory_read_write 500 small_board_world).1
    = Ok (PyFloat (S754_zero false), "size=500MB")
  ∧ (@Memory.run_memory_benchmarks sample_runtime small_board_world).1
    = Raise MemoryError
  ∧ w_files (@Memory.run_memory_benchmarks sample_runtime small_board_world).2
      !! Memory.LOG_FILE = None.
Proof. split; [|split]; vm_compute; reflexivity. Qed.

Lemma memory_run_reports_in_order_or_nothing_witness :
  ∃ w2, @Memory.run_memory_benchmarks sample_runtime small_board_world
        = (Raise MemoryError, w2)
        ∧ w_files w2 = w_files small_board_world
        ∧ w_stdout w2
          = w_stdout small_board_world
            +:+ ("Running Memory Benchmarks..." +:+ NL) +:+ NL.
Proof.
  eexists.
  eapply (proj2 (@memory_run_reports_in_order_or_nothing sample_runtime)
            small_board_world _ small_board_world
            [ ("Memory Read/Write Speed", Memory.benchmark_memory_read_write 500);
              ("Memory Bandwidth Test", Memory.benchmark_memory_bandwidth 500) ]
            "Memory Allocation Stress Test" (Memory.benchmark_memory_allocation 1000)
            [ ("Page Faults Test", Memory.benchmark_page_faults 1000000);
              ("Random Access Latency", Memory.benchmark_random_access_latency 100000) ]).
  - reflexivity.
  - reflexivity.
  - eapply all_return_cons; [reflexivity|].
    eapply all_return_cons; [reflexivity|].
    apply all_return_nil.
  - reflexivity.
Defined.

(** ** Names in a display *)

Lemma dict_keys_setitem_present {V} (k : string) (v : V) (d : dict V) :
  k ∈ dict_keys d → dict_keys (dict_setitem k v d) = dict_keys d.
Proof.
  unfold dict_keys. induction d as [|[k' v'] d IH]; intros Hk.
  - by apply elem_of_nil in Hk.
  - simpl in *. destruct (decide (k' = k)) as [->|Hne]; [done|].
    simpl. f_equal. apply IH. apply elem_of_cons in Hk as [->|]; done.
Qed.

Lemma dict_get_setitem {V} (k : string) (v : V) (d : dict V) :
  dict_get k (dict_setitem k v d) = Some v.
Proof.
  induction d as [|[k' v'] d IH]; simpl.
  - by rewrite decide_True.
  - destruct (decide (k' = k)) as [->|Hne]; simpl.
    + by rewrite decide_True.
    + by rewrite decide_False.
Qed.

Lemma dict_setitem_NoDup {V} (k : string) (v : V) (d : dict V) :
  NoDup (dict_keys d) → NoDup (dict_keys (dict_setitem k v d)).
Proof.
  intros Hnd. destruct (decide (k ∈ dict_keys d)) as [Hin|Hni].
  - by rewrite dict_keys_setitem_present.
  - rewrite dict_setitem_fresh by done. unfold dict_keys in *.
    rewrite fmap_app. simpl. apply NoDup_app. split; [done|].
    split; [|apply NoDup_singleton].
    intros x Hx ->%list_elem_of_singleton. done.
Qed.

(** Whatever names a display repeats, the dict it returns holds no name
    twice. *)
Lemma dict_display_NoDup {V} (entries : list (string * M V)) (d d' : dict V) w w' :
  NoDup (dict_keys d) → dict_display entries d w = (Ok d', w') → NoDup (dict_keys d').
Proof.
  revert d w. induction entries as [|[k e] entries IH]; intros d w Hnd Hrun.
  - by injection Hrun as <- _.
  - simpl in Hrun. unfold mbind, M_bind in Hrun.
    destruct (e w) as [[v|x] w1]; [|done].
    eapply IH; [|exact Hrun]. by apply dict_setitem_NoDup.
Qed.

(** A display of distinct names that returns holds exactly its names, in
    their order. *)
Lemma dict_display_keys {V} (entries : list (string * M V)) (d d' : dict V) w w' :
  NoDup (dict_keys d ++ entries.*1) → dict_display entries d w = (Ok d', w') →
  dict_keys d' = dict_keys d ++ entries.*1.
Proof.
  revert d w. induction entries as [|[k e] entries IH]; intros d w Hnd Hrun.
  - injection Hrun as <- _. by rewrite app_nil_r.
  - simpl in *. unfold mbind, M_bind in Hrun.
    destruct (e w) as [[v|x] w1]; [|done].
    apply NoDup_app in Hnd as Hparts. destruct Hparts as (Hd & Hdisj & Hk).
    assert (k ∉ dict_keys d) as Hfresh by (intros Hin; eapply Hdisj; [done|left]).
    apply IH in Hrun.
    + rewrite Hrun, dict_setitem_fresh by done. unfold dict_keys.
      rewrite fmap_app. simpl. by rewrite <- app_assoc.
    + rewrite dict_setitem_fresh by done. unfold dict_keys.
      rewrite fmap_app. simpl. by rewrite <- app_assoc.
Qed.

(** The names under which the CPU run holds its outcomes are those of
    its display, in order, each once: the display names no unit twice, so
    no value is ever stored under a name that is already there. *)
Lemma cpu_results_names_distinct `{PyRuntime} (results : dict (pyobj * string))
    (w w' : World) :
  dict_display cpu_units [] w = (Ok results, w') →
  dict_keys results = cpu_units.*1 ∧ NoDup (dict_keys results).
Proof.
  intros Hrun.
  assert (NoDup (dict_keys ([] : dict (pyobj * string)) ++ cpu_units.*1)) as Hnd
    by (simpl; apply (bool_decide_unpack _); by vm_compute).
  pose proof (dict_display_keys _ _ _ _ _ Hnd Hrun) as Hkeys.
  split; [exact Hkeys|]. rewrite Hkeys. exact Hnd.
Qed.

(** ** Durations (claim C4) *)

(** C4, as stated, fails when the system clock is set back while a unit
    runs: the unit returns a measurement, and its duration is negative. *)
Lemma duration_can_be_negative :
  ∃ d, (@Cpu.benchmark_prime_numbers sample_runtime 10 clock_set_back_world).1
       = Ok (PyFloat d, "n=10")
       ∧ float_ltb d (float_of_Z 0) = true.
Proof. eexists. split; vm_compute; reflexivity. Qed.

(** ** Outcome lines *)

Lemma for_app {A} (l1 l2 : list A) (body : A → M unit) (w : World) :
  for_ (l1 ++ l2) body w = (for_ l1 body;; for_ l2 body) w.
Proof.
  revert w. induction l1 as [|x l1 IH]; intros w; [done|].
  change (for_ ((x :: l1) ++ l2) body) with (body x;; for_ (l1 ++ l2) body).
  change (for_ (x :: l1) body) with (body x;; for_ l1 body).
  unfold mbind, M_bind in *. destruct (body x w) as [[[]|e] w1]; [apply IH|done].
Qed.

(** [log_results] of the storage script formats every value as a number.
    Called by hand with an outcome without a duration, it raises a
    [TypeError] and the block in the log stops after the lines of the
    outcomes before it. *)
Lemma storage_log_results_rejects_skipped `{PyRuntime}
    (system_info : dict pyobj) (before : list (string * (float * string)))
    (test message : string) (rest : dict (pyobj * string)) (w : World) :
  Storage.log_results system_info
    (measured before ++ (test, (PyNone, message)) :: rest) w
  = (Raise none_format_error,
     appended Storage.LOG_FILE
       (unlines ([banner; "Storage Benchmark Run "; banner]
                 ++ (info_line <$> system_info)
                 ++ [""; "Storage Benchmark Results:"]
                 ++ (outcome_line <$> before))) w).
Proof.
  unfold Storage.log_results, with_open. rewrite py_open_append.
  rewrite <- set_open_appended.
  do 3 step_write.
  erewrite bind_ok by (apply for_appends, write_info_line).
  step_write.
  erewrite bind_raise; cycle 1.
  { unfold dict_items. rewrite for_app.
    erewrite bind_ok
      by (unfold measured; rewrite for_fmap; apply for_appends, write_outcome_line).
    match goal with |- context [for_ (?x :: ?l) ?body] =>
      change (for_ (x :: l) body) with (body x;; for_ l body) end.
    erewrite bind_raise; [reflexivity|].
    erewrite bind_raise; reflexivity. }
  rewrite file_close_appended, file_close_opened.
  do 2 f_equal. unfold banner. rewrite !unlines_app. simpl.
  by rewrite !string_app_assoc, ?string_app_nil_r.
Qed.

(** Such a call: the outcome of the write unit followed by an outcome
    without a duration. *)
Example storage_log_results_skipped_read :
  (@Storage.log_results sample_runtime [("Cores", PyInt 4)]
     [ ("Sequential Write Speed", (PyFloat (float_of_Z 3), "size=500MB"));
       ("Sequential Read Speed", (PyNone, "File not found")) ]
     low_memory_world).1
  = Raise (TypeError "unsupported format string passed to NoneType.__format__").
Proof. vm_compute. reflexivity. Qed.

(** The unit that reads the test file returns an outcome without a duration
    when the file is not there. *)
Lemma storage_sequential_read_missing (w : World) :
  w_files w !! Storage.TEST_FILE = None →
  Storage.benchmark_sequential_read w = (Ok (PyNone, "File not found"), w).
Proof.
  intros Hfile. unfold Storage.benchmark_sequential_read.
  erewrite bind_ok by reflexivity.
  rewrite bool_decide_false; [done|]. rewrite Hfile. by intros [? ?].
Qed.

Lemma two_digits_shape (k : Z) : 0 ≤ k < 100 → two_decimal_digits (two_digits k) = true.
Proof.
  intros Hk.
  assert (forallb (fun k => two_decimal_digits (two_digits k)) (seqZ 0 100) = true)
    as Hall by (vm_compute; reflexivity).
  rewrite forallb_forall in Hall. apply Hall.
  apply list_elem_of_In, elem_of_seqZ. lia.
Qed.

(** The fixed-point format of a finite float ends in a point and exactly
    two decimal digits. *)
Lemma format_2f_two_decimals (x : float) :
  is_finite x = true →
  ∃ int_part decimals, format_2f x = int_part +:+ "." +:+ decimals
                       ∧ two_decimal_digits decimals = true.
Proof.
  assert (∀ neg h, ∃ int_part decimals,
            format_fixed2 neg h = int_part +:+ "." +:+ decimals
            ∧ two_decimal_digits decimals = true) as Hfixed.
  { intros neg h. exists ((if neg then "-" else "") +:+ pretty (h `div` 100)).
    exists (two_digits (h `mod` 100)). unfold format_fixed2.
    split; [by rewrite string_app_assoc|].
    apply two_digits_shape, Z.mod_pos_bound. lia. }
  destruct x; simpl; try done; intros _; apply Hfixed.
Qed.

(** The two lines of [log_results] of the network script. *)
Lemma network_result_line_skipped `{PyRuntime} (test message : string) :
  Network.result_line test PyNone message = Ok (test +:+ " (" +:+ message +:+ "): None").
Proof. reflexivity. Qed.

Lemma network_result_line_success `{PyRuntime} (test params : string) (x : float) :
  Network.result_line test (PyFloat x) params
  = Ok (test +:+ " (" +:+ params +:+ "): " +:+ format_2f x +:+ " sec").
Proof. reflexivity. Qed.

(** ** Appending to the log (claims C6 and C9) *)

Lemma appended_lookup (f s : string) (w : World) :
  w_files (appended f s w) !! f = Some (default "" (w_files w !! f) +:+ s).
Proof. unfold appended. simpl. apply lookup_insert_eq. Qed.

Lemma appended_lookup_ne (f s path : string) (w : World) :
  path ≠ f → w_files (appended f s w) !! path = w_files w !! path.
Proof. intros Hne. unfold appended. simpl. by apply lookup_insert_ne. Qed.

(** C6. Whatever [log_results] is given and whether it returns or raises,
    the log afterwards is the log before followed by what the call wrote,
    every other file is as it was, and the file object is closed again.
    Two calls in a row leave the block of the first followed at once by
    the block of the second. *)
Theorem cpu_log_results_appends `{PyRuntime} :
  (∀ system_info results w,
     let '(_, w') := Cpu.log_results system_info results w in
     w_open w' = w_open w
     ∧ (∃ block, w_files w' !! Cpu.LOG_FILE
                 = Some (default "" (w_files w !! Cpu.LOG_FILE) +:+ block))
     ∧ ∀ path, path ≠ Cpu.LOG_FILE → w_files w' !! path = w_files w !! path)
  ∧ (∀ info_a outcomes_a info_b outcomes_b w,
       let '(_, w_a) := Cpu.log_results info_a (measured outcomes_a) w in
       let '(_, w_b) := Cpu.log_results info_b (measured outcomes_b) w_a in
       w_files w_b !! Cpu.LOG_FILE
       = Some (default "" (w_files w !! Cpu.LOG_FILE)
               +:+ unlines (report_lines "CPU Benchmark Run " "Benchmark Results:"
                              info_a outcomes_a)
               +:+ unlines (report_lines "CPU Benchmark Run " "Benchmark Results:"
                              info_b outcomes_b))).
Proof.
  split.
  - intros system_info results w.
    destruct (cpu_log_results_any system_info results w) as (r & block & ->).
    split; [done|]. split; [exists block; apply appended_lookup|].
    intros path Hne. by apply appended_lookup_ne.
  - intros info_a outcomes_a info_b outcomes_b w.
    rewrite !cpu_log_results_measured, appended_appended. apply appended_lookup.
Qed.

Lemma cpu_log_results_appends_witness :
  "notes.txt" ≠ Cpu.LOG_FILE
  ∧ w_files (@Cpu.log_results sample_runtime [("Cores", PyInt 4)]
               [("GZIP Compression", (PyNone, "size=5000000 bytes"))]
               low_memory_world).2 !! "notes.txt"
    = w_files low_memory_world !! "notes.txt".
Proof.
  split; [discriminate|].
  pose proof (proj1 (@cpu_log_results_appends sample_runtime) [("Cores", PyInt 4)]
                [("GZIP Compression", (PyNone, "size=5000000 bytes"))]
                low_memory_world) as Hframe.
  destruct (@Cpu.log_results sample_runtime _ _ _) as [r w'].
  destruct Hframe as (_ & _ & Hother). apply Hother. discriminate.
Defined.

(** Read back line by line, a text of single lines is those lines. *)
Lemma lines_from_line (current l rest : string) :
  single_line l = true →
  lines_from current (l +:+ NL +:+ rest) = (current +:+ l) :: lines_from "" rest.
Proof.
  revert current. induction l as [|c l IH]; intros current Hl.
  - by rewrite string_app_nil_r.
  - simpl in Hl. apply andb_prop in Hl as [Hc Hl].
    change (String c l +:+ NL +:+ rest) with (String c (l +:+ NL +:+ rest)).
    simpl. apply negb_true_iff in Hc. rewrite Hc, IH by done.
    by rewrite string_app_assoc.
Qed.

Lemma lines_of_unlines (ls : list string) :
  Forall (fun l => single_line l = true) ls → lines_of (unlines ls) = ls.
Proof.
  unfold lines_of. induction 1 as [|l ls Hl _ IH]; [done|].
  simpl. by rewrite lines_from_line, IH.
Qed.

(** When no entry of the profile and no outcome carries a line feed, the
    block shows in the log as exactly the lines of the report, one line
    for each entry and each outcome. *)
Lemma log_block_lines `{PyRuntime} (title label : string)
    (system_info : dict pyobj) (outcomes : list (string * (float * string))) :
  single_line title = true → single_line label = true →
  Forall (fun l => single_line l = true) (info_line <$> system_info) →
  Forall (fun l => single_line l = true) (outcome_line <$> outcomes) →
  lines_of (unlines (report_lines title label system_info outcomes))
  = report_lines title label system_info outcomes.
Proof.
  intros Htitle Hlabel Hinfo Hout. apply lines_of_unlines. unfold report_lines.
  repeat first [apply Forall_app; split | apply Forall_cons; split | apply Forall_nil_2];
    done.
Qed.

(** A value that carries a line feed, as [sys.version] of some builds
    does, takes two lines of the log. *)
Example log_block_two_line_value :
  lines_of (unlines [@info_line sample_runtime
                       ("Python Version", PyStr ("3.9.2 (default) " +:+ NL +:+ "[GCC 10.2.1]"))])
  = ["Python Version: 3.9.2 (default) "; "[GCC 10.2.1]"].
Proof. vm_compute. reflexivity. Qed.

Example log_block_sample :
  unlines (@report_lines sample_runtime "CPU Benchmark Run " "Benchmark Results:"
             [("Cores", PyInt 4)] [("SHA256 Hashing", (float_of_Z 2, "iterations=100000"))])
  = str_mul "=" 50 +:+ NL +:+ "CPU Benchmark Run " +:+ NL +:+ str_mul "=" 50 +:+ NL
    +:+ "Cores: 4" +:+ NL +:+ NL +:+ "Benchmark Results:" +:+ NL
    +:+ "SHA256 Hashing (iterations=100000): 2.00 sec" +:+ NL +:+ NL +:+ NL.
Proof. vm_compute. reflexivity. Qed.

(** C9, as amended. For the outcomes of units that returned, and as long
    as no line of the host profile and no outcome line carries a line
    feed of its own, the block that [log_results] of the CPU script and
    of the memory script appends reads, line by line: the banner of fifty
    [=], the title, the banner, one [key: value] line for each entry of
    the host profile, an empty line, the heading of the results, one
    [name (params): duration sec] line for each outcome, and two empty
    lines. The block goes to the end of what the log held, which is the
    empty text when the log was not there. *)
Theorem log_block_line_structure `{PyRuntime} (system_info : dict pyobj)
    (outcomes : list (string * (float * string))) (w : World) :
  Forall (fun l => single_line l = true) (info_line <$> system_info) →
  Forall (fun l => single_line l = true) (outcome_line <$> outcomes) →
  (∃ block,
     Cpu.log_results system_info (measured outcomes) w
     = (Ok tt,
        set_files (<[Cpu.LOG_FILE := default "" (w_files w !! Cpu.LOG_FILE) +:+ block]>
                     (w_files w)) w)
     ∧ lines_of block
       = [str_mul "=" 50; "CPU Benchmark Run "; str_mul "=" 50]
         ++ (info_line <$> system_info) ++ [""; "Benchmark Results:"]
         ++ (outcome_line <$> outcomes) ++ [""; ""])
  ∧ (∃ block,
       Memory.log_results system_info (measured outcomes) w
       = (Ok tt,
          set_files
            (<[Memory.LOG_FILE := default "" (w_files w !! Memory.LOG_FILE) +:+ block]>
               (w_files w)) w)
       ∧ lines_of block
         = [str_mul "=" 50; "Memory Benchmark Run "; str_mul "=" 50]
           ++ (info_line <$> system_info) ++ [""; "Memory Benchmark Results:"]
           ++ (outcome_line <$> outcomes) ++ [""; ""]).
Proof.
  intros Hinfo Hout. split.
  - eexists. split; [apply cpu_log_results_measured|].
    by apply (log_block_lines "CPU Benchmark Run " "Benchmark Results:").
  - eexists. split; [apply memory_log_results_measured|].
    by apply (log_block_lines "Memory Benchmark Run " "Memory Benchmark Results:").
Qed.

Lemma log_block_line_structure_witness :
  ∃ block,
    @Cpu.log_results sample_runtime [("Cores", PyInt 4)]
      (measured [("SHA256 Hashing", (float_of_Z 2, "iterations=100000"))])
      low_memory_world
    = (Ok tt,
       set_files
         (<[Cpu.LOG_FILE := default "" (w_files low_memory_world !! Cpu.LOG_FILE)
                            +:+ block]> (w_files low_memory_world)) low_memory_world)
    ∧ lines_of block
      = [str_mul "=" 50; "CPU Benchmark Run "; str_mul "=" 50]
        ++ (@info_line sample_runtime <$> [("Cores", PyInt 4)])
        ++ [""; "Benchmark Results:"]
        ++ (outcome_line <$> [("SHA256 Hashing", (float_of_Z 2, "iterations=100000"))])
        ++ [""; ""].
Proof.
  apply (@log_block_line_structure sample_runtime [("Cores", PyInt 4)]
           [("SHA256 Hashing", (float_of_Z 2, "iterations=100000"))] low_memory_world).
  - apply Forall_cons. split; [by vm_compute|constructor].
  - apply Forall_cons. split; [by vm_compute|constructor].
Defined.

(** C9, as stated, fails on a host whose [sys.version] has two lines, as
    that of an interpreter built with GCC has: the profile has five
    entries, and the block of a report with one outcome has fourteen
    lines where the structure gives thirteen; the ninth of them is the
    second line of the version, which is no [key: value] line. *)
Lemma log_block_with_two_line_version :
  ∃ system_info block,
    (Cpu.get_system_info two_line_version_world).1 = Ok system_info
    ∧ length system_info = 5%nat
    ∧ w_files (@Cpu.log_results sample_runtime system_info
                 (measured [("SHA256 Hashing", (float_of_Z 2, "iterations=100000"))])
                 two_line_version_world).2 !! Cpu.LOG_FILE = Some block
    ∧ length (lines_of block) = 14%nat
    ∧ lines_of block !! 8%nat = Some "[GCC 10.2.1 20210110]".
Proof.
  eexists _, _. split; [vm_compute; reflexivity|].
  split; [reflexivity|]. split; [vm_compute; reflexivity|].
  split; vm_compute; reflexivity.
Qed.

(** ** The host profile (claim C7) *)

Lemma fact_run {A} (source : Host → result A) (conv : A → pyobj) (w : World) :
  fact source conv w
  = (match source (w_host w) with Ok x => Ok (conv x) | Raise e => Raise e end, w).
Proof. unfold fact, host_call, mbind, M_bind. by destruct (source (w_host w)). Qed.

(** C7, as amended. [get_system_info] of the storage script asks its
    fact sources in the order of the source text. It returns the profile,
    with all its eight keys in that order, exactly when every source
    returns and there is a disk partition. Otherwise it raises, and the
    exception is the one of the first source that raised, or
    [IndexError] when the first thing to go wrong is an empty list of
    partitions: there is no profile then, no key is left out and no value
    stands for a missing fact. The world is left as it was. *)
Theorem storage_profile_all_or_nothing `{PyRuntime} (w : World) :
  Storage.get_system_info w
  = (match platform_platform (w_host w) with
     | Raise e => Raise e
     | Ok cpu =>
     match platform_machine (w_host w) with
     | Raise e => Raise e
     | Ok machine =>
     match psutil_cpu_count (w_host w) true with
     | Raise e => Raise e
     | Ok cores =>
     match psutil_cpu_count (w_host w) false with
     | Raise e => Raise e
     | Ok physical =>
     match psutil_virtual_memory (w_host w) with
     | Raise e => Raise e
     | Ok mem =>
     match psutil_disk_partitions (w_host w) with
     | Raise e => Raise e
     | Ok [] => Raise IndexError
     | Ok (first :: _) =>
     match psutil_disk_usage (w_host w) "/" with
     | Raise e => Raise e
     | Ok disk =>
         Ok [ ("CPU", PyStr cpu); ("Architecture", PyStr machine);
              ("Cores", of_optional_int cores);
              ("Physical Cores", of_optional_int physical);
              ("Total Memory (GB)", gigabytes (vm_total mem));
              ("Disk Type", PyStr (dp_fstype first));
              ("Total Disk Space (GB)", gigabytes disk);
              ("Python Version", PyStr (sys_version (w_host w))) ]
     end end end end end end end, w).
Proof.
  unfold Storage.get_system_info.
  destruct (platform_platform (w_host w)) as [cpu|e] eqn:H1.
  2:{ erewrite dict_display_cons_raise; [done|]; by rewrite fact_run, H1. }
  erewrite dict_display_cons_ok by (by rewrite fact_run, H1).
  destruct (platform_machine (w_host w)) as [machine|e] eqn:H2.
  2:{ erewrite dict_display_cons_raise; [done|]; by rewrite fact_run, H2. }
  erewrite dict_display_cons_ok by (by rewrite fact_run, H2).
  destruct (psutil_cpu_count (w_host w) true) as [cores|e] eqn:H3.
  2:{ erewrite dict_display_cons_raise; [done|]; by rewrite fact_run, H3. }
  erewrite dict_display_cons_ok by (by rewrite fact_run, H3).
  destruct (psutil_cpu_count (w_host w) false) as [physical|e] eqn:H4.
  2:{ erewrite dict_display_cons_raise; [done|]; by rewrite fact_run, H4. }
  erewrite dict_display_cons_ok by (by rewrite fact_run, H4).
  destruct (psutil_virtual_memory (w_host w)) as [mem|e] eqn:H5.
  2:{ erewrite dict_display_cons_raise; [done|]; by rewrite fact_run, H5. }
  erewrite dict_display_cons_ok by (by rewrite fact_run, H5).
  destruct (psutil_disk_partitions (w_host w)) as [[|first partitions]|e] eqn:H6.
  1,3: (erewrite dict_display_cons_raise; [done|]);
       unfold mbind, M_bind, host_call; by rewrite H6.
  erewrite dict_display_cons_ok by (unfold mbind, M_bind, host_call; by rewrite H6).
  destruct (psutil_disk_usage (w_host w) "/") as [disk|e] eqn:H7.
  2:{ erewrite dict_display_cons_raise; [done|]; by rewrite fact_run, H7. }
  erewrite dict_display_cons_ok by (by rewrite fact_run, H7).
  erewrite dict_display_cons_ok by reflexivity.
  reflexivity.
Qed.

(** C7, as stated, fails where [psutil.disk_partitions()] is empty: the
    subscript raises an [IndexError] and no profile is returned. *)
Lemma storage_profile_aborts_without_partition :
  (@Storage.get_system_info sample_runtime no_partition_world).1 = Raise IndexError.
Proof. vm_compute. reflexivity. Qed.

(** A display with an entry that raises in every world raises in every
    world. *)
Lemma dict_display_always_raises {V} (entries : list (string * M V)) (d : dict V) w :
  Exists (fun entry => ∀ w, ∃ e w', entry.2 w = (Raise e, w')) entries →
  ∃ e w', dict_display entries d w = (Raise e, w').
Proof.
  intros Hex. revert d w. induction entries as [|[k m] entries IH]; intros d w.
  - by apply Exists_nil in Hex.
  - simpl. unfold mbind, M_bind. destruct (m w) as [[v|e] w1] eqn:Hm.
    + apply Exists_cons in Hex as [Hhead|Htail]; [|by apply IH].
      destruct (Hhead w) as (e & w' & He). simpl in He. congruence.
    + eauto.
Qed.

(** The profile of gpu_benchmark.py looks up [pyopencl], a name the module
    does not bind: every call raises, whatever the host is like. *)
Lemma gpu_profile_never_returns `{PyRuntime} (cl_get_platforms : M (list string))
    (w : World) :
  ∃ e w', Gpu.get_system_info cl_get_platforms w = (Raise e, w').
Proof.
  apply dict_display_always_raises.
  do 6 apply Exists_cons_tl. apply Exists_cons_hd.
  intros w0. exists (NameError "pyopencl"), w0. reflexivity.
Qed.

(** ** No network interface (claim C8) *)

(** C8, as amended. Started without [--interface] on a host that has
    neither [eth0] nor [wlan0], the network script prints that no valid
    interface was found and ends: no unit is called, nothing else is
    printed, no clock is read, no file is touched, and the exit status is
    0. *)
Theorem network_main_without_interface `{PyRuntime}
    (download upload latency packet_loss bandwidth : string → M (pyobj * string))
    (gethostbyname : string → M string) (ifaces : list string) (w : World) :
  psutil_net_if_addrs (w_host w) = Ok ifaces →
  "eth0" ∉ ifaces → "wlan0" ∉ ifaces →
  Network.main download upload latency packet_loss bandwidth gethostbyname None w
  = (Ok tt,
     set_stdout (w_stdout w
                 +:+ "No valid network interface found. Please specify manually."
                 +:+ NL) w)
  ∧ exit_status
      (Network.main download upload latency packet_loss bandwidth gethostbyname None w).1
    = 0.
Proof.
  intros Hif Heth Hwlan.
  assert (Network.main download upload latency packet_loss bandwidth gethostbyname None w
          = (Ok tt,
             set_stdout (w_stdout w
                         +:+ "No valid network interface found. Please specify manually."
                         +:+ NL) w)) as Hmain.
  { unfold Network.main, Network.get_default_interface.
    erewrite bind_ok; cycle 1.
    { erewrite bind_ok by (unfold host_call; rewrite Hif; reflexivity).
      rewrite !bool_decide_false by done. reflexivity. }
    reflexivity. }
  split; [exact Hmain|]. by rewrite Hmain.
Qed.

Lemma network_main_without_interface_witness :
  psutil_net_if_addrs (w_host loopback_only_world) = Ok ["lo"]
  ∧ exit_status
      (@Network.main sample_runtime unit_not_to_call unit_not_to_call unit_not_to_call
         unit_not_to_call unit_not_to_call (fun _ => lift (Raise (Exception "lookup")))
         None loopback_only_world).1
    = 0.
Proof.
  split; [reflexivity|].
  apply (@network_main_without_interface sample_runtime unit_not_to_call unit_not_to_call
           unit_not_to_call unit_not_to_call unit_not_to_call
           (fun _ => lift (Raise (Exception "lookup"))) ["lo"] loopback_only_world).
  - reflexivity.
  - apply (bool_decide_unpack _). vm_compute. exact I.
  - apply (bool_decide_unpack _). vm_compute. exact I.
Defined.

(** C8, as stated, fails: with the loopback interface only, the script
    ends with exit status 0. *)
Lemma network_main_exits_zero_without_interface :
  exit_status
    (@Network.main sample_runtime unit_not_to_call unit_not_to_call unit_not_to_call
       unit_not_to_call unit_not_to_call (fun _ => lift (Raise (Exception "lookup")))
       None loopback_only_world).1
  = 0.
Proof. vm_compute. reflexivity. Qed.

(** ** The prime workloads, each on its own *)

Lemma seq_strongly_sorted (a k : nat) : StronglySorted lt (seq a k).
Proof.
  revert a. induction k as [|k IH]; intros a; simpl; constructor; [apply IH|].
  apply List.Forall_forall. intros x Hx%in_seq. lia.
Qed.

Lemma py_range_strongly_sorted (a b : Z) : StronglySorted Z.lt (py_range a b).
Proof.
  unfold py_range, seqZ.
  generalize (seq_strongly_sorted 0 (Z.to_nat (b - a))).
  induction 1 as [|x l Hl IH Hx]; [constructor|].
  rewrite fmap_cons. constructor; [done|].
  apply List.Forall_forall. intros y (z & -> & Hz)%list_elem_of_In%list_elem_of_fmap.
  apply list_elem_of_In in Hz. eapply List.Forall_forall in Hx; [|done]. lia.
Qed.

Lemma filter_strongly_sorted {A} (R : relation A) (f : A → bool) (l : list A) :
  StronglySorted R l → StronglySorted R (List.filter f l).
Proof.
  induction 1 as [|x l Hl IH Hx]; simpl; [constructor|].
  destruct (f x); [|done]. constructor; [done|].
  apply List.Forall_forall. intros y [Hy _]%filter_In.
  by eapply List.Forall_forall in Hx.
Qed.

Lemma sieve_inv_start (n : Z) : sieve_inv n 2 (replicate (Z.to_nat (n + 1)) true).
Proof.
  destruct (Z_le_gt_dec 0 n); [by apply sieve_inv_init|].
  split; [by rewrite length_replicate|]. intros i Hi. lia.
Qed.

(** X1. The trial-division loop of [benchmark_prime_numbers] builds the
    list of the primes below [n], each once and in increasing order, for
    every [n] (the empty list for [n <= 2]), as long as the interpreter's
    [int(num ** 0.5)] is at least the integer square root of [num] and
    below [num] for the numbers that the loop tests, those from 2 to
    [n - 1]. *)
Theorem brute_force_lists_primes `{PyRuntime} (n : Z) :
  (∀ num, 2 ≤ num < n → Z.sqrt num ≤ int_pow_half num < num) →
  (∀ i, i ∈ Cpu.prime_numbers_body n ↔ 2 ≤ i < n ∧ Z.prime i)
  ∧ StronglySorted Z.lt (Cpu.prime_numbers_body n).
Proof.
  intros Hsqrt. unfold Cpu.prime_numbers_body.
  rewrite fold_left_append_filter. simpl. split.
  - intros i.
    rewrite list_elem_of_In, filter_In, <- list_elem_of_In, elem_of_py_range.
    split.
    + intros [Hi Hp]. split; [done|].
      apply no_small_divisor_prime; [lia|].
      by apply is_prime_spec; [lia|apply Hsqrt|].
    + intros [Hi Hp]. split; [done|].
      apply is_prime_spec; [lia|by apply Hsqrt|].
      by apply no_small_divisor_prime; [lia|].
  - apply filter_strongly_sorted, py_range_strongly_sorted.
Qed.

Lemma brute_force_lists_primes_witness :
  (∀ num, 2 ≤ num < 20 → Z.sqrt num ≤ @int_pow_half sample_runtime num < num)
  ∧ (∀ i, i ∈ @Cpu.prime_numbers_body sample_runtime 20 ↔ 2 ≤ i < 20 ∧ Z.prime i)
  ∧ StronglySorted Z.lt (@Cpu.prime_numbers_body sample_runtime 20).
Proof.
  assert (∀ num, 2 ≤ num < 20 → Z.sqrt num ≤ @int_pow_half sample_runtime num < num)
    as Hsqrt.
  { intros num Hnum. simpl. split; [lia|]. apply Z.sqrt_lt_lin. lia. }
  split; [exact Hsqrt|].
  apply (@brute_force_lists_primes sample_runtime 20 Hsqrt).
Defined.

(** X2. The sieve of [benchmark_sieve_of_eratosthenes] never raises, for
    any [n], negative ones included: every index it reads or clears is
    inside the flag list. What it returns is the list of the primes below
    [n], each once and in increasing order. The flag of [n] itself is
    kept up to date but not reported. *)
Theorem sieve_lists_primes (n : Z) :
  ∃ l, Cpu.sieve_of_eratosthenes_body n = Ok l
       ∧ (∀ i, i ∈ l ↔ 2 ≤ i < n ∧ Z.prime i)
       ∧ StronglySorted Z.lt l.
Proof.
  unfold Cpu.sieve_of_eratosthenes_body.
  destruct (sieve_while_inv n 2 (replicate (Z.to_nat (n + 1)) true))
    as (primes' & q & -> & Hq & Hnq & Hinv); [done|apply sieve_inv_start|].
  simpl. rewrite select_marked_filter.
  2:{ intros p Hp%elem_of_py_range. destruct Hinv as [-> _]. lia. }
  eexists. split; [done|]. split.
  - intros i.
    rewrite list_elem_of_In, filter_In, <- list_elem_of_In, elem_of_py_range.
    split.
    + intros [Hi Hp]. split; [done|].
      apply no_small_divisor_prime; [lia|].
      by apply (sieve_flag_spec n q i primes'); [| | |lia|].
    + intros [Hi Hp]. split; [done|].
      apply (sieve_flag_spec n q i primes'); [done|done|done|lia|].
      by apply no_small_divisor_prime; [lia|].
  - apply filter_strongly_sorted, py_range_strongly_sorted.
Qed.

(** ** The worker threads *)

Lemma find_primes_filter `{PyRuntime} (start end_ : Z) (primes_list : list Z) :
  Cpu.find_primes start end_ primes_list
  = primes_list ++ List.filter Cpu.is_prime (py_range start end_).
Proof. unfold Cpu.find_primes. apply fold_left_append_filter. Qed.

(** X3. A worker of [benchmark_multi_threaded_prime] whose span starts at
    0 (the first worker does) appends 0 and 1 to the shared list before
    the primes: its test has no divisor to try for them, and the span,
    unlike the range of the single-threaded loop, does not start at 2.
    After them it appends what the single-threaded loop finds below the
    end of the span. *)
Theorem worker_from_zero_counts_zero_and_one `{PyRuntime} (end_ : Z)
    (primes_list : list Z) :
  int_pow_half 0 ≤ 1 → int_pow_half 1 ≤ 1 → 2 ≤ end_ →
  Cpu.find_primes 0 end_ primes_list
  = primes_list ++ 0 :: 1 :: Cpu.prime_numbers_body end_.
Proof.
  intros H0 H1 Hend. rewrite find_primes_filter. f_equal.
  unfold Cpu.prime_numbers_body. rewrite fold_left_append_filter.
  unfold py_range.
  rewrite (seqZ_cons 0) by lia. rewrite (seqZ_cons (Z.succ 0)) by lia.
  replace (Z.succ (Z.succ 0)) with 2 by lia.
  replace (Z.pred (Z.pred (end_ - 0))) with (end_ - 2) by lia.
  assert (∀ num, int_pow_half num ≤ 1 → Cpu.is_prime num = true) as Hvac.
  { intros num Hnum. unfold Cpu.is_prime, py_range. by rewrite seqZ_nil by lia. }
  simpl. rewrite (Hvac 0 H0). change (Z.succ 0) with 1. by rewrite (Hvac 1 H1).
Qed.

Lemma worker_from_zero_counts_zero_and_one_witness :
  @int_pow_half sample_runtime 0 ≤ 1 ∧ @int_pow_half sample_runtime 1 ≤ 1
  ∧ @Cpu.find_primes sample_runtime 0 10 []
    = 0 :: 1 :: @Cpu.prime_numbers_body sample_runtime 10.
Proof.
  split; [by vm_compute|]. split; [by vm_compute|].
  apply (@worker_from_zero_counts_zero_and_one sample_runtime 10 []).
  - by vm_compute.
  - by vm_compute.
  - lia.
Defined.

Lemma spans_concat (step : Z) (k : nat) :
  0 ≤ step →
  concat ((fun span : Z * Z => py_range span.1 span.2)
            <$> ((fun i => (i * step, (i + 1) * step)) <$> seqZ 0 (Z.of_nat k)))
  = py_range 0 (Z.of_nat k * step).
Proof.
  intros Hstep. induction k as [|k IH]; [done|].
  rewrite seqZ_S, !fmap_app, concat_app, IH. simpl. rewrite app_nil_r.
  unfold py_range.
  replace (Z.of_nat (S k) * step - 0) with (Z.of_nat k * step + step) by lia.
  rewrite seqZ_app by nia.
  replace (Z.of_nat k * step - 0) with (Z.of_nat k * step) by lia.
  do 2 f_equal; lia.
Qed.

Lemma spans_concat_empty (step : Z) (l : list Z) :
  step ≤ 0 →
  concat ((fun span : Z * Z => py_range span.1 span.2)
            <$> ((fun i => (i * step, (i + 1) * step)) <$> l)) = [].
Proof.
  intros Hstep. induction l as [|i l IH]; [done|].
  rewrite !fmap_cons, concat_cons, IH, app_nil_r.
  unfold py_range. apply seqZ_nil. simpl. lia.
Qed.

(** X4. For a positive number of threads the division never raises, one
    worker is started per thread, and the spans handed to the workers,
    taken in order, are the numbers from 0 up to, but not including,
    [threads * (n // threads)], each in one span only. So the numbers from
    there to [n - 1] are tested by no worker when [threads] does not
    divide [n]. *)
Theorem worker_spans_cover (n threads : Z) :
  0 < threads →
  ∃ spans, Cpu.worker_spans n threads = Ok spans
    ∧ length spans = Z.to_nat threads
    ∧ concat ((fun span : Z * Z => py_range span.1 span.2) <$> spans)
      = py_range 0 (threads * (n `div` threads)).
Proof.
  intros Hthreads. unfold Cpu.worker_spans, py_floordiv.
  destruct (Z.eqb_spec threads 0) as [|_]; [lia|]. simpl.
  eexists. split; [done|]. split.
  { rewrite length_fmap. unfold py_range. rewrite length_seqZ. lia. }
  set (step := n `div` threads).
  destruct (Z_le_gt_dec 0 step).
  - change (py_range 0 threads) with (seqZ 0 (threads - 0)).
    replace (threads - 0) with (Z.of_nat (Z.to_nat threads)) by lia.
    rewrite (spans_concat step) by done. f_equal. lia.
  - rewrite (spans_concat_empty step (py_range 0 threads)) by lia.
    unfold py_range. symmetry. apply seqZ_nil. nia.
Qed.

Lemma worker_spans_cover_witness :
  0 < 4
  ∧ ∃ spans, Cpu.worker_spans 10 4 = Ok spans
    ∧ length spans = Z.to_nat 4
    ∧ concat ((fun span : Z * Z => py_range span.1 span.2) <$> spans)
      = py_range 0 (4 * (10 `div` 4)).
Proof. split; [lia|]. apply (worker_spans_cover 10 4). lia. Defined.

(** ** The test file of the storage script *)

Lemma with_open_write_binary {A} (path : string) (body : string → M A) (w : World) :
  with_open path ModeWriteBinary body w
  = let '(r, w2) := body path (set_open (path :: w_open w)
                                 (set_files (<[path := ""]> (w_files w)) w)) in
    (r, file_close path w2).
Proof. reflexivity. Qed.

Lemma sequential_write_run (urandom_bytes : Z → string) (size_mb : Z) (w : World) :
  Storage.benchmark_sequential_write urandom_bytes size_mb w
  = if size_mb * 1024 * 1024 <? 0
    then (Raise (ValueError "negative argument not allowed"),
          set_now (S (w_now w)) (set_files (<[Storage.TEST_FILE := ""]> (w_files w)) w))
    else if size_mb * 1024 * 1024 <=? mem_free (w_host w)
    then (Ok (PyFloat (elapsed w), "size=" +:+ str_int size_mb +:+ "MB"),
          set_now (S (S (w_now w)))
            (set_files (<[Storage.TEST_FILE := urandom_bytes (size_mb * 1024 * 1024)]>
                          (w_files w)) w))
    else (Raise MemoryError,
          set_now (S (w_now w)) (set_files (<[Storage.TEST_FILE := ""]> (w_files w)) w)).
Proof.
  unfold Storage.benchmark_sequential_write.
  erewrite bind_ok by reflexivity.
  generalize Storage.TEST_FILE. intros path.
  destruct (Z.ltb_spec (size_mb * 1024 * 1024) 0) as [Hneg|Hpos].
  { erewrite bind_raise; cycle 1.
    { rewrite with_open_write_binary.
      erewrite bind_raise; cycle 1.
      { unfold Storage.os_urandom. erewrite bind_raise; [reflexivity|].
        by apply py_alloc_negative. }
      reflexivity. }
    unfold file_close, set_now, set_files, set_open. simpl.
    by rewrite decide_True by done. }
  destruct (Z.leb_spec (size_mb * 1024 * 1024) (mem_free (w_host w))) as [Hfit|Hfail].
  - erewrite bind_ok; cycle 1.
    { rewrite with_open_write_binary.
      erewrite bind_ok; cycle 1.
      { unfold Storage.os_urandom. erewrite bind_ok by (by apply py_alloc_fits).
        reflexivity. }
      rewrite file_write_appended. reflexivity. }
    erewrite bind_ok by reflexivity.
    unfold elapsed, appended, file_close, set_now, set_files, set_open, mret, M_ret.
    simpl. rewrite decide_True by done.
    by rewrite lookup_insert_eq, insert_insert_eq.
  - erewrite bind_raise; cycle 1.
    { rewrite with_open_write_binary.
      erewrite bind_raise; cycle 1.
      { unfold Storage.os_urandom. erewrite bind_raise; [reflexivity|].
        by apply py_alloc_fails. }
      reflexivity. }
    unfold file_close, set_now, set_files, set_open. simpl.
    by rewrite decide_True by done.
Qed.

Lemma sequential_read_run (w : World) :
  Storage.benchmark_sequential_read w
  = match w_files w !! Storage.TEST_FILE with
    | Some _ => (Ok (PyFloat (elapsed w), "file=test_benchmark.dat"),
                 set_now (S (S (w_now w))) w)
    | None => (Ok (PyNone, "File not found"), w)
    end.
Proof.
  unfold Storage.benchmark_sequential_read, os_path_exists.
  unfold mbind at 1. unfold M_bind at 1.
  destruct (w_files w !! Storage.TEST_FILE) as [content|] eqn:Hfile.
  - rewrite bool_decide_true by eauto. cbn [negb].
    erewrite bind_ok by reflexivity.
    erewrite bind_ok; cycle 1.
    { unfold with_open, py_open. simpl. rewrite Hfile. reflexivity. }
    erewrite bind_ok by reflexivity.
    unfold elapsed, file_close, set_now, set_open, mret, M_ret. simpl.
    reflexivity.
  - rewrite bool_decide_false by (by intros [? ?]). reflexivity.
Qed.

(** X5. [benchmark_sequential_write] replaces the test file: when the
    random bytes can be allocated, the file holds exactly these bytes
    afterwards, whatever it held before, and the unit returns the
    difference of two clock readings. When they cannot, because the host
    has not that much memory ([MemoryError]) or because the size is
    negative ([ValueError] of [os.urandom]), the unit raises after one
    clock reading and the file is left behind empty, its previous content
    lost, since it was opened (and so emptied) before the bytes were
    asked for. On all paths the file object is closed and nothing else
    is touched. *)
Theorem sequential_write_replaces_test_file (urandom_bytes : Z → string)
    (size_mb : Z) (w : World) :
  Storage.benchmark_sequential_write urandom_bytes size_mb w
  = if size_mb * 1024 * 1024 <? 0
    then (Raise (ValueError "negative argument not allowed"),
          set_now (S (w_now w)) (set_files (<[Storage.TEST_FILE := ""]> (w_files w)) w))
    else if size_mb * 1024 * 1024 <=? mem_free (w_host w)
    then (Ok (PyFloat (elapsed w), "size=" +:+ str_int size_mb +:+ "MB"),
          set_now (S (S (w_now w)))
            (set_files (<[Storage.TEST_FILE := urandom_bytes (size_mb * 1024 * 1024)]>
                          (w_files w)) w))
    else (Raise MemoryError,
          set_now (S (w_now w)) (set_files (<[Storage.TEST_FILE := ""]> (w_files w)) w)).
Proof. apply sequential_write_run. Qed.

(** X6. [benchmark_sequential_read] never raises and never changes a
    file. Without the test file it returns [(None, "File not found")]
    and does not read the clock; with it, it returns the difference of
    two clock readings and leaves the file object closed. *)
Theorem sequential_read_cases (w : World) :
  Storage.benchmark_sequential_read w
  = match w_files w !! Storage.TEST_FILE with
    | Some _ => (Ok (PyFloat (elapsed w), "file=test_benchmark.dat"),
                 set_now (S (S (w_now w))) w)
    | None => (Ok (PyNone, "File not found"), w)
    end.
Proof. apply sequential_read_run. Qed.

(** X7. The two units compose: in the world that a returning
    [benchmark_sequential_write] leaves, [benchmark_sequential_read]
    finds the file and returns a measurement, never [None]. So in a run
    of the suite, where the read follows the write, the "File not found"
    outcome does not occur. *)
Theorem sequential_read_after_write (urandom_bytes : Z → string) (size_mb : Z)
    (v : pyobj * string) (w w1 : World) :
  Storage.benchmark_sequential_write urandom_bytes size_mb w = (Ok v, w1) →
  w_files w1 !! Storage.TEST_FILE = Some (urandom_bytes (size_mb * 1024 * 1024))
  ∧ Storage.benchmark_sequential_read w1
    = (Ok (PyFloat (elapsed w1), "file=test_benchmark.dat"),
       set_now (S (S (w_now w1))) w1).
Proof.
  rewrite sequential_write_run.
  destruct (_ <? _); [done|]. destruct (_ <=? _); [|done]. intros [= <- <-].
  assert (w_files (set_now (S (S (w_now w)))
                     (set_files (<[Storage.TEST_FILE := urandom_bytes (size_mb * 1024 * 1024)]>
                                   (w_files w)) w)) !! Storage.TEST_FILE
          = Some (urandom_bytes (size_mb * 1024 * 1024))) as Hfile
    by apply lookup_insert_eq.
  split; [exact Hfile|]. rewrite sequential_read_run. by rewrite Hfile.
Qed.

Lemma sequential_read_after_write_witness :
  let w1 := set_now 2 (set_files (<[Storage.TEST_FILE := "0123"]> ∅) small_board_world) in
  Storage.benchmark_sequential_write (fun _ => "0123") 1 small_board_world
  = (Ok (PyFloat (elapsed small_board_world), "size=" +:+ str_int 1 +:+ "MB"), w1)
  ∧ w_files w1 !! Storage.TEST_FILE = Some "0123"
  ∧ Storage.benchmark_sequential_read w1
    = (Ok (PyFloat (elapsed w1), "file=test_benchmark.dat"), set_now (S (S (w_now w1))) w1).
Proof.
  intros w1.
  assert (Storage.benchmark_sequential_write (fun _ => "0123") 1 small_board_world
          = (Ok (PyFloat (elapsed small_board_world), "size=" +:+ str_int 1 +:+ "MB"), w1))
    as Hwrite by (rewrite sequential_write_run; reflexivity).
  split; [exact Hwrite|].
  exact (sequential_read_after_write (fun _ => "0123") 1 _ small_board_world w1 Hwrite).
Defined.

(** X8. The storage suite on a host that cannot allocate the 500 MiB of
    its first unit: the run raises [MemoryError] and ends with exit
    status 1, whatever the other units are (none of them is called),
    nothing is appended to the log, the console shows the heading only,
    and the test file is left behind empty. *)
Theorem storage_run_memory_error `{PyRuntime}
    (random_read_write file_iops file_deletion filesystem_latency : M (pyobj * string))
    (urandom_bytes : Z → string) (system_info : dict pyobj) (w : World) :
  Storage.get_system_info w = (Ok system_info, w) →
  mem_free (w_host w) < 500 * 1024 * 1024 →
  ∃ w', Storage.run_storage_benchmarks random_read_write file_iops file_deletion
          filesystem_latency urandom_bytes w = (Raise MemoryError, w')
        ∧ exit_status
            (Storage.run_storage_benchmarks random_read_write file_iops file_deletion
               filesystem_latency urandom_bytes w).1 = 1
        ∧ w_files w' !! Storage.TEST_FILE = Some ""
        ∧ w_files w' !! Storage.LOG_FILE = w_files w !! Storage.LOG_FILE
        ∧ w_open w' = w_open w
        ∧ w_stdout w' = w_stdout w +:+ ("Running Storage Benchmarks..." +:+ NL) +:+ NL.
Proof.
  intros Hinfo Hfree.
  destruct (storage_run_aborts_on_memory_error random_read_write file_iops file_deletion
              filesystem_latency urandom_bytes system_info w Hinfo Hfree)
    as (w' & Hrun & Hfiles & Hopen & Hout).
  exists w'. split; [done|]. split; [by rewrite Hrun|]. rewrite Hfiles.
  split; [apply lookup_insert_eq|]. split; [by apply lookup_insert_ne|]. done.
Qed.

Lemma storage_run_memory_error_witness :
  let system_info :=
    [ ("CPU", PyStr "Linux-6.1.21-v8+-aarch64-with-glibc2.31");
      ("Architecture", PyStr "aarch64"); ("Cores", PyInt 4); ("Physical Cores", PyInt 4);
      ("Total Memory (GB)", @gigabytes sample_runtime 3976200192);
      ("Disk Type", PyStr "ext4");
      ("Total Disk Space (GB)", @gigabytes sample_runtime 31268536320);
      ("Python Version", PyStr "3.11.2 (main, Mar 13 2023, 12:18:29) [GCC 12.2.0]") ] in
  @Storage.get_system_info sample_runtime low_memory_world = (Ok system_info, low_memory_world)
  ∧ mem_free (w_host low_memory_world) < 500 * 1024 * 1024
  ∧ ∃ w', @Storage.run_storage_benchmarks sample_runtime
            (unit_not_to_call "") (unit_not_to_call "") (unit_not_to_call "")
            (unit_not_to_call "") (fun _ => "0123") low_memory_world
          = (Raise MemoryError, w')
        ∧ exit_status
            (@Storage.run_storage_benchmarks sample_runtime
               (unit_not_to_call "") (unit_not_to_call "") (unit_not_to_call "")
               (unit_not_to_call "") (fun _ => "0123") low_memory_world).1 = 1
        ∧ w_files w' !! Storage.TEST_FILE = Some ""
        ∧ w_files w' !! Storage.LOG_FILE = w_files low_memory_world !! Storage.LOG_FILE
        ∧ w_open w' = w_open low_memory_world
        ∧ w_stdout w'
          = w_stdout low_memory_world +:+ ("Running Storage Benchmarks..." +:+ NL) +:+ NL.
Proof.
  intros system_info.
  assert (@Storage.get_system_info sample_runtime low_memory_world
          = (Ok system_info, low_memory_world)) as Hinfo by reflexivity.
  assert (mem_free (w_host low_memory_world) < 500 * 1024 * 1024) as Hfree
    by (simpl; lia).
  split; [exact Hinfo|]. split; [exact Hfree|].
  exact (@storage_run_memory_error sample_runtime _ _ _ _ _ system_info low_memory_world
           Hinfo Hfree).
Defined.

(** ** Files that are created and removed *)

Lemma iops_step (path : string) (w : World) :
  (with_open path mode_w (fun f => file_write f "test");; os_remove path) w
  = (Ok tt, set_files (delete path (w_files w)) w).
Proof.
  erewrite bind_ok; cycle 1.
  { unfold mode_w. rewrite with_open_write_binary, file_write_appended. reflexivity. }
  unfold os_remove, appended, file_close, set_files, set_open. simpl.
  rewrite decide_True by done. rewrite !lookup_insert_eq. simpl.
  rewrite insert_insert_eq, delete_insert_eq. by destruct w.
Qed.

Lemma iops_loop (l : list Z) (w : World) :
  ∃ fs, for_ l (fun i =>
                  with_open (Storage.iops_test_name i) mode_w
                    (fun f => file_write f "test");;
                  os_remove (Storage.iops_test_name i)) w
        = (Ok tt, set_files fs w)
    ∧ (∀ i, i ∈ l → fs !! Storage.iops_test_name i = None)
    ∧ (∀ path, (∀ i, i ∈ l → path ≠ Storage.iops_test_name i) →
               fs !! path = w_files w !! path).
Proof.
  revert w. induction l as [|i l IH]; intros w.
  - exists (w_files w). split; [by destruct w|]. split; [|done].
    intros i Hi. by apply elem_of_nil in Hi.
  - match goal with |- context [for_ (?x :: ?l) ?body] =>
      change (for_ (x :: l) body) with (body x;; for_ l body) end.
    destruct (IH (set_files (delete (Storage.iops_test_name i) (w_files w)) w))
      as (fs & Hrun & Hgone & Hkept).
    exists fs. split; [|split].
    + erewrite bind_ok by apply iops_step. by rewrite Hrun.
    + intros j Hj.
      destruct (decide (Storage.iops_test_name j
                        ∈ Storage.iops_test_name <$> l)) as [Hin|Hout].
      * apply list_elem_of_fmap in Hin as (j' & -> & Hj'). by apply Hgone.
      * apply elem_of_cons in Hj as [->|Hj].
        2:{ exfalso. apply Hout, list_elem_of_fmap. eauto. }
        rewrite Hkept.
        -- apply lookup_delete_eq.
        -- intros j' Hj' Heq. apply Hout, list_elem_of_fmap. eauto.
    + intros path Hpath. rewrite Hkept.
      * simpl. apply lookup_delete_ne. intros Heq. by apply (Hpath i); [left|].
      * intros j Hj. apply Hpath. by right.
Qed.

(** X9. [benchmark_file_iops] never raises: each file it removes is the
    one it has just written. When it returns, none of its files
    [iops_test_0.tmp] ... [iops_test_{n-1}.tmp] exists, also not one that
    was there, with other content, before the unit ran; every other file
    is as it was, no file object is left open, and the measurement is
    the difference of two clock readings. *)
Theorem file_iops_removes_its_files (num_operations : Z) (w : World) :
  ∃ w', Storage.benchmark_file_iops num_operations w
        = (Ok (PyFloat (elapsed w), "operations=" +:+ str_int num_operations), w')
    ∧ (∀ i, 0 ≤ i < num_operations → w_files w' !! Storage.iops_test_name i = None)
    ∧ (∀ path, (∀ i, 0 ≤ i < num_operations → path ≠ Storage.iops_test_name i) →
               w_files w' !! path = w_files w !! path)
    ∧ w_open w' = w_open w ∧ w_stdout w' = w_stdout w.
Proof.
  unfold Storage.benchmark_file_iops.
  erewrite bind_ok by reflexivity.
  destruct (iops_loop (py_range 0 num_operations) (set_now (S (w_now w)) w))
    as (fs & Hrun & Hgone & Hkept).
  erewrite bind_ok by exact Hrun.
  erewrite bind_ok by reflexivity.
  eexists. split; [reflexivity|]. simpl. split; [|split; [|done]].
  - intros i Hi. by apply Hgone, elem_of_py_range.
  - intros path Hpath. apply Hkept. intros i Hi%elem_of_py_range. by apply Hpath.
Qed.

(** ** The report of the network script *)

Section NetworkReport.
Context `{PyRuntime}.

Lemma network_result_line_recorded (outcome : string * (option float * string)) :
  Network.result_line outcome.1 (optional_measurement outcome.2.1) outcome.2.2
  = Ok (network_outcome_line outcome).
Proof. by destruct outcome as [test [[x|] params]]. Qed.

Lemma write_network_line (f : string) (outcome : string * (option float * string)) s w :
  (let '(test, (result, params)) :=
     (let '(test, (o, params)) := outcome in (test, (optional_measurement o, params))) in
   line ← lift (Network.result_line test result params);
   file_write f (line +:+ NL))
    (appended f s w)
  = (Ok tt, appended f (s +:+ network_outcome_line outcome +:+ NL) w).
Proof.
  pose proof (network_result_line_recorded outcome) as Hline.
  destruct outcome as [test [o params]]. simpl in Hline.
  erewrite bind_ok by (unfold lift; rewrite Hline; reflexivity).
  by rewrite file_write_appended, appended_appended.
Qed.


Lemma network_log_results_recorded system_info outcomes w :
  Network.log_results system_info (recorded outcomes) w
  = (Ok tt, appended Network.LOG_FILE
              (unlines (network_report_lines system_info outcomes)) w).
Proof.
  unfold Network.log_results.
  unfold with_open; rewrite py_open_append.
  unfold dict_items, recorded; rewrite for_fmap.
  rewrite <- set_open_appended.
  do 3 step_write.
  erewrite bind_ok by (apply for_appends, write_info_line).
  step_write.
  erewrite bind_ok by (apply for_appends, write_network_line).
  rewrite file_write_appended, appended_appended.
  rewrite file_close_appended, file_close_opened.
  do 2 f_equal. unfold network_report_lines, banner.
  rewrite !unlines_app. simpl. by rewrite !string_app_assoc, ?string_app_nil_r.
Qed.

(** X10. [log_results] of the network script takes an outcome without a
    measurement as it comes: it never raises on the outcomes that the
    units return, writes [name (message): None] for a unit that gave up
    and [name (details): d.dd sec] for a measurement (seconds or not), and
    appends the whole block, closing empty lines included, to the log. *)
Theorem network_log_results_block system_info outcomes w :
  Network.log_results system_info (recorded outcomes) w
  = (Ok tt,
     appended Network.LOG_FILE
       (unlines ([banner; "Network Benchmark Run "; banner]
                 ++ (info_line <$> system_info)
                 ++ [""; "Network Benchmark Results:"]
                 ++ (network_outcome_line <$> outcomes) ++ [""; ""])) w).
Proof. apply network_log_results_recorded. Qed.

(** ** The name lookup *)

Variable socket_gethostbyname : string → M string.

Lemma dns_resolution_run (w : World) :
  match socket_gethostbyname "www.google.com" (set_now (S (w_now w)) w) with
  | (Ok _, w1) =>
      Network.benchmark_dns_resolution socket_gethostbyname w
      = (Ok (PyFloat (float_sub (w_time w1 (w_now w1)) (w_time w (w_now w))),
             "DNS Resolution Time"),
         set_now (S (w_now w1)) w1)
  | (Raise _, w1) =>
      Network.benchmark_dns_resolution socket_gethostbyname w
      = (Ok (PyNone, "Failed to resolve"), w1)
  end.
Proof.
  unfold Network.benchmark_dns_resolution.
  destruct (socket_gethostbyname "www.google.com" (set_now (S (w_now w)) w))
    as [[address|e] w1] eqn:Hlookup.
  - erewrite bind_ok by reflexivity.
    erewrite bind_ok; cycle 1.
    { unfold Network.try_except. erewrite bind_ok by exact Hlookup. reflexivity. }
    reflexivity.
  - erewrite bind_ok by reflexivity.
    erewrite bind_ok; cycle 1.
    { unfold Network.try_except. erewrite bind_raise by exact Hlookup. reflexivity. }
    reflexivity.
Qed.

(** X11. [benchmark_dns_resolution] never raises. When the lookup
    returns, the unit returns the difference between the clock reading
    after it and the one before it; when the lookup raises, whatever the
    exception, the unit returns [(None, "Failed to resolve")] and the
    clock is not read a second time. *)
Theorem dns_resolution_never_raises (w : World) :
  match socket_gethostbyname "www.google.com" (set_now (S (w_now w)) w) with
  | (Ok _, w1) =>
      Network.benchmark_dns_resolution socket_gethostbyname w
      = (Ok (PyFloat (float_sub (w_time w1 (w_now w1)) (w_time w (w_now w))),
             "DNS Resolution Time"),
         set_now (S (w_now w1)) w1)
  | (Raise _, w1) =>
      Network.benchmark_dns_resolution socket_gethostbyname w
      = (Ok (PyNone, "Failed to resolve"), w1)
  end.
Proof. apply dns_resolution_run. Qed.


(** ** A run of the network suite *)

Variable benchmark_download_speed : string → M (pyobj * string).
Variable benchmark_upload_speed : string → M (pyobj * string).
Variable benchmark_latency : string → M (pyobj * string).
Variable benchmark_packet_loss : string → M (pyobj * string).
Variable benchmark_bandwidth : string → M (pyobj * string).






End NetworkReport.



(** ** The choice of the interface *)

Section NetworkMain.
Context `{PyRuntime}.
Variable download upload latency packet_loss bandwidth : string → M (pyobj * string).
Variable gethostbyname : string → M string.

(** X13. An interface named on the command line is used as it is, also
    when the host has no interface of that name: the suite runs on it
    without any check. The interfaces of the host are listed all the
    same, since the default of the option is computed before the command
    line is read; when listing them raises, the script ends with that
    exception although the interface was given. *)
Theorem network_main_uses_given_interface (name : string) (w : World) :
  Network.main download upload latency packet_loss bandwidth gethostbyname (Some name) w
  = match psutil_net_if_addrs (w_host w) with
    | Ok _ =>
        Network.run_network_benchmarks download upload latency packet_loss bandwidth
          gethostbyname name w
    | Raise e => (Raise e, w)
    end.
Proof.
  unfold Network.main, Network.get_default_interface.
  destruct (psutil_net_if_addrs (w_host w)) as [ifaces|e] eqn:Hif.
  - erewrite (bind_ok _ _
                (if bool_decide ("eth0" ∈ ifaces) then Some "eth0"
                 else if bool_decide ("wlan0" ∈ ifaces) then Some "wlan0"
                 else None) w w); [reflexivity|].
    erewrite bind_ok by (unfold host_call; rewrite Hif; reflexivity).
    destruct (bool_decide ("eth0" ∈ ifaces)); [reflexivity|].
    destruct (bool_decide ("wlan0" ∈ ifaces)); reflexivity.
  - erewrite bind_raise; [reflexivity|].
    erewrite bind_raise; [reflexivity|]. unfold host_call. by rewrite Hif.
Qed.

(** X14. Without an interface on the command line the suite runs on
    [eth0] when the host has it, whether or not it has [wlan0] too and
    wherever the two stand in the list, and on [wlan0] when the host has
    that one only; no other interface is ever chosen. *)
Theorem network_main_prefers_eth0 (ifaces : list string) (w : World) :
  psutil_net_if_addrs (w_host w) = Ok ifaces →
  "eth0" ∈ ifaces ∨ "wlan0" ∈ ifaces →
  Network.main download upload latency packet_loss bandwidth gethostbyname None w
  = Network.run_network_benchmarks download upload latency packet_loss bandwidth
      gethostbyname (if bool_decide ("eth0" ∈ ifaces) then "eth0" else "wlan0") w.
Proof.
  intros Hif Hsome. unfold Network.main, Network.get_default_interface.
  destruct (decide ("eth0" ∈ ifaces)) as [Heth|Heth].
  - erewrite bind_ok; cycle 1.
    { erewrite bind_ok by (unfold host_call; rewrite Hif; reflexivity).
      rewrite bool_decide_true by done. reflexivity. }
    by rewrite bool_decide_true by done.
  - destruct Hsome as [|Hwlan]; [done|].
    erewrite bind_ok; cycle 1.
    { erewrite bind_ok by (unfold host_call; rewrite Hif; reflexivity).
      rewrite bool_decide_false by done. rewrite bool_decide_true by done. reflexivity. }
    by rewrite bool_decide_false by done.
Qed.

End NetworkMain.

Lemma network_main_prefers_eth0_witness :
  psutil_net_if_addrs (w_host two_interfaces_world) = Ok ["lo"; "wlan0"; "eth0"]
  ∧ @Network.main sample_runtime unit_that_gives_up unit_that_gives_up unit_that_gives_up
      unit_that_gives_up unit_that_gives_up
      (fun _ => lift (Raise (OSError "Temporary failure in name resolution")))
      None two_interfaces_world
    = @Network.run_network_benchmarks sample_runtime unit_that_gives_up unit_that_gives_up
        unit_that_gives_up unit_that_gives_up unit_that_gives_up
        (fun _ => lift (Raise (OSError "Temporary failure in name resolution")))
        (if bool_decide ("eth0" ∈ ["lo"; "wlan0"; "eth0"]) then "eth0" else "wlan0")
        two_interfaces_world.
Proof.
  split; [reflexivity|].
  apply (@network_main_prefers_eth0 sample_runtime unit_that_gives_up unit_that_gives_up
           unit_that_gives_up unit_that_gives_up unit_that_gives_up
           (fun _ => lift (Raise (OSError "Temporary failure in name resolution")))
           ["lo"; "wlan0"; "eth0"] two_interfaces_world).
  - reflexivity.
  - left. apply (bool_decide_unpack _). vm_compute. exact I.
Defined.

(** ** The host profile of the GPU script *)

Lemma gpu_get_system_info_run `{PyRuntime} (cl_get_platforms : M (list string))
    (w : World) :
  match platform_processor (w_host w), platform_machine (w_host w),
        psutil_cpu_count (w_host w) true, psutil_cpu_count (w_host w) false,
        psutil_virtual_memory (w_host w) with
  | Ok _, Ok _, Ok _, Ok _, Ok _ =>
      Gpu.get_system_info cl_get_platforms w = (Raise (NameError "pyopencl"), w)
  | _, _, _, _, _ => ∃ e, Gpu.get_system_info cl_get_platforms w = (Raise e, w)
  end.
Proof.
  unfold Gpu.get_system_info.
  destruct (platform_processor (w_host w)) as [cpu|e] eqn:H1.
  2:{ eexists; erewrite dict_display_cons_raise; [done|]; by rewrite fact_run, H1. }
  erewrite dict_display_cons_ok by (by rewrite fact_run, H1).
  destruct (platform_machine (w_host w)) as [machine|e] eqn:H2.
  2:{ eexists; erewrite dict_display_cons_raise; [done|]; by rewrite fact_run, H2. }
  erewrite dict_display_cons_ok by (by rewrite fact_run, H2).
  destruct (psutil_cpu_count (w_host w) true) as [cores|e] eqn:H3.
  2:{ eexists; erewrite dict_display_cons_raise; [done|]; by rewrite fact_run, H3. }
  erewrite dict_display_cons_ok by (by rewrite fact_run, H3).
  destruct (psutil_cpu_count (w_host w) false) as [physical|e] eqn:H4.
  2:{ eexists; erewrite dict_display_cons_raise; [done|]; by rewrite fact_run, H4. }
  erewrite dict_display_cons_ok by (by rewrite fact_run, H4).
  destruct (psutil_virtual_memory (w_host w)) as [mem|e] eqn:H5.
  2:{ eexists; erewrite dict_display_cons_raise; [done|]; by rewrite fact_run, H5. }
  erewrite dict_display_cons_ok by (by rewrite fact_run, H5).
  erewrite dict_display_cons_ok by reflexivity.
  erewrite dict_display_cons_raise; [reflexivity|].
  erewrite bind_raise; [reflexivity|]. reflexivity.
Qed.

(** X15. [get_system_info] of the GPU script never returns a profile.
    When the six fact sources before the OpenCL entry return, it raises
    [NameError] for [pyopencl], a name the module does not bind (the
    import binds [cl]), before the OpenCL platforms are asked for; so
    neither ["Available"] nor ["Not Available"] is ever recorded. When one
    of the six sources raises, the profile ends with that exception. The
    world is left as it was. *)
Theorem gpu_profile_raises_name_error `{PyRuntime} (cl_get_platforms : M (list string))
    (w : World) :
  match platform_processor (w_host w), platform_machine (w_host w),
        psutil_cpu_count (w_host w) true, psutil_cpu_count (w_host w) false,
        psutil_virtual_memory (w_host w) with
  | Ok _, Ok _, Ok _, Ok _, Ok _ =>
      Gpu.get_system_info cl_get_platforms w = (Raise (NameError "pyopencl"), w)
  | _, _, _, _, _ => ∃ e, Gpu.get_system_info cl_get_platforms w = (Raise e, w)
  end.
Proof. apply gpu_get_system_info_run. Qed.

(** X21. The GPU script never runs a benchmark. [run_gpu_benchmarks]
    starts with the host profile, which always raises; so the run ends
    with that exception, [NameError] for [pyopencl] on a host whose fact
    sources return, before the heading is printed, before any unit is
    called and before the log is opened. The exit status is 1 and the
    world is left as it was. *)
Theorem gpu_run_never_benchmarks `{PyRuntime} (cl_get_platforms : M (list string))
    (opencl_vector_addition matrix_multiplication : M (pyobj * string))
    (strftime : string → M string) (w : World) :
  ∃ e, Gpu.run_gpu_benchmarks cl_get_platforms opencl_vector_addition
         matrix_multiplication strftime w = (Raise e, w)
       ∧ exit_status (Gpu.run_gpu_benchmarks cl_get_platforms opencl_vector_addition
                        matrix_multiplication strftime w).1 = 1
       ∧ match platform_processor (w_host w), platform_machine (w_host w),
               psutil_cpu_count (w_host w) true, psutil_cpu_count (w_host w) false,
               psutil_virtual_memory (w_host w) with
         | Ok _, Ok _, Ok _, Ok _, Ok _ => e = NameError "pyopencl"
         | _, _, _, _, _ => True
         end.
Proof.
  pose proof (gpu_get_system_info_run cl_get_platforms w) as Hinfo.
  unfold Gpu.run_gpu_benchmarks. revert Hinfo.
  destruct (platform_processor (w_host w)), (platform_machine (w_host w)),
    (psutil_cpu_count (w_host w) true), (psutil_cpu_count (w_host w) false),
    (psutil_virtual_memory (w_host w));
    intros Hinfo;
    (lazymatch type of Hinfo with
     | ex _ => destruct Hinfo as [? Hinfo]
     | _ => idtac
     end);
    eexists; (erewrite bind_raise by exact Hinfo); done.
Qed.

(** ** The block of the memory read/write unit *)

(** The write loop after [k] passes: the first [k] bytes hold the
    pattern, the others are still zero. *)
Lemma write_pattern_loop (k : nat) (rest : nat) :
  for_each (fun data i => Memory.bytearray_setitem data i (i `mod` 256))
           (seqZ 0 (Z.of_nat k)) (replicate (k + rest) 0)
  = Ok (((fun i => i `mod` 256) <$> seqZ 0 (Z.of_nat k)) ++ replicate rest 0).
Proof.
  revert rest. induction k as [|k IH]; intros rest; [done|].
  rewrite seqZ_S, Z.add_0_l.
  assert (∀ (l1 l2 : list Z) s,
            for_each (fun data i => Memory.bytearray_setitem data i (i `mod` 256))
                     (l1 ++ l2) s
            = s' ← for_each (fun data i => Memory.bytearray_setitem data i (i `mod` 256))
                            l1 s;
              for_each (fun data i => Memory.bytearray_setitem data i (i `mod` 256))
                       l2 s') as Happ.
  { induction l1 as [|x l1 IHl]; intros l2 s; [done|]. simpl.
    destruct (Memory.bytearray_setitem s x (x `mod` 256)); simpl; [apply IHl|done]. }
  rewrite Happ. replace (S k + rest)%nat with (k + S rest)%nat by lia.
  rewrite IH. simpl. unfold Memory.bytearray_setitem.
  pose proof (Z.mod_pos_bound (Z.of_nat k) 256 ltac:(lia)) as Hbyte.
  destruct (Z.leb_spec 0 (Z.of_nat k `mod` 256)); [|lia].
  destruct (Z.ltb_spec (Z.of_nat k `mod` 256) 256); [|lia]. simpl.
  rewrite list_setitem_in_range.
  2:{ rewrite length_app, length_fmap, length_seqZ. simpl. lia. }
  simpl. f_equal. rewrite fmap_app, <- app_assoc. simpl.
  rewrite insert_app_r_alt by (rewrite length_fmap, length_seqZ; lia).
  rewrite length_fmap, length_seqZ.
  replace (Z.to_nat (Z.of_nat k) - Z.to_nat (Z.of_nat k))%nat with 0%nat by lia.
  done.
Qed.

Lemma py_sum_app (l1 l2 : list Z) : Memory.py_sum (l1 ++ l2) = Memory.py_sum l1 + Memory.py_sum l2.
Proof.
  unfold Memory.py_sum. rewrite fold_left_app.
  assert (∀ l a, fold_left Z.add l a = a + fold_left Z.add l 0) as Hacc.
  { induction l as [|x l IH]; intros a; simpl; [lia|].
    rewrite (IH (a + x)), (IH (0 + x)). lia. }
  apply Hacc.
Qed.

(** Twice the sum of the pattern over the first [k] bytes. *)
Lemma pattern_sum (k : nat) :
  2 * Memory.py_sum ((fun i => i `mod` 256) <$> seqZ 0 (Z.of_nat k))
  = 255 * 256 * (Z.of_nat k `div` 256)
    + (Z.of_nat k `mod` 256) * (Z.of_nat k `mod` 256 - 1).
Proof.
  induction k as [|k IH]; [done|].
  rewrite seqZ_S, Z.add_0_l, fmap_app, py_sum_app. simpl.
  change (Memory.py_sum [Z.of_nat k `mod` 256]) with (0 + Z.of_nat k `mod` 256).
  rewrite Z.mul_add_distr_l, IH.
  pose proof (Z.div_mod (Z.of_nat k) 256 ltac:(lia)) as Hk.
  pose proof (Z.mod_pos_bound (Z.of_nat k) 256 ltac:(lia)) as Hr.
  set (q := Z.of_nat k `div` 256) in *. set (r := Z.of_nat k `mod` 256) in *.
  replace (Z.of_nat (S k)) with (Z.of_nat k + 1) by lia.
  destruct (decide (r = 255)) as [Hlast|Hmore].
  - assert ((Z.of_nat k + 1) `div` 256 = q + 1) as ->
      by (symmetry; apply (Z.div_unique _ _ _ 0); lia).
    assert ((Z.of_nat k + 1) `mod` 256 = 0) as ->
      by (symmetry; apply (Z.mod_unique _ _ (q + 1)); lia).
    lia.
  - assert ((Z.of_nat k + 1) `div` 256 = q) as ->
      by (symmetry; apply (Z.div_unique _ _ _ (r + 1)); lia).
    assert ((Z.of_nat k + 1) `mod` 256 = r + 1) as ->
      by (symmetry; apply (Z.mod_unique _ _ q); lia).
    lia.
Qed.

(** X16. The write loop of [benchmark_memory_read_write] never raises on
    a block of any size that can be allocated: every index is inside the
    block and every value stored is a byte. Afterwards byte [i] holds
    [i % 256], and the sum that is read back is 32640 for each full run
    of 256 bytes plus [r * (r - 1) / 2] for the [r] bytes left over. A
    negative size is a [ValueError] of [bytearray]. *)
Theorem memory_read_write_pattern (size_bytes : Z) :
  Memory.memory_read_write_body size_bytes
  = if size_bytes <? 0 then Raise (ValueError "negative count")
    else Ok ((fun i => i `mod` 256) <$> py_range 0 size_bytes,
             32640 * (size_bytes `div` 256)
             + ((size_bytes `mod` 256) * (size_bytes `mod` 256 - 1)) `div` 2).
Proof.
  unfold Memory.memory_read_write_body, Memory.bytearray_new.
  destruct (Z.ltb_spec size_bytes 0) as [|Hsize]; [done|]. simpl.
  unfold py_range. replace (size_bytes - 0) with (Z.of_nat (Z.to_nat size_bytes)) by lia.
  pose proof (write_pattern_loop (Z.to_nat size_bytes) 0) as Hloop.
  rewrite Nat.add_0_r in Hloop. rewrite Hloop. simpl. rewrite app_nil_r.
  do 2 f_equal.
  pose proof (pattern_sum (Z.to_nat size_bytes)) as Hsum.
  rewrite Z2Nat.id in * by done.
  set (r := size_bytes `mod` 256) in *.
  assert ((r * (r - 1)) `mod` 2 = 0) as Heven.
  { rewrite Z.mul_mod by lia.
    pose proof (Z.mod_pos_bound r 2 ltac:(lia)).
    destruct (decide (r `mod` 2 = 0)) as [->|]; [done|].
    assert (r `mod` 2 = 1) as Hodd by lia.
    assert ((r - 1) `mod` 2 = 0) as ->; [|by rewrite Z.mul_0_r].
    rewrite Zminus_mod, Hodd. done. }
  pose proof (Z.div_mod (r * (r - 1)) 2 ltac:(lia)). lia.
Qed.

(** ** Searching and splitting *)

Lemma string_length_app (a b : string) :
  String.length (a +:+ b) = (String.length a + String.length b)%nat.
Proof. induction a as [|c a IH]; [done|]. simpl. by rewrite IH. Qed.

Lemma prefix_nil (s : string) : String.prefix "" s = true.
Proof. by destruct s. Qed.

Lemma prefix_app (sep b : string) : String.prefix sep (sep +:+ b) = true.
Proof.
  induction sep as [|c sep IH]; [apply prefix_nil|].
  simpl. by destruct (ascii_dec c c).
Qed.

Lemma str_drop_app (sep b : string) : str_drop (String.length sep) (sep +:+ b) = b.
Proof. induction sep as [|c sep IH]; [done|]. exact IH. Qed.

Lemma prefix_drop (sep s : string) :
  String.prefix sep s = true → s = sep +:+ str_drop (String.length sep) s.
Proof.
  revert s. induction sep as [|c sep IH]; intros s Hs; [done|].
  destruct s as [|c' s]; [done|]. simpl in Hs.
  destruct (ascii_dec c c') as [<-|]; [|done].
  change (String c s = String c (sep +:+ str_drop (String.length sep) s)).
  f_equal. by apply IH.
Qed.

Lemma prefix_app_long (sep x y : string) :
  (String.length sep ≤ String.length x)%nat →
  String.prefix sep (x +:+ y) = String.prefix sep x.
Proof.
  revert x. induction sep as [|c sep IH]; intros x Hlen.
  - by rewrite !prefix_nil.
  - destruct x as [|c' x]; [simpl in Hlen; lia|]. simpl.
    destruct (ascii_dec c c'); [|done]. apply IH. simpl in Hlen. lia.
Qed.

Lemma str_partition_unfold (sub s : string) :
  str_partition sub s
  = if String.prefix sub s then Some ("", str_drop (String.length sub) s)
    else match s with
         | EmptyString => None
         | String c s' =>
             match str_partition sub s' with
             | Some (before, after) => Some (String c before, after)
             | None => None
             end
         end.
Proof. by destruct s. Qed.

(** What [str_partition] finds is a place where the text stands. *)
Lemma str_partition_spec (sub s a b : string) :
  str_partition sub s = Some (a, b) → s = a +:+ sub +:+ b.
Proof.
  revert a b. induction s as [|c s IH]; intros a b; rewrite str_partition_unfold.
  - destruct (String.prefix sub "") eqn:Hp; [|done].
    intros [= <- <-]. by apply prefix_drop.
  - destruct (String.prefix sub (String c s)) eqn:Hp.
    + intros [= <- <-]. by apply prefix_drop.
    + destruct (str_partition sub s) as [[a' b']|] eqn:Hrest; [|done].
      intros [= <- <-].
      change (String c s = String c (a' +:+ sub +:+ b')).
      f_equal. by apply IH.
Qed.

Lemma str_partition_nil (sub : string) : sub ≠ "" → str_partition sub "" = None.
Proof. by destruct sub. Qed.

(** The first place where [sep] stands in [a +:+ sep +:+ b] is after [a]
    when [sep] does not begin inside [a]. *)
Lemma str_partition_first (sep a b : string) :
  ends_at_first sep a → str_partition sep (a +:+ sep +:+ b) = Some (a, b).
Proof.
  unfold ends_at_first. induction a as [|c a IH].
  - intros _. change ("" +:+ sep +:+ b) with (sep +:+ b).
    rewrite str_partition_unfold, prefix_app. by rewrite str_drop_app.
  - change (String c a +:+ sep) with (String c (a +:+ sep)).
    change (String c a +:+ sep +:+ b) with (String c (a +:+ sep +:+ b)).
    rewrite (str_partition_unfold sep (String c (a +:+ sep))).
    destruct (String.prefix sep (String c (a +:+ sep))) eqn:Hp; [done|].
    destruct (str_partition sep (a +:+ sep)) as [[a' b']|] eqn:Hrest; [|done].
    intros [= -> ->].
    rewrite (str_partition_unfold sep (String c (a +:+ sep +:+ b))).
    replace (String.prefix sep (String c (a +:+ sep +:+ b)))
      with (String.prefix sep (String c (a +:+ sep) +:+ b))
      by (simpl; by rewrite string_app_assoc).
    rewrite prefix_app_long, Hp.
    2:{ simpl. rewrite string_length_app. lia. }
    by rewrite IH.
Qed.

(** A text that holds [sub] somewhere contains it. *)
Lemma str_contains_app (sub x y : string) : str_contains sub (x +:+ sub +:+ y) = true.
Proof.
  unfold str_contains. induction x as [|c x IH].
  - change ("" +:+ sub +:+ y) with (sub +:+ y).
    by rewrite str_partition_unfold, prefix_app.
  - change (String c x +:+ sub +:+ y) with (String c (x +:+ sub +:+ y)).
    rewrite str_partition_unfold.
    destruct (String.prefix sub _); [done|].
    by destruct (str_partition sub (x +:+ sub +:+ y)) as [[? ?]|].
Qed.

(** More fuel than the text has characters changes nothing. *)
Lemma str_split_pieces_fuel (sep : string) (f1 f2 : nat) (s : string) :
  sep ≠ "" → (String.length s ≤ f1)%nat → (String.length s ≤ f2)%nat →
  str_split_pieces f1 sep s = str_split_pieces f2 sep s.
Proof.
  intros Hsep. revert f2 s. induction f1 as [|f1 IH]; intros f2 s H1 H2.
  - destruct s; [|simpl in H1; lia].
    destruct f2; [done|]. cbn [str_split_pieces]. by rewrite str_partition_nil.
  - destruct f2 as [|f2].
    + destruct s; [|simpl in H2; lia].
      cbn [str_split_pieces]. by rewrite str_partition_nil.
    + cbn [str_split_pieces].
      destruct (str_partition sep s) as [[a b]|] eqn:Hpart; [|done].
      f_equal. apply str_partition_spec in Hpart. subst s.
      rewrite !string_length_app in H1, H2.
      assert (String.length sep ≠ 0%nat) by (by destruct sep).
      apply IH; lia.
Qed.

Lemma str_split_cons (sep a b : string) :
  sep ≠ "" → ends_at_first sep a →
  str_split sep (a +:+ sep +:+ b)
  = Ok (a :: str_split_pieces (String.length b) sep b).
Proof.
  intros Hsep Ha. unfold str_split. rewrite decide_False by done. f_equal.
  assert (String.length sep ≠ 0%nat) by (by destruct sep).
  destruct (String.length (a +:+ sep +:+ b)) as [|n] eqn:Hlen.
  { rewrite !string_length_app in Hlen. lia. }
  cbn [str_split_pieces]. rewrite str_partition_first by done. f_equal.
  rewrite !string_length_app in Hlen. apply str_split_pieces_fuel; [done|lia|lia].
Qed.

Lemma str_split_pieces_cons (sep a b : string) (fuel : nat) :
  sep ≠ "" → ends_at_first sep a →
  (String.length (a +:+ sep +:+ b) ≤ fuel)%nat →
  str_split_pieces fuel sep (a +:+ sep +:+ b)
  = a :: str_split_pieces (String.length b) sep b.
Proof.
  intros Hsep Ha Hfuel.
  pose proof (str_split_cons sep a b Hsep Ha) as Hsplit.
  unfold str_split in Hsplit. rewrite decide_False in Hsplit by done.
  injection Hsplit as <-. by apply str_split_pieces_fuel.
Qed.

Lemma str_split_pieces_single (sep s : string) (fuel : nat) :
  str_contains sep s = false → str_split_pieces fuel sep s = [s].
Proof.
  unfold str_contains. intros Hs. destruct fuel; [done|]. cbn [str_split_pieces].
  by destruct (str_partition sep s).
Qed.

(** ** Stepping through a [try] *)

Lemma try_except_ok {A} (body : M A) (handler : exn → M A) (a : A) (w w' : World) :
  body w = (Ok a, w') → Network.try_except body handler w = (Ok a, w').
Proof. intros Hbody. unfold Network.try_except. by rewrite Hbody. Qed.

Lemma try_except_raise {A} (body : M A) (handler : exn → M A) (e : exn) (w w' : World) :
  body w = (Raise e, w') → Network.try_except body handler w = handler e w'.
Proof. intros Hbody. unfold Network.try_except. by rewrite Hbody. Qed.

Lemma bind_returns {A B} (m : M A) (k : A → M B) (b : B) (w w' : World) :
  (x ← m; k x) w = (Ok b, w') → ∃ a w1, m w = (Ok a, w1) ∧ k a w1 = (Ok b, w').
Proof.
  unfold mbind, M_bind. destruct (m w) as [[a|e] w1]; [eauto|done].
Qed.

(** A [try] whose handler returns an outcome, around a body that returns
    outcomes only, returns an outcome in every world. *)
Lemma try_except_outcome (body : M (pyobj * string)) (exn_str : exn → string) (w : World) :
  (∀ v w', body w = (Ok v, w') → is_outcome v) →
  ∃ v w', Network.try_except body (Network.error_outcome exn_str) w = (Ok v, w')
          ∧ is_outcome v.
Proof.
  intros Hbody. unfold Network.try_except.
  destruct (body w) as [[v|e] w'] eqn:Hrun.
  - exists v, w'. split; [done|]. by eapply Hbody.
  - eexists _, w'. split; [reflexivity|]. by exists None.
Qed.

(** ** The units of the network script *)

Section NetworkUnits.
Variable speedtest_download : M float.
Variable speedtest_upload : M float.
Variable subprocess_run_stdout : list string → M string.
Variable shutil_which : string → M (option string).
Variable float_of_str : string → result float.
Variable exn_str : exn → string.

Lemma lift_returns {A} (r : result A) (a : A) (w w' : World) :
  lift r w = (Ok a, w') → r = Ok a ∧ w' = w.
Proof. unfold lift. by intros [= -> ->]. Qed.

(** Every value that the body of a unit returns is a measurement or
    [None]. *)
Ltac outcome_of_body :=
  repeat match goal with
    | H : (mbind _ _) _ = (Ok _, _) |- _ =>
        apply bind_returns in H as (? & ? & ? & H)
    | H : (if ?b then _ else _) _ = (Ok _, _) |- _ => destruct b
    | H : mret _ _ = (Ok _, _) |- _ => injection H as <- <-
    end;
  first [by eexists (Some _) | by exists None].

(** X17. The units that drive speedtest and ping never raise, whatever
    these tools do: an exception inside the [try] becomes the outcome
    [(None, "Error: ...")]. What they return is always a measurement or
    [None]. The iperf3 unit looks for the tool before its [try]: it
    raises only when that lookup raises. *)
Theorem network_units_never_raise (interface : string) (w : World) :
  (∃ v w', Network.benchmark_download_speed speedtest_download exn_str interface w
           = (Ok v, w') ∧ is_outcome v)
  ∧ (∃ v w', Network.benchmark_upload_speed speedtest_upload exn_str interface w
             = (Ok v, w') ∧ is_outcome v)
  ∧ (∃ v w', Network.benchmark_latency subprocess_run_stdout float_of_str exn_str
               interface w = (Ok v, w') ∧ is_outcome v)
  ∧ (∃ v w', Network.benchmark_packet_loss subprocess_run_stdout float_of_str exn_str
               interface w = (Ok v, w') ∧ is_outcome v)
  ∧ match shutil_which "iperf3" w with
    | (Ok _, _) =>
        ∃ v w', Network.benchmark_bandwidth subprocess_run_stdout shutil_which
                  float_of_str exn_str interface w = (Ok v, w') ∧ is_outcome v
    | (Raise e, w') =>
        Network.benchmark_bandwidth subprocess_run_stdout shutil_which
          float_of_str exn_str interface w = (Raise e, w')
    end.
Proof.
  split; [|split; [|split; [|split]]].
  - apply try_except_outcome. intros v w' Hbody. outcome_of_body.
  - apply try_except_outcome. intros v w' Hbody. outcome_of_body.
  - apply try_except_outcome. intros v w' Hbody. outcome_of_body.
  - apply try_except_outcome. intros v w' Hbody. outcome_of_body.
  - unfold Network.benchmark_bandwidth.
    destruct (shutil_which "iperf3" w) as [[found|e] w1] eqn:Hwhich.
    + erewrite bind_ok by exact Hwhich.
      destruct (py_not_optional_str found).
      * eexists _, w1. split; [reflexivity|]. by exists None.
      * apply try_except_outcome. intros v w' Hbody. outcome_of_body.
    + by erewrite bind_raise by exact Hwhich.
Qed.

(** X18. [benchmark_latency] on an output of [ping] that ends in the
    summary line [rtt min/avg/max/mdev = MIN/AVG/...]: the unit returns
    the number that [float] reads from [AVG], the second figure of the
    line, with the details [AVG ms (interface)]; when [float] rejects
    that text, it returns [None] with the message of the error. Nothing
    that stands before the line plays a part. *)
Theorem latency_reads_average (interface pre mn avg rest : string) (w w1 : World) :
  subprocess_run_stdout ["ping"; "-I"; interface; "-c"; "5"; "8.8.8.8"] w
  = (Ok (pre +:+ "rtt min/avg/max/mdev = " +:+ mn +:+ "/" +:+ avg +:+ "/" +:+ rest), w1) →
  ends_at_first "rtt min/avg/max/mdev = " pre →
  str_contains "rtt min/avg/max/mdev = " (mn +:+ "/" +:+ avg +:+ "/" +:+ rest) = false →
  ends_at_first "/" mn → ends_at_first "/" avg →
  Network.benchmark_latency subprocess_run_stdout float_of_str exn_str interface w
  = (Ok match float_of_str avg with
        | Ok x => (PyFloat x, avg +:+ " ms (" +:+ interface +:+ ")")
        | Raise e => (PyNone, "Error: " +:+ exn_str e)
        end, w1).
Proof.
  intros Hrun Hpre Htail Hmn Havg.
  set (tail := mn +:+ "/" +:+ avg +:+ "/" +:+ rest) in *.
  assert (str_contains "rtt min/avg/max/mdev"
            (pre +:+ "rtt min/avg/max/mdev = " +:+ tail) = true) as Hmarker.
  { change "rtt min/avg/max/mdev = " with ("rtt min/avg/max/mdev" +:+ " = ").
    rewrite (string_app_assoc "rtt min/avg/max/mdev"). apply str_contains_app. }
  assert (str_split "rtt min/avg/max/mdev = " (pre +:+ "rtt min/avg/max/mdev = " +:+ tail)
          = Ok [pre; tail]) as Hpieces.
  { rewrite str_split_cons by done. by rewrite str_split_pieces_single. }
  assert (∃ more, str_split "/" tail = Ok (mn :: avg :: more)) as [more Hfigures].
  { unfold tail. rewrite str_split_cons by done.
    rewrite str_split_pieces_cons by (done || lia). eauto. }
  assert (list_getitem (mn :: avg :: more) 1 = Ok avg) as Hsecond
    by (by apply list_getitem_in_range).
  unfold Network.benchmark_latency.
  destruct (float_of_str avg) as [x|e] eqn:Hfloat.
  - apply try_except_ok.
    erewrite bind_ok by exact Hrun. rewrite Hmarker.
    erewrite bind_ok by (unfold lift; rewrite Hpieces; reflexivity).
    erewrite bind_ok by reflexivity.
    erewrite bind_ok by (unfold lift; rewrite Hfigures; reflexivity).
    erewrite bind_ok by (unfold lift; rewrite Hsecond; reflexivity).
    erewrite bind_ok by (unfold lift; rewrite Hfloat; reflexivity).
    reflexivity.
  - erewrite try_except_raise; [reflexivity|].
    erewrite bind_ok by exact Hrun. rewrite Hmarker.
    erewrite bind_ok by (unfold lift; rewrite Hpieces; reflexivity).
    erewrite bind_ok by reflexivity.
    erewrite bind_ok by (unfold lift; rewrite Hfigures; reflexivity).
    erewrite bind_ok by (unfold lift; rewrite Hsecond; reflexivity).
    erewrite bind_raise; [reflexivity|]. unfold lift. by rewrite Hfloat.
Qed.

(** X19. [benchmark_packet_loss] takes its figure from the third of the
    fields that [", "] separates in the whole output, whether or not
    that is the field that says [packet loss]: the text of that field up
    to its first [%], or all of it when it has none, goes to [float].
    So on a summary that counts errors before the loss ([..., 0
    received, +10 errors, 100% packet loss, ...]) the unit reads [+10
    errors] and returns [None] with the message of [float]'s error; the
    loss itself is not reported. *)
Theorem packet_loss_reads_third_field (interface a b field loss rest : string)
    (w w1 : World) :
  subprocess_run_stdout ["ping"; "-I"; interface; "-c"; "10"; "8.8.8.8"] w
  = (Ok (a +:+ ", " +:+ b +:+ ", " +:+ field +:+ ", " +:+ rest), w1) →
  str_contains "packet loss" (a +:+ ", " +:+ b +:+ ", " +:+ field +:+ ", " +:+ rest)
  = true →
  ends_at_first ", " a → ends_at_first ", " b → ends_at_first ", " field →
  (∃ after, field = loss +:+ "%" +:+ after ∧ ends_at_first "%" loss)
  ∨ (field = loss ∧ str_contains "%" field = false) →
  Network.benchmark_packet_loss subprocess_run_stdout float_of_str exn_str interface w
  = (Ok match float_of_str loss with
        | Ok x => (PyFloat x, loss +:+ " % (" +:+ interface +:+ ")")
        | Raise e => (PyNone, "Error: " +:+ exn_str e)
        end, w1).
Proof.
  intros Hrun Hmarker Ha Hb Hfield Hloss.
  assert (∃ more, str_split ", " (a +:+ ", " +:+ b +:+ ", " +:+ field +:+ ", " +:+ rest)
                  = Ok (a :: b :: field :: more)) as [more Hfields].
  { rewrite str_split_cons by done.
    rewrite str_split_pieces_cons by (done || lia).
    rewrite str_split_pieces_cons by (done || lia). eauto. }
  assert (∃ more, str_split "%" field = Ok (loss :: more)) as [parts Hparts].
  { destruct Hloss as [(after & -> & Hfirst)|[-> Hnone]].
    - rewrite str_split_cons by done. eauto.
    - unfold str_split. rewrite decide_False by done.
      rewrite str_split_pieces_single by done. eauto. }
  assert (list_getitem (a :: b :: field :: more) 2 = Ok field) as Hthird
    by (by apply list_getitem_in_range).
  assert (list_getitem (loss :: parts) 0 = Ok loss) as Hhead
    by (by apply list_getitem_in_range).
  unfold Network.benchmark_packet_loss.
  destruct (float_of_str loss) as [x|e] eqn:Hfloat.
  - apply try_except_ok.
    erewrite bind_ok by exact Hrun. rewrite Hmarker.
    erewrite bind_ok by (unfold lift; rewrite Hfields; reflexivity).
    erewrite bind_ok by (unfold lift; rewrite Hthird; reflexivity).
    erewrite bind_ok by (unfold lift; rewrite Hparts; reflexivity).
    erewrite bind_ok by (unfold lift; rewrite Hhead; reflexivity).
    erewrite bind_ok by (unfold lift; rewrite Hfloat; reflexivity).
    reflexivity.
  - erewrite try_except_raise; [reflexivity|].
    erewrite bind_ok by exact Hrun. rewrite Hmarker.
    erewrite bind_ok by (unfold lift; rewrite Hfields; reflexivity).
    erewrite bind_ok by (unfold lift; rewrite Hthird; reflexivity).
    erewrite bind_ok by (unfold lift; rewrite Hparts; reflexivity).
    erewrite bind_ok by (unfold lift; rewrite Hhead; reflexivity).
    erewrite bind_raise; [reflexivity|]. unfold lift. by rewrite Hfloat.
Qed.

(** X20. [benchmark_bandwidth], with iperf3 installed, on an output that
    holds the word [receiver] once: the figure is the last but one of the
    words that follow [receiver], up to the end of the output. What
    stands before the word, where iperf3 prints the bitrate of the
    receiver line, plays no part. With fewer than two words after it the
    unit returns [None] with the message of the [IndexError], and with a
    word that [float] rejects, [None] with the message of that error. *)
Theorem bandwidth_reads_after_receiver (interface path pre post : string)
    (w w1 w2 : World) :
  shutil_which "iperf3" w = (Ok (Some path), w1) → path ≠ "" →
  subprocess_run_stdout
    ["iperf3"; "-c"; "ping.online.net"; "-p"; "5200"; "-B"; interface] w1
  = (Ok (pre +:+ "receiver" +:+ post), w2) →
  ends_at_first "receiver" pre → str_contains "receiver" post = false →
  Network.benchmark_bandwidth subprocess_run_stdout shutil_which float_of_str exn_str
    interface w
  = (Ok match list_getitem (str_split_whitespace post) (-2) with
        | Ok speed =>
            match float_of_str speed with
            | Ok x => (PyFloat x,
                       "iperf3 Bandwidth to ping.online.net: " +:+ speed
                       +:+ " Mbps (" +:+ interface +:+ ")")
            | Raise e => (PyNone, "Error: " +:+ exn_str e)
            end
        | Raise e => (PyNone, "Error: " +:+ exn_str e)
        end, w2).
Proof.
  intros Hwhich Hpath Hrun Hpre Hpost.
  assert (str_split "receiver" (pre +:+ "receiver" +:+ post) = Ok [pre; post]) as Hpieces.
  { rewrite str_split_cons by done. by rewrite str_split_pieces_single. }
  unfold Network.benchmark_bandwidth.
  erewrite bind_ok by exact Hwhich.
  assert (py_not_optional_str (Some path) = false) as -> by (by destruct path).
  destruct (list_getitem (str_split_whitespace post) (-2)) as [speed|e] eqn:Hspeed.
  1: destruct (float_of_str speed) as [x|e] eqn:Hfloat.
  - apply try_except_ok.
    erewrite bind_ok by exact Hrun. rewrite str_contains_app.
    erewrite bind_ok by (unfold lift; rewrite Hpieces; reflexivity).
    erewrite bind_ok by reflexivity.
    erewrite bind_ok by (unfold lift; rewrite Hspeed; reflexivity).
    erewrite bind_ok by (unfold lift; rewrite Hfloat; reflexivity).
    reflexivity.
  - erewrite try_except_raise; [reflexivity|].
    erewrite bind_ok by exact Hrun. rewrite str_contains_app.
    erewrite bind_ok by (unfold lift; rewrite Hpieces; reflexivity).
    erewrite bind_ok by reflexivity.
    erewrite bind_ok by (unfold lift; rewrite Hspeed; reflexivity).
    erewrite bind_raise; [reflexivity|]. unfold lift. by rewrite Hfloat.
  - erewrite try_except_raise; [reflexivity|].
    erewrite bind_ok by exact Hrun. rewrite str_contains_app.
    erewrite bind_ok by (unfold lift; rewrite Hpieces; reflexivity).
    erewrite bind_ok by reflexivity.
    erewrite bind_raise; [reflexivity|]. unfold lift. by rewrite Hspeed.
Qed.

End NetworkUnits.

Lemma latency_reads_average_witness :
  Network.benchmark_latency
    (tool_prints
       (ping_heading +:+ "5 packets transmitted, 5 received, 0% packet loss, time 4006ms"
        +:+ NL +:+ "rtt min/avg/max/mdev = 11.7/12.5/13.9/0.8 ms" +:+ NL))
    sample_float_of_str sample_exn_str "eth0" loopback_only_world
  = (Ok (PyFloat (float_div (float_of_Z 25) (float_of_Z 2)), "12.5 ms (eth0)"),
     loopback_only_world).
Proof.
  apply (latency_reads_average
           (tool_prints
              (ping_heading
               +:+ "5 packets transmitted, 5 received, 0% packet loss, time 4006ms"
               +:+ NL +:+ "rtt min/avg/max/mdev = 11.7/12.5/13.9/0.8 ms" +:+ NL))
           sample_float_of_str sample_exn_str "eth0"
           (ping_heading
            +:+ "5 packets transmitted, 5 received, 0% packet loss, time 4006ms" +:+ NL)
           "11.7" "12.5" ("13.9/0.8 ms" +:+ NL) loopback_only_world loopback_only_world).
  - reflexivity.
  - by vm_compute.
  - by vm_compute.
  - by vm_compute.
  - by vm_compute.
Defined.

Lemma packet_loss_reads_third_field_witness :
  Network.benchmark_packet_loss
    (tool_prints
       (ping_unreachable_heading
        +:+ "10 packets transmitted, 0 received, +10 errors, 100% packet loss, time 9217ms"
        +:+ NL))
    sample_float_of_str sample_exn_str "eth0" loopback_only_world
  = (Ok (PyNone, "Error: could not convert string to float: '+10 errors'"),
     loopback_only_world).
Proof.
  apply (packet_loss_reads_third_field
           (tool_prints
              (ping_unreachable_heading
               +:+ "10 packets transmitted, 0 received, +10 errors, 100% packet loss, time 9217ms"
               +:+ NL))
           sample_float_of_str sample_exn_str "eth0"
           (ping_unreachable_heading +:+ "10 packets transmitted")
           "0 received" "+10 errors" "+10 errors"
           ("100% packet loss, time 9217ms" +:+ NL)
           loopback_only_world loopback_only_world).
  - reflexivity.
  - by vm_compute.
  - by vm_compute.
  - by vm_compute.
  - by vm_compute.
  - right. split; [reflexivity|by vm_compute].
Defined.

Lemma bandwidth_reads_after_receiver_witness :
  Network.benchmark_bandwidth
    (tool_prints (iperf3_receiver_line +:+ "receiver" +:+ iperf3_closing))
    tool_installed sample_float_of_str sample_exn_str "eth0" loopback_only_world
  = (Ok (PyNone, "Error: could not convert string to float: 'iperf'"),
     loopback_only_world).
Proof.
  apply (bandwidth_reads_after_receiver
           (tool_prints (iperf3_receiver_line +:+ "receiver" +:+ iperf3_closing))
           tool_installed sample_float_of_str sample_exn_str "eth0"
           "/usr/bin/iperf3" iperf3_receiver_line iperf3_closing
           loopback_only_world loopback_only_world loopback_only_world).
  - reflexivity.
  - done.
  - reflexivity.
  - by vm_compute.
  - by vm_compute.
Defined.

(** ** Writes at random places of the test file *)





Section RandomWrites.
Variable urandom_bytes : Z → string.
Variable random_randint : Z → Z → M Z.
Hypothesis urandom_length :
  ∀ n, 0 ≤ n → Z.of_nat (String.length (urandom_bytes n)) = n.
Hypothesis randint_in_range :
  ∀ a b, silent (random_randint a b) (fun r => a ≤ r ≤ b).



End RandomWrites.




(** ** What a unit that returned has measured (claim C4) *)

Lemma py_alloc_returns (refusal : string) (size : Z) (a : unit) (w w' : World) :
  py_alloc refusal size w = (Ok a, w') → w' = w.
Proof.
  unfold py_alloc.
  destruct (size <? 0); [by intros [= _ ->]|].
  destruct (size <=? mem_free (w_host w)); by intros [= _ ->].
Qed.

Lemma np_alloc_returns (shape : list Z) (itemsize : Z) (a : unit) (w w' : World) :
  np_alloc shape itemsize w = (Ok a, w') → w' = w.
Proof.
  unfold np_alloc. destruct (forallb _ _); [apply py_alloc_returns|].
  by intros [= _ ->].
Qed.

Lemma time_time_returns (x : float) (w w' : World) :
  time_time w = (Ok x, w') → x = w_time w (w_now w) ∧ w' = set_now (S (w_now w)) w.
Proof. unfold time_time. by intros [= <- <-]. Qed.

(** Going back through a unit that returned: every step before the last
    one returned, the allocations and the workloads left the world as it
    was, and the clock was read where the source reads it. *)
Ltac unit_returned H :=
  repeat match type of H with
    | (mbind _ _) _ = (Ok _, _) =>
        let Hstep := fresh "Hstep" in
        apply bind_returns in H as (? & ? & Hstep & H);
        first [ apply time_time_returns in Hstep as [-> ->]
              | apply py_alloc_returns in Hstep as ->
              | apply np_alloc_returns in Hstep as ->
              | apply lift_returns in Hstep as [_ ->] ]
    end;
  injection H as <- <-.

(** C4, as amended. What a unit of the CPU suite or of the memory suite
    returns, and what the storage units that write the test file and
    that create and remove files return, is, for every parameter and in
    every world in which the unit returns: the second reading of
    [time.time()], the system clock, minus the first one, the two readings
    being the only ones the unit takes. The difference is recorded as it
    comes; nothing clamps it. *)
Theorem duration_is_system_clock_difference `{PyRuntime} (urandom_bytes : Z → string)
    (n iterations size threads size_mb num_operations : Z)
    (unit : M (pyobj * string)) (v : pyobj * string) (w w' : World) :
  unit ∈ [ Cpu.benchmark_prime_numbers n; Cpu.benchmark_sieve_of_eratosthenes n;
           Cpu.benchmark_sha256 iterations; Cpu.benchmark_aes_encryption iterations;
           Cpu.benchmark_gzip_compression size; Cpu.benchmark_numpy_operations size;
           Cpu.benchmark_sorting n; Cpu.benchmark_multi_threaded_prime n threads;
           Memory.benchmark_memory_read_write size_mb;
           Memory.benchmark_memory_bandwidth size_mb;
           Memory.benchmark_memory_allocation size_mb;
           Memory.benchmark_page_faults iterations;
           Memory.benchmark_random_access_latency iterations;
           Storage.benchmark_sequential_write urandom_bytes size_mb;
           Storage.benchmark_file_iops num_operations ] →
  unit w = (Ok v, w') →
  v.1 = PyFloat (float_sub (w_time w (S (w_now w))) (w_time w (w_now w)))
  ∧ w_time w' = w_time w ∧ w_now w' = S (S (w_now w)).
Proof.
  intros Hin Hrun.
  repeat (apply elem_of_cons in Hin as [->|Hin]); [..|by apply elem_of_nil in Hin].
  1-13: unfold Cpu.benchmark_prime_numbers, Cpu.benchmark_sieve_of_eratosthenes,
    Cpu.benchmark_sha256, Cpu.benchmark_aes_encryption, Cpu.benchmark_gzip_compression,
    Cpu.benchmark_numpy_operations, Cpu.benchmark_sorting,
    Cpu.benchmark_multi_threaded_prime, Memory.benchmark_memory_read_write,
    Memory.benchmark_memory_bandwidth, Memory.benchmark_memory_allocation,
    Memory.benchmark_page_faults, Memory.benchmark_random_access_latency in Hrun;
    cbv zeta in Hrun; unit_returned Hrun; done.
  - rewrite sequential_write_run in Hrun.
    destruct (_ <? _); [done|]. destruct (_ <=? _); [|done].
    by injection Hrun as <- <-.
  - unfold Storage.benchmark_file_iops in Hrun.
    apply bind_returns in Hrun as (start_time & w1 & Hstart & Hrun).
    apply time_time_returns in Hstart as [-> ->].
    apply bind_returns in Hrun as ([] & w2 & Hloop & Hrun).
    destruct (iops_loop (py_range 0 num_operations) (set_now (S (w_now w)) w))
      as (fs & Hfs & _). rewrite Hfs in Hloop. injection Hloop as <-.
    apply bind_returns in Hrun as (end_time & w3 & Hend & Hrun).
    apply time_time_returns in Hend as [-> ->].
    by injection Hrun as <- <-.
Qed.

Lemma duration_is_system_clock_difference_witness :
  ∃ v w',
    @Cpu.benchmark_prime_numbers sample_runtime 10 clock_set_back_world = (Ok v, w')
    ∧ v.1 = PyFloat (float_sub (w_time clock_set_back_world 1%nat)
                       (w_time clock_set_back_world 0%nat))
    ∧ w_time w' = w_time clock_set_back_world
    ∧ w_now w' = 2%nat.
Proof.
  eexists _, _. split; [apply cpu_prime_numbers_run|].
  apply (@duration_is_system_clock_difference sample_runtime (fun _ => "")
           10 0 0 0 0 0 (@Cpu.benchmark_prime_numbers sample_runtime 10)).
  - by left.
  - apply cpu_prime_numbers_run.
Defined.

(** ** The lines of a report (claim C5) *)

Lemma outcome_line_shape (outcome : string * (float * string)) :
  is_finite outcome.2.1 = true →
  ∃ whole decimals,
    outcome_line outcome
    = outcome.1 +:+ " (" +:+ outcome.2.2 +:+ "): " +:+ whole +:+ "." +:+ decimals
      +:+ " sec"
    ∧ two_decimal_digits decimals = true.
Proof.
  destruct outcome as [test [x params]]. simpl. intros Hx.
  destruct (format_2f_two_decimals x Hx) as (whole & decimals & Hfmt & Hdec).
  exists whole, decimals. split; [|done].
  rewrite Hfmt. by rewrite !string_app_assoc.
Qed.

(** C5. A report that is rendered shows a measurement as
    [name (params): d.dd sec], with a point and exactly two decimals, and
    shows an outcome without a measurement, which only the network units
    return, as [name (reason): None], the reason as it is and no
    number. [log_results] of the storage script, for the outcomes of
    units that returned a measurement, and [log_results] of the network
    script, for outcomes with and without one, append the whole block
    with these lines. The one outcome without a measurement that a
    storage unit has, that of the read unit without its file, does not
    arise after a write unit that returned. *)
Theorem report_lines_show_duration_or_reason `{PyRuntime}
    (system_info : dict pyobj) (w : World) :
  (∀ outcomes : list (string * (float * string)),
     Forall (fun outcome => is_finite outcome.2.1 = true) outcomes →
     Storage.log_results system_info (measured outcomes) w
     = (Ok tt,
        appended Storage.LOG_FILE
          (unlines ([banner; "Storage Benchmark Run "; banner]
                    ++ (info_line <$> system_info)
                    ++ [""; "Storage Benchmark Results:"]
                    ++ (outcome_line <$> outcomes) ++ [""; ""])) w)
     ∧ Forall (fun outcome =>
                 ∃ whole decimals,
                   outcome_line outcome
                   = outcome.1 +:+ " (" +:+ outcome.2.2 +:+ "): " +:+ whole +:+ "."
                     +:+ decimals +:+ " sec"
                   ∧ two_decimal_digits decimals = true) outcomes)
  ∧ (∀ outcomes : list (string * (option float * string)),
       Forall (fun outcome => ∀ x, outcome.2.1 = Some x → is_finite x = true) outcomes →
       Network.log_results system_info (recorded outcomes) w
       = (Ok tt,
          appended Network.LOG_FILE
            (unlines ([banner; "Network Benchmark Run "; banner]
                      ++ (info_line <$> system_info)
                      ++ [""; "Network Benchmark Results:"]
                      ++ (network_outcome_line <$> outcomes) ++ [""; ""])) w)
       ∧ Forall (fun outcome =>
                   match outcome.2.1 with
                   | Some x =>
                       ∃ whole decimals,
                         network_outcome_line outcome
                         = outcome.1 +:+ " (" +:+ outcome.2.2 +:+ "): " +:+ whole
                           +:+ "." +:+ decimals +:+ " sec"
                         ∧ two_decimal_digits decimals = true
                   | None =>
                       network_outcome_line outcome
                       = outcome.1 +:+ " (" +:+ outcome.2.2 +:+ "): None"
                   end) outcomes)
  ∧ (∀ urandom_bytes size_mb v w1,
       Storage.benchmark_sequential_write urandom_bytes size_mb w = (Ok v, w1) →
       ∃ x, (Storage.benchmark_sequential_read w1).1
            = Ok (PyFloat x, "file=test_benchmark.dat")).
Proof.
  split; [|split].
  - intros outcomes Hfinite. split; [apply storage_log_results_measured|].
    eapply Forall_impl; [exact Hfinite|]. intros outcome. apply outcome_line_shape.
  - intros outcomes Hfinite. split; [apply network_log_results_recorded|].
    eapply Forall_impl; [exact Hfinite|].
    intros [test [[x|] params]] Hx; simpl in *; [|done].
    apply (outcome_line_shape (test, (x, params))). by apply Hx.
  - intros urandom_bytes size_mb v w1. rewrite sequential_write_run.
    destruct (_ <? _); [done|]. destruct (_ <=? _); [|done]. intros [= <- <-].
    rewrite sequential_read_run. simpl. rewrite lookup_insert_eq. eauto.
Qed.

Lemma report_lines_show_duration_or_reason_witness :
  @Network.log_results sample_runtime [("Cores", PyInt 4)]
    (recorded [ ("Download Speed Test", (None, "Error: Network is unreachable"));
                ("DNS Resolution Speed", (Some (float_of_Z 2), "DNS Resolution Time")) ])
    low_memory_world
  = (Ok tt,
     appended Network.LOG_FILE
       (unlines [ banner; "Network Benchmark Run "; banner; "Cores: 4"; "";
                  "Network Benchmark Results:";
                  "Download Speed Test (Error: Network is unreachable): None";
                  "DNS Resolution Speed (DNS Resolution Time): 2.00 sec"; ""; "" ])
       low_memory_world).
Proof.
  apply (proj1 (proj2 (@report_lines_show_duration_or_reason sample_runtime
                         [("Cores", PyInt 4)] low_memory_world))
           [ ("Download Speed Test", (None, "Error: Network is unreachable"));
             ("DNS Resolution Speed", (Some (float_of_Z 2), "DNS Resolution Time")) ]).
  apply Forall_cons. split; [done|].
  apply Forall_cons. split; [|constructor].
  intros x [= <-]. by vm_compute.
Defined.
